(** * Data-quality checks of [backend.py] and [dq.py]

    A shallow embedding of the detectors (missing values, type mismatches,
    duplicate rows, pattern-invalid values, consistency rules) and of the
    JSON normaliser, followed by the properties of the specification that
    they satisfy or miss.

    Conventions.
    - A Python [float] is an IEEE-754 value, [spec_float] of the standard
      library; arithmetic on it is binary64 arithmetic with rounding to
      nearest even ([SFdiv 53 1024], [SFmul 53 1024]).
    - A Python exception that [except Exception] can catch is [Raise msg],
      where [msg] is what [str(e)] gives.
    - A Python dict is an association list in insertion order.
    - A pandas DataFrame is the list of its columns, with the default
      0-based index; library calls on it ([isnull], [duplicated], [apply],
      [astype(str)], [str.match], [value_counts]) are given by what they
      compute on that list.
    - What the environment decides is a parameter of the definitions:
      the [repr] of a float, the parser of [pandas.to_numeric], what
      [astype(str)] does to a missing cell (it changed with pandas 3),
      what [re.match] finds for a compiled pattern, [==] of objects of
      other types than the built-in scalars, and the room that the
      stack leaves to a recursion. *)

From Stdlib Require Import ZArith List String Ascii Bool Arith Lia Sorted.
From Stdlib Require Import Permutation.
From Stdlib Require Import Floats.SpecFloat.
From Stdlib Require Import DecimalString.
Import ListNotations.

Set Implicit Arguments.

(* ================================================================== *)
(** * Python values *)
(* ================================================================== *)

(** ** Exceptions *)

Inductive exc (A : Type) : Type :=
| Ret (a : A)
| Raise (msg : string).

Arguments Ret {A} a.
Arguments Raise {A} msg.

Definition bind {A B : Type} (m : exc A) (k : A -> exc B) : exc B :=
  match m with
  | Ret a => k a
  | Raise msg => Raise msg
  end.

Declare Scope exc_scope.
Delimit Scope exc_scope with exc.
Notation "x <- m ;; k" := (bind m (fun x => k))
  (at level 61, m at next level, right associativity) : exc_scope.

(** [[f(x) for x in l]]: the elements are evaluated from left to right and
    the first exception ends the evaluation. *)
Section MapM.
Variables (A B : Type) (f : A -> exc B).

Fixpoint mapM (l : list A) : exc (list B) :=
  match l with
  | [] => Ret []
  | x :: t =>
      match f x with
      | Raise msg => Raise msg
      | Ret y =>
          match mapM t with
          | Raise msg => Raise msg
          | Ret ys => Ret (y :: ys)
          end
      end
  end.
End MapM.

(** ** Floats *)

Definition float : Type := spec_float.

Module PyFloat.

Definition prec : Z := 53.
Definition emax : Z := 1024.

Definition nan : float := S754_nan.
Definition inf : float := S754_infinity false.
Definition neg_inf : float := S754_infinity true.

(** [math.isnan], [numpy.isnan] *)
Definition isnan (x : float) : bool :=
  match x with S754_nan => true | _ => false end.

(** [math.isinf], [numpy.isinf] *)
Definition isinf (x : float) : bool :=
  match x with S754_infinity _ => true | _ => false end.

(** [x > 0] *)
Definition gt0 (x : float) : bool :=
  match x with
  | S754_infinity s => negb s
  | S754_finite s _ _ => negb s
  | S754_zero _ | S754_nan => false
  end.

(** Conversion of an integer to binary64, rounding to nearest even. *)
Definition of_Z (z : Z) : float := binary_normalize prec emax z 0 false.

Definition div : float -> float -> float := SFdiv prec emax.
Definition mul : float -> float -> float := SFmul prec emax.

(** Rounding to binary64, to nearest even, an overflow giving an
    infinity: what the conversion to a C [double] does to a value of a
    wider format. *)
Definition round (x : float) : float :=
  match x with
  | S754_finite s m e =>
      binary_normalize prec emax (if s then Z.neg m else Z.pos m) e s
  | _ => x
  end.

Arguments round x : simpl never.

(** Neither NaN nor an infinity. *)
Definition finite (x : float) : bool := negb (isnan x || isinf x).

(** [str(x)] for the values that are not finite (the code takes the
    [str] of no other float; a finite one gets the empty string here). *)
Definition str_nonfinite (x : float) : string :=
  match x with
  | S754_nan => "nan"
  | S754_infinity false => "inf"
  | S754_infinity true => "-inf"
  | _ => EmptyString
  end.

End PyFloat.

(** ** Numbers and their comparison

    Python compares an [int] with a [float] by value, exactly; every
    comparison with NaN is false. *)

Inductive number : Type :=
| NInt (z : Z)
| NFloat (x : float).

(** An extended rational [m * 2^e], or an infinity, or nothing for NaN. *)
Inductive xval : Type :=
| XNaN
| XInf (negative : bool)
| XDyadic (m : Z) (e : Z).

Definition xval_of_number (n : number) : xval :=
  match n with
  | NInt z => XDyadic z 0
  | NFloat S754_nan => XNaN
  | NFloat (S754_infinity s) => XInf s
  | NFloat (S754_zero _) => XDyadic 0 0
  | NFloat (S754_finite s m e) => XDyadic (if s then Z.neg m else Z.pos m) e
  end.

(** [m1 * 2^e1 ?= m2 * 2^e2], both brought to the smaller exponent. *)
Definition dyadic_compare (m1 e1 m2 e2 : Z) : comparison :=
  let e := Z.min e1 e2 in
  Z.compare (m1 * 2 ^ (e1 - e)) (m2 * 2 ^ (e2 - e)).

Definition xval_compare (a b : xval) : option comparison :=
  match a, b with
  | XNaN, _ | _, XNaN => None
  | XInf s1, XInf s2 =>
      Some (if s1 then (if s2 then Eq else Lt) else (if s2 then Gt else Eq))
  | XInf s, XDyadic _ _ => Some (if s then Lt else Gt)
  | XDyadic _ _, XInf s => Some (if s then Gt else Lt)
  | XDyadic m1 e1, XDyadic m2 e2 => Some (dyadic_compare m1 e1 m2 e2)
  end.

Definition num_compare (a b : number) : option comparison :=
  xval_compare (xval_of_number a) (xval_of_number b).

(** [a <= b] *)
Definition num_le (a b : number) : bool :=
  match num_compare a b with
  | Some Lt | Some Eq => true
  | _ => false
  end.

(** [a >= b] *)
Definition num_ge (a b : number) : bool :=
  match num_compare a b with
  | Some Gt | Some Eq => true
  | _ => false
  end.

(** [a == b] *)
Definition num_eq (a b : number) : bool :=
  match num_compare a b with
  | Some Eq => true
  | _ => false
  end.

(** [str(n)] of an [int]. *)
Definition str_of_Z (z : Z) : string := NilZero.string_of_int (Z.to_int z).

(** ** Dicts *)

Section Dict.
Variable V : Type.

Definition dict := list (string * V).

(** [d.get(k)] *)
Fixpoint dict_get (d : dict) (k : string) : option V :=
  match d with
  | [] => None
  | (k', v) :: t => if String.eqb k k' then Some v else dict_get t k
  end.

(** [k in d] *)
Definition dict_mem (d : dict) (k : string) : bool :=
  match dict_get d k with Some _ => true | None => false end.

(** [d[k] = v]: an existing key keeps its place, a new one goes last. *)
Fixpoint dict_set (d : dict) (k : string) (v : V) : dict :=
  match d with
  | [] => [(k, v)]
  | (k', v') :: t =>
      if String.eqb k k' then (k', v) :: t else (k', v') :: dict_set t k v
  end.

Definition dict_keys (d : dict) : list string := map fst d.
End Dict.

Arguments dict_get {V} d k.
Arguments dict_mem {V} d k.
Arguments dict_set {V} d k v.
Arguments dict_keys {V} d.

(** The result of a detector that answers the string ["None"] when it has
    nothing to report. *)
Inductive or_none (A : Type) : Type :=
| NoneStr
| Found (a : A).

Arguments NoneStr {A}.
Arguments Found {A} a.

(** [x if x else "None"] for a dict or a list [x]. *)
Definition or_none_of_list {A : Type} (l : list A) : or_none (list A) :=
  match l with
  | [] => NoneStr
  | _ => Found l
  end.

(* ================================================================== *)
(** * DataFrames *)
(* ================================================================== *)

(** A cell: the missing marker [None], or a scalar.  A float NaN is a
    missing cell too. [COther ty s] is an object of the type named [ty]
    whose [str] is [s]. *)
Inductive cell : Type :=
| CNone
| CBool (b : bool)
| CInt (z : Z)
| CFloat (x : float)
| CStr (s : string)
| COther (ty : string) (s : string).

(** Runtime types, as [type(v)] gives them. *)
Inductive pytype : Type :=
| TNoneType
| TBool
| TInt
| TFloat
| TStr
| TOther (name : string).

Definition type_of (c : cell) : pytype :=
  match c with
  | CNone => TNoneType
  | CBool _ => TBool
  | CInt _ => TInt
  | CFloat _ => TFloat
  | CStr _ => TStr
  | COther ty _ => TOther ty
  end.

(** [t.__name__] *)
Definition type_name (t : pytype) : string :=
  match t with
  | TNoneType => "NoneType"
  | TBool => "bool"
  | TInt => "int"
  | TFloat => "float"
  | TStr => "str"
  | TOther name => name
  end.

Definition pytype_eqb (a b : pytype) : bool :=
  match a, b with
  | TNoneType, TNoneType | TBool, TBool | TInt, TInt
  | TFloat, TFloat | TStr, TStr => true
  | TOther n, TOther m => String.eqb n m
  | _, _ => false
  end.

(** [pandas.isna] on a cell. *)
Definition isna (c : cell) : bool :=
  match c with
  | CNone => true
  | CFloat x => PyFloat.isnan x
  | _ => false
  end.

Record column : Type := Column_ { col_name : string; col_cells : list cell }.

Definition DataFrame := list column.

(** [df.columns] *)
Definition columns (df : DataFrame) : list string := map col_name df.

(** [len(df)] *)
Definition nrows (df : DataFrame) : nat :=
  match df with
  | [] => 0
  | c :: _ => List.length (col_cells c)
  end.

(** Every column has one cell per row, and no two columns share a name. *)
Definition well_formed (df : DataFrame) : Prop :=
  Forall (fun c => List.length (col_cells c) = nrows df) df /\ NoDup (columns df).

(** [df[col]], where [col in df.columns]. *)
Fixpoint get_column (df : DataFrame) (col : string) : option column :=
  match df with
  | [] => None
  | c :: t => if String.eqb col (col_name c) then Some c else get_column t col
  end.

(** A row, as the Series [df.iloc[i]]: the cells under the column names. *)
Definition row := dict cell.

Definition row_at (df : DataFrame) (i : nat) : row :=
  map (fun c => (col_name c, nth i (col_cells c) CNone)) df.

(** The rows in index order, as [df.iterrows()] yields them. *)
Definition rows (df : DataFrame) : list row :=
  map (row_at df) (seq 0 (nrows df)).

(** ** Boolean masks *)

(** [mask.to_numpy().nonzero()[0].tolist()] *)
Fixpoint nonzero_from (i : nat) (mask : list bool) : list nat :=
  match mask with
  | [] => []
  | b :: t => if b then i :: nonzero_from (S i) t else nonzero_from (S i) t
  end.

Definition nonzero (mask : list bool) : list nat := nonzero_from 0 mask.

(** [mask.sum()] *)
Fixpoint mask_sum (mask : list bool) : nat :=
  match mask with
  | [] => 0
  | b :: t => (if b then 1 else 0) + mask_sum t
  end.

(** [mask.any()] *)
Definition mask_any (mask : list bool) : bool := existsb (fun b => b) mask.

(** [~mask] *)
Definition mask_not (mask : list bool) : list bool := map negb mask.

(** [xs[mask]]: the elements under a true entry of the mask. *)
Fixpoint select {A : Type} (mask : list bool) (xs : list A) : list A :=
  match mask, xs with
  | b :: m, x :: t => if b then x :: select m t else select m t
  | _, _ => []
  end.

(* ================================================================== *)
(** * Values handed to the JSON normaliser *)
(* ================================================================== *)

(** What [clean_for_json] can meet.  [PFloat] is a Python [float] (and
    [numpy.float64], a subclass of it); [PNpFloating] is a numpy floating
    scalar of another width ([float16], [float32], [longdouble]), whose
    value need not be a binary64 value; [PNdarray t] is the array whose
    [tolist()] is [t]; [POther s] is an object of any other type (a
    tuple, a set, a timestamp) whose [str] returns, [s] being that
    [str].  The keys of a dict are strings here; the normaliser leaves
    keys as they are. *)
#[local] Unset Elimination Schemes.
Inductive pyval : Type :=
| PNone
| PBool (b : bool)
| PInt (z : Z)
| PFloat (x : float)
| PStr (s : string)
| PList (l : list pyval)
| PDict (d : list (string * pyval))
| PNpInteger (z : Z)
| PNpFloating (x : float)
| PNdarray (tolist : pyval)
| POther (display : string).
#[local] Set Elimination Schemes.

Definition isinstance_float (o : pyval) : bool :=
  match o with PFloat _ => true | _ => false end.

(** [isinstance(obj, (int, str, bool, type(None)))] *)
Definition isinstance_int_str_bool_none (o : pyval) : bool :=
  match o with PInt _ | PStr _ | PBool _ | PNone => true | _ => false end.

Definition isinstance_np_integer (o : pyval) : bool :=
  match o with PNpInteger _ => true | _ => false end.

Definition isinstance_np_floating (o : pyval) : bool :=
  match o with PNpFloating _ => true | _ => false end.

(** The operations below are partial in Python.  Each is given on the
    values where it certainly returns and raises on every other value;
    Python accepts more in places, which the normaliser never relies on. *)

(** [math.isnan(obj)], [np.isnan(obj)] *)
Definition py_isnan (o : pyval) : exc bool :=
  match o with
  | PFloat x | PNpFloating x => Ret (PyFloat.isnan x)
  | PInt _ | PBool _ | PNpInteger _ => Ret false
  | _ => Raise "TypeError: must be real number"
  end.

(** [math.isinf(obj)], [np.isinf(obj)] *)
Definition py_isinf (o : pyval) : exc bool :=
  match o with
  | PFloat x | PNpFloating x => Ret (PyFloat.isinf x)
  | PInt _ | PBool _ | PNpInteger _ => Ret false
  | _ => Raise "TypeError: must be real number"
  end.

(** [obj > 0] *)
Definition py_gt0 (o : pyval) : exc bool :=
  match o with
  | PFloat x | PNpFloating x => Ret (PyFloat.gt0 x)
  | PInt z | PNpInteger z => Ret (Z.ltb 0 z)
  | PBool b => Ret b
  | _ => Raise "TypeError: '>' not supported"
  end.

(** [int(obj)] *)
Definition py_int (o : pyval) : exc pyval :=
  match o with
  | PInt z | PNpInteger z => Ret (PInt z)
  | PBool b => Ret (PInt (if b then 1 else 0))
  | _ => Raise "TypeError: int() argument"
  end.

(** [float(obj)]: a Python float as it is, a numpy floating scalar
    rounded to binary64 (a [longdouble] beyond the range of a double
    becomes an infinity). *)
Definition py_float (o : pyval) : exc pyval :=
  match o with
  | PFloat x => Ret (PFloat x)
  | PNpFloating x => Ret (PFloat (PyFloat.round x))
  | _ => Raise "TypeError: float() argument"
  end.

(** [str(obj)] *)
Definition py_str (o : pyval) : exc string :=
  match o with
  | POther s => Ret s
  | PStr s => Ret s
  | PNone => Ret "None"
  | PBool b => Ret (if b then "True" else "False")
  | PInt z | PNpInteger z => Ret (str_of_Z z)
  | _ => Raise "str() of this value is not modelled"
  end%string.


(* ================================================================== *)
(** * pandas operations used by the detectors *)
(* ================================================================== *)

(** ** Regular expressions

    The detector of invalid inputs is given below for any kind of
    compiled pattern, with what [re.match] finds as a parameter.  The
    patterns of this section are the regular ones: characters, classes,
    sequence, alternation and repetition, without anchors, look-around
    or back-references.  [RChar p] matches one character that satisfies
    [p]: a literal, a class such as [\d], or the dot. *)
Inductive regex : Type :=
| RNever
| REps
| RChar (p : ascii -> bool)
| RCat (r1 r2 : regex)
| RAlt (r1 r2 : regex)
| RStar (r : regex).

(** The language of a pattern. *)
Inductive lang : regex -> string -> Prop :=
| LEps : lang REps EmptyString
| LChar : forall p c, p c = true -> lang (RChar p) (String c EmptyString)
| LCat : forall r1 r2 s1 s2,
    lang r1 s1 -> lang r2 s2 -> lang (RCat r1 r2) (s1 ++ s2)
| LAltL : forall r1 r2 s, lang r1 s -> lang (RAlt r1 r2) s
| LAltR : forall r1 r2 s, lang r2 s -> lang (RAlt r1 r2) s
| LStar0 : forall r, lang (RStar r) EmptyString
| LStarS : forall r s1 s2,
    lang r s1 -> lang (RStar r) s2 -> lang (RStar r) (s1 ++ s2).

Fixpoint nullable (r : regex) : bool :=
  match r with
  | RNever => false
  | REps => true
  | RChar _ => false
  | RCat r1 r2 => nullable r1 && nullable r2
  | RAlt r1 r2 => nullable r1 || nullable r2
  | RStar _ => true
  end.

(** The pattern for what may follow the character [c]. *)
Fixpoint deriv (c : ascii) (r : regex) : regex :=
  match r with
  | RNever => RNever
  | REps => RNever
  | RChar p => if p c then REps else RNever
  | RCat r1 r2 =>
      if nullable r1
      then RAlt (RCat (deriv c r1) r2) (deriv c r2)
      else RCat (deriv c r1) r2
  | RAlt r1 r2 => RAlt (deriv c r1) (deriv c r2)
  | RStar r1 => RCat (deriv c r1) (RStar r1)
  end.

(** [re.fullmatch(r, s) is not None]: the whole of [s] matches. *)
Fixpoint re_fullmatch (r : regex) (s : string) : bool :=
  match s with
  | EmptyString => nullable r
  | String c s' => re_fullmatch (deriv c r) s'
  end.

(** [re.match(r, s) is not None]: a match that starts at the first
    character of [s] and may end anywhere. *)
Fixpoint re_match (r : regex) (s : string) : bool :=
  nullable r ||
  match s with
  | EmptyString => false
  | String c s' => re_match (deriv c r) s'
  end.

(** ** Cells as strings and as numbers *)

Section Pandas.

(** [repr] of a finite float, the shortest decimal that reads back as
    the same float. *)
Variable repr_float : float -> string.

(** The parser of [pandas.to_numeric] for a string; [None] when the
    string is not a number. *)
Variable parse_numeric : string -> option number.

(** What [astype(str)] does to a missing cell depends on the version of
    pandas: from pandas 3 on the cell stays missing
    ([astype_str_keeps_missing] is [true]); before, it becomes the
    string of its marker. *)
Variable astype_str_keeps_missing : bool.

(** The compiled patterns, and [re.match(pat, s) is not None]: whether
    [pat] has a match that starts at the first character of [s]. *)
Variable pattern : Type.
Variable matches : pattern -> string -> bool.

(** [str(c)] *)
Definition cell_str (c : cell) : string :=
  match c with
  | CNone => "None"
  | CBool b => if b then "True" else "False"
  | CInt z => str_of_Z z
  | CFloat x =>
      if PyFloat.isnan x || PyFloat.isinf x
      then PyFloat.str_nonfinite x
      else repr_float x
  | CStr s => s
  | COther _ s => s
  end%string.

(** An element of [series.astype(str)]: the [str] of the cell, or
    nothing for a missing cell that stays missing. *)
Definition astype_str (c : cell) : option string :=
  if isna c && astype_str_keeps_missing then None else Some (cell_str c).

(** [series.str.match(pat, na=na)] on the elements of
    [series.astype(str)]: [re.match] on every string, and [na] for an
    element that is missing. *)
Definition str_match (pat : pattern) (na : bool) (strings : list (option string))
  : list bool :=
  map (fun s => match s with
                | Some s => matches pat s
                | None => na
                end) strings.

(** [pd.to_numeric(v, errors="coerce")] on a scalar: what does not
    convert becomes NaN.  An object of another type is taken to be one
    that is no number (a timestamp, a tuple); what is proved of the
    rules below for single cells concerns columns without such
    objects. *)
Definition to_numeric_coerce (v : cell) : number :=
  match v with
  | CNone => NFloat PyFloat.nan
  | CBool b => NInt (if b then 1 else 0)
  | CInt z => NInt z
  | CFloat x => NFloat x
  | CStr s =>
      match parse_numeric s with
      | Some n => n
      | None => NFloat PyFloat.nan
      end
  | COther _ _ => NFloat PyFloat.nan
  end.

End Pandas.

(** [str(val) if isinstance(val, float) and (math.isnan(val) or
    math.isinf(val)) else val] *)
Definition stringify_nonfinite (val : cell) : cell :=
  match val with
  | CFloat x =>
      if PyFloat.isnan x || PyFloat.isinf x
      then CStr (PyFloat.str_nonfinite x)
      else val
  | _ => val
  end.

(** ** Duplicated rows

    [df.duplicated()] marks a row when an earlier row has the same value
    in every column.  pandas finds the values with hash tables, for
    which two cells that are not missing are the same when [==] holds of
    them (with equal hashes): equal numbers ([True], [1] and [1.0] are),
    equal strings, and for an object of another type what its [==]
    says.  Missing cells are treated in two ways.  A frame of one column
    is handed to [Series.duplicated], which keeps the two markers apart:
    [None] is the same as [None] and NaN as NaN.  A frame of several
    columns is factorized column by column, and there every missing
    cell gets the same code, whatever its marker. *)
Definition cell_number (c : cell) : option number :=
  match c with
  | CBool b => Some (NInt (if b then 1 else 0))
  | CInt z => Some (NInt z)
  | CFloat x => Some (NFloat x)
  | _ => None
  end.

Section Duplicated.

(** [a == b and hash(a) == hash(b)] for two cells that are not missing
    and of which one at least is an object of another type; [==] is
    taken to be an equivalence, as it is for the objects that a hash
    table can hold. *)
Variable other_eq : cell -> cell -> bool.

(** [single] tells that the frame has one column. *)
Definition cell_same (single : bool) (a b : cell) : bool :=
  match isna a, isna b with
  | true, true =>
      if single then
        match a, b with
        | CNone, CNone => true
        | CFloat _, CFloat _ => true
        | _, _ => false
        end
      else true
  | false, false =>
      match a, b with
      | COther _ _, _ | _, COther _ _ => other_eq a b
      | CStr s, CStr t => String.eqb s t
      | _, _ =>
          match cell_number a, cell_number b with
          | Some x, Some y => num_eq x y
          | _, _ => false
          end
      end
  | _, _ => false
  end.

Fixpoint row_same (single : bool) (r1 r2 : list cell) : bool :=
  match r1, r2 with
  | [], [] => true
  | a :: t1, b :: t2 => cell_same single a b && row_same single t1 t2
  | _, _ => false
  end.

(** The cells of row [i], in column order. *)
Definition row_values (df : DataFrame) (i : nat) : list cell :=
  map (fun c => nth i (col_cells c) CNone) df.

(** [len(df.columns) == 1] *)
Definition single_column (df : DataFrame) : bool :=
  Nat.eqb (List.length df) 1.

Fixpoint duplicated_from (single : bool) (seen rest : list (list cell))
  : list bool :=
  match rest with
  | [] => []
  | r :: t =>
      existsb (row_same single r) seen
        :: duplicated_from single (seen ++ [r]) t
  end.

(** [df.duplicated()] *)
Definition duplicated (df : DataFrame) : list bool :=
  duplicated_from (single_column df) []
    (map (row_values df) (seq 0 (nrows df))).

End Duplicated.

(** ** Row-wise application

    [df.apply(f, axis=1)]: [f] on every row in index order; an exception
    of [f] ends the call.  On a frame without rows pandas makes a trial
    call of [f] instead, to find the shape of the result; that case is
    not modelled, and what is proved about rules below concerns the rows
    of the frame. *)
Definition df_apply (A : Type) (df : DataFrame) (f : row -> exc A)
  : exc (list A) :=
  mapM f (rows df).

(** [row[key]]; the [str] of a [KeyError] is the key between quotes. *)
Definition row_getitem (r : row) (key : string) : exc cell :=
  match dict_get r key with
  | Some v => Ret v
  | None => Raise ("'" ++ key ++ "'")
  end.

(** ** Counting values

    [series.value_counts()]: the distinct values with their counts, the
    largest count first; values with the same count stay in the order in
    which they first occur. *)
Fixpoint tally_add (t : pytype) (acc : list (pytype * nat))
  : list (pytype * nat) :=
  match acc with
  | [] => [(t, 1)]
  | (t', n) :: rest =>
      if pytype_eqb t t' then (t', S n) :: rest
      else (t', n) :: tally_add t rest
  end.

Definition tally (ts : list pytype) : list (pytype * nat) :=
  fold_left (fun acc t => tally_add t acc) ts [].

Fixpoint insert_desc (x : pytype * nat) (l : list (pytype * nat))
  : list (pytype * nat) :=
  match l with
  | [] => [x]
  | y :: rest =>
      if Nat.leb (snd y) (snd x) then x :: y :: rest
      else y :: insert_desc x rest
  end.

Definition sort_desc (l : list (pytype * nat)) : list (pytype * nat) :=
  fold_right insert_desc [] l.

Definition value_counts (ts : list pytype) : list (pytype * nat) :=
  sort_desc (tally ts).

(** [enumerate(cells)] *)
Definition enumerate (A : Type) (l : list A) : list (nat * A) :=
  combine (seq 0 (List.length l)) l.

(** ** Strings and values of the report *)

(** [s.endswith(suffix)] *)
Definition endswith (s suffix : string) : bool :=
  let n := String.length s in
  let k := String.length suffix in
  Nat.leb k n && String.eqb (substring (n - k) k s) suffix.

(** [str(n)] of a count. *)
Definition str_of_nat (n : nat) : string := str_of_Z (Z.of_nat n).

(** A cell as a value of the report. *)
Definition cell_to_py (c : cell) : pyval :=
  match c with
  | CNone => PNone
  | CBool b => PBool b
  | CInt z => PInt z
  | CFloat x => PFloat x
  | CStr s => PStr s
  | COther _ s => POther s
  end.

(** A result that is the string ["None"] or a value. *)
Definition or_none_to_py (A : Type) (to_py : A -> pyval) (r : or_none A)
  : pyval :=
  match r with
  | NoneStr => PStr "None"
  | Found a => to_py a
  end.

(** A list of row indices. *)
Definition indices_to_py (l : list nat) : pyval :=
  PList (map (fun i => PInt (Z.of_nat i)) l).

(** [df[col]]; the [str] of a [KeyError] is the key between quotes. *)
Definition frame_getitem (df : DataFrame) (col : string) : exc column :=
  match get_column df col with
  | Some c => Ret c
  | None => Raise ("'" ++ col ++ "'")
  end.

(** [d[k] = v] on a value. *)
Definition py_setitem (d : pyval) (k : string) (v : pyval) : exc pyval :=
  match d with
  | PDict items => Ret (PDict (dict_set items k v))
  | _ => Raise "TypeError: object does not support item assignment"
  end.
Module Backend.

Open Scope exc_scope.

(** The branches of [clean_for_json] for a value that is neither a dict,
    nor a list, nor an array, in the order of the source.  (The source
    tests for an array after the scalars; a value has one of these types
    only, so the place of that test does not matter.) *)
Definition clean_leaf (obj : pyval) : exc pyval :=
  if isinstance_float obj then
    is_nan <- py_isnan obj ;;
    if is_nan then Ret (PStr "NaN")
    else
      is_inf <- py_isinf obj ;;
      if is_inf then
        positive <- py_gt0 obj ;;
        Ret (PStr (if positive then "Infinity" else "-Infinity"))
      else Ret obj
  else if isinstance_int_str_bool_none obj then Ret obj
  else if isinstance_np_integer obj then py_int obj
  else if isinstance_np_floating obj then
    is_nan <- py_isnan obj ;;
    if is_nan then Ret (PStr "NaN")
    else
      is_inf <- py_isinf obj ;;
      if is_inf then
        positive <- py_gt0 obj ;;
        Ret (PStr (if positive then "Infinity" else "-Infinity"))
      else py_float obj
  else
    s <- py_str obj ;;
    Ret (PStr s).

Fixpoint clean_for_json (obj : pyval) : exc pyval :=
  match obj with
  | PDict d =>
      (* {k: clean_for_json(v) for k, v in obj.items()} *)
      d' <- mapM (fun kv => v' <- clean_for_json (snd kv) ;; Ret (fst kv, v')) d ;;
      Ret (PDict d')
  | PList l =>
      (* [clean_for_json(item) for item in obj] *)
      l' <- mapM clean_for_json l ;;
      Ret (PList l')
  | PNdarray t =>
      (* clean_for_json(obj.tolist()) *)
      clean_for_json t
  | _ => clean_leaf obj
  end.

(** The recursion as the interpreter runs it.  Every call of
    [clean_for_json] takes room on the stack, and a call made when no
    room is left raises [RecursionError]; [frames] is the number of
    nested calls of [clean_for_json] that the stack has room for when
    the function is entered (under the default limit of
    [sys.getrecursionlimit()] it is below [recursionlimit]). *)
Definition recursionlimit : nat := 1000.

Definition RecursionError : string := "maximum recursion depth exceeded".

Fixpoint clean_for_json_run (frames : nat) (obj : pyval) : exc pyval :=
  match frames with
  | 0 => Raise RecursionError
  | S frames =>
      match obj with
      | PDict d =>
          d' <- mapM (fun kv => v' <- clean_for_json_run frames (snd kv) ;;
                                Ret (fst kv, v')) d ;;
          Ret (PDict d')
      | PList l =>
          l' <- mapM (clean_for_json_run frames) l ;;
          Ret (PList l')
      | PNdarray t => clean_for_json_run frames t
      | _ => clean_leaf obj
      end
  end.

(** ** The detectors of [backend.py] *)

(** *** Missing values *)

Record missing_entry : Type := MissingEntry {
  Column : string;
  Missing_Count : nat;
  Missing_Percentage : float
}.

(** [df.isnull().sum()] for one column *)
Definition isnull_sum (c : column) : nat :=
  mask_sum (map isna (col_cells c)).

(** [(missing_report["Missing_Count"] / len(df)) * 100] for one column:
    an integer count divided by an integer, in binary64, and the quotient
    multiplied by 100. *)
Definition missing_percentage (count len_df : nat) : float :=
  PyFloat.mul
    (PyFloat.div (PyFloat.of_Z (Z.of_nat count)) (PyFloat.of_Z (Z.of_nat len_df)))
    (PyFloat.of_Z 100).

Definition missing_report (df : DataFrame) : list missing_entry :=
  map (fun c => MissingEntry (col_name c) (isnull_sum c)
                  (missing_percentage (isnull_sum c) (nrows df))) df.

Definition detect_missing_values (df : DataFrame)
  : or_none (list missing_entry) :=
  let with_missing :=
    filter (fun r => Nat.ltb 0 (Missing_Count r)) (missing_report df) in
  match with_missing with
  | [] => NoneStr
  | _ => Found with_missing
  end.

(** *** Type mismatches *)

Record type_profile : Type := TypeProfile {
  dominant_type : string;
  type_counts : dict nat;
  mixed_indices : dict (list nat)
}.

(** [mixed_indices[name].append(idx)] on a [defaultdict(list)] *)
Definition defaultdict_append (d : dict (list nat)) (name : string) (idx : nat)
  : dict (list nat) :=
  match dict_get d name with
  | Some l => dict_set d name (l ++ [idx])
  | None => dict_set d name [idx]
  end.

(** [df.loc[non_null_mask, col].map(type)]: index and type of every cell
    that is not missing. *)
Definition type_series (c : column) : list (nat * pytype) :=
  map (fun p => (fst p, type_of (snd p)))
      (filter (fun p => negb (isna (snd p))) (enumerate (col_cells c))).

Definition profile_column (c : column) : option type_profile :=
  let non_null_mask := map (fun v => negb (isna v)) (col_cells c) in
  if Nat.eqb (mask_sum non_null_mask) 0 then None
  else
    let counts := value_counts (map snd (type_series c)) in
    match counts with
    | (dominant, _) :: _ :: _ =>
        let mixed :=
          fold_left
            (fun acc p =>
               if pytype_eqb (snd p) dominant then acc
               else defaultdict_append acc (type_name (snd p)) (fst p))
            (type_series c) [] in
        let type_counts_dict :=
          fold_left (fun acc tc => dict_set acc (type_name (fst tc)) (snd tc))
                    counts [] in
        Some (TypeProfile (type_name dominant) type_counts_dict mixed)
    | _ => None
    end.

Definition detect_data_type_mismatches (df : DataFrame) : dict type_profile :=
  fold_left
    (fun mismatches c =>
       match profile_column c with
       | Some p => dict_set mismatches (col_name c) p
       | None => mismatches
       end)
    df [].

(** *** Duplicates *)

Record duplicates_report : Type := DuplicatesReport {
  dup_count : nat;
  dup_indices : list nat
}.

Definition detect_duplicates (other_eq : cell -> cell -> bool)
    (df : DataFrame) : duplicates_report :=
  let duplicate_count := mask_sum (duplicated other_eq df) in
  let duplicate_indices := nonzero (duplicated other_eq df) in
  DuplicatesReport duplicate_count
    (if Nat.ltb 0 duplicate_count then duplicate_indices else []).

(** *** Invalid inputs *)

Record invalid_entry : Type := InvalidEntry {
  inv_count : nat;
  inv_indices : list nat;
  inv_values : list cell
}.

Section Parametrised.

Variable repr_float : float -> string.
Variable parse_numeric : string -> option number.
Variable astype_str_keeps_missing : bool.
Variable pattern : Type.
Variable matches : pattern -> string -> bool.

(** [~df[col].astype(str).str.match(rule, na=False)] *)
Definition invalid_mask (c : column) (rule : pattern) : list bool :=
  mask_not
    (str_match matches rule false
       (map (astype_str repr_float astype_str_keeps_missing) (col_cells c))).

Definition detect_invalid_inputs (df : DataFrame) (rules : dict pattern)
  : or_none (dict invalid_entry) :=
  or_none_of_list
    (fold_left
       (fun invalid_entries cr =>
          match get_column df (fst cr) with
          | Some c =>
              let mask := invalid_mask c (snd cr) in
              if mask_any mask then
                dict_set invalid_entries (fst cr)
                  (InvalidEntry (mask_sum mask) (nonzero mask)
                     (map stringify_nonfinite (select mask (col_cells c))))
              else invalid_entries
          | None => invalid_entries
          end)
       rules []).

(** *** Consistency rules *)

Definition rule_func : Type := row -> exc bool.

Inductive consistency_entry : Type :=
| Failed (count : nat) (indices : list nat) (rows : list row)
| RuleError (error : string) (message : string).

(** The copy of a failed row, with the floats that are not finite as
    strings. *)
Definition clean_row (r : row) : row :=
  fold_left (fun acc kv => dict_set acc (fst kv) (stringify_nonfinite (snd kv)))
            r [].

(** One turn of the loop over the rules. *)
Definition check_rule (df : DataFrame) (rule_name : string) (f : rule_func)
    (inconsistencies : dict consistency_entry) : dict consistency_entry :=
  match df_apply df f with
  | Ret passed =>
      let failed_mask := mask_not passed in
      if mask_any failed_mask then
        dict_set inconsistencies rule_name
          (Failed (mask_sum failed_mask) (nonzero failed_mask)
                  (map clean_row (select failed_mask (rows df))))
      else inconsistencies
  | Raise e =>
      dict_set inconsistencies rule_name
        (RuleError e ("Error checking rule: " ++ rule_name))
  end.

Definition check_consistency (df : DataFrame) (consistency_rules : dict rule_func)
  : or_none (dict consistency_entry) :=
  or_none_of_list
    (fold_left (fun acc nr => check_rule df (fst nr) (snd nr) acc)
               consistency_rules []).

(** The rules of [run_data_quality_checks]. *)
Definition valid_age : rule_func := fun row =>
  if dict_mem row "Age" then
    v <- row_getitem row "Age" ;;
    let n := to_numeric_coerce parse_numeric v in
    Ret (num_le (NInt 0) n && num_le n (NInt 120))
  else Ret true.

Definition salary_non_negative : rule_func := fun row =>
  if dict_mem row "Salary" then
    v <- row_getitem row "Salary" ;;
    Ret (num_ge (to_numeric_coerce parse_numeric v) (NInt 0))
  else Ret true.

Definition string_in_set : rule_func := fun row =>
  if dict_mem row "string" then
    v <- row_getitem row "string" ;;
    Ret (match v with
         | CStr s =>
             existsb (String.eqb s)
                     ["apple"; "banana"; "cherry"; "date"; "elderberry"]%string
         | _ => false
         end)
  else Ret true.

Definition consistency_rules : dict rule_func :=
  [ ("Valid Age", valid_age);
    ("Salary Non-negative", salary_non_negative);
    ("String in set", string_in_set) ]%string.

End Parametrised.

(** *** The unused JSON encoder *)

Section Encoder.

(** [type(obj).__name__] *)
Variable class_name : pyval -> string.

(** [json.JSONEncoder.default]: always a [TypeError]. *)
Definition JSONEncoder_default (obj : pyval) : exc pyval :=
  Raise ("Object of type " ++ class_name obj ++ " is not JSON serializable").

(** [CustomJSONEncoder.default] *)
Definition CustomJSONEncoder_default (obj : pyval) : exc pyval :=
  match
    (if isinstance_float obj then
       is_nan <- py_isnan obj ;;
       if is_nan then Ret (Some (PStr "NaN"))
       else
         is_inf <- py_isinf obj ;;
         if is_inf then
           positive <- py_gt0 obj ;;
           Ret (Some (PStr (if positive then "Infinity" else "-Infinity")))
         else Ret None
     else Ret None)
  with
  | Ret (Some v) => Ret v
  | Ret None => JSONEncoder_default obj
  | Raise e => Raise e
  end.

End Encoder.

(** *** The summary of the type mismatches *)

(** [f"{t} ({count})"] *)
Definition type_count_text (tc : string * nat) : string :=
  fst tc ++ " (" ++ str_of_nat (snd tc) ++ ")".

(** [f"{column}: Mixed types [{types_str}]"] *)
Definition mismatch_line (column : string) (info : type_profile) : string :=
  let types_str := String.concat ", " (map type_count_text (type_counts info)) in
  column ++ ": Mixed types [" ++ types_str ++ "]".

Definition format_data_type_mismatches (mismatches : dict type_profile)
  : or_none (list string) :=
  match mismatches with
  | [] => NoneStr
  | _ => Found (map (fun ci => mismatch_line (fst ci) (snd ci)) mismatches)
  end.

(** *** The report *)

(** The dicts that the detectors build, as values. *)
Definition missing_entry_to_py (e : missing_entry) : pyval :=
  PDict [ ("Column", PStr (Column e));
          ("Missing_Count", PInt (Z.of_nat (Missing_Count e)));
          ("Missing_Percentage", PFloat (Missing_Percentage e)) ]%string.

Definition type_profile_to_py (p : type_profile) : pyval :=
  PDict [ ("dominant_type", PStr (dominant_type p));
          ("type_counts",
           PDict (map (fun tc => (fst tc, PInt (Z.of_nat (snd tc))))
                      (type_counts p)));
          ("mixed_indices",
           PDict (map (fun ti => (fst ti, indices_to_py (snd ti)))
                      (mixed_indices p))) ]%string.

Definition duplicates_to_py (r : duplicates_report) : pyval :=
  PDict [ ("count", PInt (Z.of_nat (dup_count r)));
          ("indices", indices_to_py (dup_indices r)) ]%string.

Definition invalid_entry_to_py (e : invalid_entry) : pyval :=
  PDict [ ("count", PInt (Z.of_nat (inv_count e)));
          ("indices", indices_to_py (inv_indices e));
          ("values", PList (map cell_to_py (inv_values e))) ]%string.

Definition row_to_py (r : row) : pyval :=
  PDict (map (fun kv => (fst kv, cell_to_py (snd kv))) r).

Definition consistency_entry_to_py (e : consistency_entry) : pyval :=
  match e with
  | Failed count indices failed_rows =>
      PDict [ ("count", PInt (Z.of_nat count));
              ("indices", indices_to_py indices);
              ("rows", PList (map row_to_py failed_rows)) ]%string
  | RuleError error message =>
      PDict [ ("error", PStr error); ("message", PStr message) ]%string
  end.

(** A dict of entries, as a value. *)
Definition dict_to_py (V : Type) (to_py : V -> pyval) (d : dict V) : pyval :=
  PDict (map (fun kv => (fst kv, to_py (snd kv))) d).

Section Assembler.

Variable repr_float : float -> string.
Variable parse_numeric : string -> option number.
Variable astype_str_keeps_missing : bool.
Variable other_eq : cell -> cell -> bool.

(** The dict [results] of [run_data_quality_checks], before it is
    cleaned. *)
Definition quality_results (df : DataFrame) : pyval :=
  let data_type_issues := detect_data_type_mismatches df in
  (* the mapping is empty: the kind of its patterns does not matter *)
  let validation_rules : dict regex := [] in
  PDict
    [ ("missing_values",
       or_none_to_py (fun l => PList (map missing_entry_to_py l))
                     (detect_missing_values df));
      ("data_type_mismatches",
       PDict [ ("detailed", dict_to_py type_profile_to_py data_type_issues);
               ("summary",
                or_none_to_py (fun l => PList (map PStr l))
                              (format_data_type_mismatches data_type_issues)) ]);
      ("duplicates", duplicates_to_py (detect_duplicates other_eq df));
      ("invalid_inputs",
       or_none_to_py (dict_to_py invalid_entry_to_py)
                     (detect_invalid_inputs repr_float astype_str_keeps_missing
                        re_match df validation_rules));
      ("consistency_issues",
       or_none_to_py (dict_to_py consistency_entry_to_py)
                     (check_consistency df (consistency_rules parse_numeric)))
    ]%string.

Definition run_data_quality_checks (df : DataFrame) : exc pyval :=
  clean_for_json (quality_results df).

(** What the endpoint [/analyze] answers. *)
Inductive response : Type :=
| JSONResponse (content : pyval)
| HTTPException (status_code : Z) (detail : string).

(** [results["file_info"]] *)
Definition file_info (filename : string) (df : DataFrame) : pyval :=
  PDict [ ("filename", PStr filename);
          ("rows", PInt (Z.of_nat (nrows df)));
          ("columns", PInt (Z.of_nat (List.length (columns df))));
          ("column_names", PList (map PStr (columns df))) ]%string.

(** [analyze_csv], for an upload named [filename] on which
    [pd.read_excel] gives [read_excel]: a frame, or what it raises.  The
    two [print] calls of the source need the columns [Salary] and
    [boolean]. *)
Definition analyze_csv (filename : string) (read_excel : exc DataFrame)
  : response :=
  if negb (endswith filename ".xlsx") then
    HTTPException 400 "File must be a Excel"
  else
    match
      (df <- read_excel ;;
       _ <- frame_getitem df "Salary" ;;
       _ <- frame_getitem df "boolean" ;;
       results <- run_data_quality_checks df ;;
       results <- py_setitem results "file_info" (file_info filename df) ;;
       clean_for_json results)
    with
    | Ret content => JSONResponse content
    | Raise e => HTTPException 500 ("Error processing file: " ++ e)
    end.

End Assembler.

End Backend.

(** ** The script [dq.py]

    The same detectors without the JSON layer: results are frames, and
    nothing catches what a rule raises. *)
Module Dq.

Section Parametrised.

Variable repr_float : float -> string.
Variable astype_str_keeps_missing : bool.
Variable pattern : Type.
Variable matches : pattern -> string -> bool.

(** [df[mask]]: the rows under a true entry, with their index. *)
Definition frame_select (df : DataFrame) (mask : list bool)
  : list (nat * row) :=
  select mask (enumerate (rows df)).

(** [df[~df[col].astype(str).str.match(rule, na=False)]] for every rule
    whose column is in the frame. *)
Definition detect_invalid_inputs (df : DataFrame) (rules : dict pattern)
  : dict (list (nat * row)) :=
  fold_left
    (fun invalid_entries cr =>
       match get_column df (fst cr) with
       | Some c =>
           dict_set invalid_entries (fst cr)
             (frame_select df
                (mask_not
                   (str_match matches (snd cr) false
                      (map (astype_str repr_float astype_str_keeps_missing)
                           (col_cells c)))))
       | None => invalid_entries
       end)
    rules [].

(** The loop has no [try]: what a rule raises leaves the function. *)
Fixpoint check_consistency_loop (df : DataFrame)
    (consistency_rules : dict (row -> exc bool))
    (inconsistencies : dict (list (nat * row)))
  : exc (dict (list (nat * row))) :=
  match consistency_rules with
  | [] => Ret inconsistencies
  | (rule_name, f) :: rest =>
      match df_apply df f with
      | Raise e => Raise e
      | Ret passed =>
          let failed_rows := frame_select df (mask_not passed) in
          check_consistency_loop df rest
            (match failed_rows with
             | [] => inconsistencies
             | _ => dict_set inconsistencies rule_name failed_rows
             end)
      end
  end.

Definition check_consistency (df : DataFrame)
    (consistency_rules : dict (row -> exc bool))
  : exc (dict (list (nat * row))) :=
  check_consistency_loop df consistency_rules [].

End Parametrised.

(** [missing_report[missing_report["Missing_Count"] > 0]]: the frame of
    the columns with a missing cell, one row for each. *)
Definition detect_missing_values (df : DataFrame)
  : list Backend.missing_entry :=
  filter (fun r => Nat.ltb 0 (Backend.Missing_Count r))
         (Backend.missing_report df).

(** The same function as in [backend.py], but for the conversions of
    the indices and counts with [int]. *)
Definition detect_data_type_mismatches (df : DataFrame)
  : dict Backend.type_profile :=
  Backend.detect_data_type_mismatches df.

(** [f"  - {column}: Mixed types [{types_str}]"], the lines joined by
    a newline. *)
Definition format_data_type_mismatches (mismatches : dict Backend.type_profile)
  : string :=
  match mismatches with
  | [] => "None"
  | _ =>
      String.concat (String "010" EmptyString)
        (map (fun ci => ("  - " ++ Backend.mismatch_line (fst ci) (snd ci))%string)
             mismatches)
  end.

(** [df.duplicated().sum()] *)
Definition detect_duplicates (other_eq : cell -> cell -> bool)
    (df : DataFrame) : nat :=
  mask_sum (duplicated other_eq df).

End Dq.

(* ================================================================== *)
(** * Notions used in the statements *)
(* ================================================================== *)

(** An object of another type. *)
Definition is_other (c : cell) : bool :=
  match c with COther _ _ => true | _ => false end.

(** Two cells with the same value, in the words of the notes on
    [duplicated]: the same missing marker; in a frame of several
    columns, any two missing cells; two numbers that are equal; the same
    string; and, when an object of another type is involved, what its
    [==] says. *)
Inductive same_value (other_eq : cell -> cell -> bool) (single : bool)
  : cell -> cell -> Prop :=
| SameNone : same_value other_eq single CNone CNone
| SameNaN : forall x y,
    PyFloat.isnan x = true -> PyFloat.isnan y = true ->
    same_value other_eq single (CFloat x) (CFloat y)
| SameMissing : forall a b,
    single = false -> isna a = true -> isna b = true ->
    same_value other_eq single a b
| SameNumber : forall a b x y,
    isna a = false -> isna b = false ->
    cell_number a = Some x -> cell_number b = Some y -> num_eq x y = true ->
    same_value other_eq single a b
| SameStr : forall s, same_value other_eq single (CStr s) (CStr s)
| SameOther : forall a b,
    isna a = false -> isna b = false ->
    is_other a || is_other b = true -> other_eq a b = true ->
    same_value other_eq single a b.

(** Rows [i] and [j] of a frame have the same value in every column. *)
Definition identical_rows (other_eq : cell -> cell -> bool) (df : DataFrame)
    (i j : nat) : Prop :=
  Forall2 (same_value other_eq (single_column df))
          (row_values df i) (row_values df j).

(** ** Duplicates *)

(** The frame of the scenario: [{Age: 25, Salary: 50000}] in rows 0 and 3. *)
Definition two_identical_rows : DataFrame :=
  [ Column_ "Age" [CInt 25; CInt 31; CInt 47; CInt 25; CInt 31];
    Column_ "Salary" [CInt 50000; CInt 50000; CInt 62000; CInt 50000; CInt 64000] ].

(** ** Failure entries *)

Definition invalid_entry_ok (e : Backend.invalid_entry) : Prop :=
  Backend.inv_count e = List.length (Backend.inv_indices e) /\
  StronglySorted lt (Backend.inv_indices e).

Definition consistency_entry_ok (e : Backend.consistency_entry) : Prop :=
  match e with
  | Backend.Failed count indices failed_rows =>
      count = List.length indices /\
      StronglySorted lt indices /\
      count = List.length failed_rows
  | Backend.RuleError _ _ => True
  end.

(** ** Missing values *)

(** The number of missing cells of a column, and whether it has one. *)
Definition missing_count (c : column) : nat :=
  List.length (filter isna (col_cells c)).

Definition has_missing (c : column) : bool := existsb isna (col_cells c).

(** The percentage as the specification writes it:
    [100 * missing_count / row_count], one division of two integers. *)
Definition percentage_as_specified (count row_count : nat) : float :=
  PyFloat.div (PyFloat.of_Z (100 * Z.of_nat count))
              (PyFloat.of_Z (Z.of_nat row_count)).

Definition one_missing_of_three : DataFrame :=
  [ Column_ "Age" [CInt 30; CNone; CInt 41] ].

(** The entry of a column in the report. *)
Definition missing_entry_of (df : DataFrame) (c : column)
  : Backend.missing_entry :=
  Backend.MissingEntry (col_name c) (missing_count c)
    (PyFloat.mul
       (PyFloat.div (PyFloat.of_Z (Z.of_nat (missing_count c)))
                    (PyFloat.of_Z (Z.of_nat (nrows df))))
       (PyFloat.of_Z 100)).

(** ** The JSON normaliser *)

Section PyvalInduction.

Variable P : pyval -> Prop.
Hypothesis HNone : P PNone.
Hypothesis HBool : forall b, P (PBool b).
Hypothesis HInt : forall z, P (PInt z).
Hypothesis HFloat : forall x, P (PFloat x).
Hypothesis HStr : forall s, P (PStr s).
Hypothesis HList : forall l, Forall P l -> P (PList l).
Hypothesis HDict : forall d, Forall (fun kv => P (snd kv)) d -> P (PDict d).
Hypothesis HNpInteger : forall z, P (PNpInteger z).
Hypothesis HNpFloating : forall x, P (PNpFloating x).
Hypothesis HNdarray : forall t, P t -> P (PNdarray t).
Hypothesis HOther : forall s, P (POther s).

Fixpoint pyval_induction (v : pyval) : P v :=
  match v with
  | PNone => HNone
  | PBool b => HBool b
  | PInt z => HInt z
  | PFloat x => HFloat x
  | PStr s => HStr s
  | PList l =>
      HList ((fix all (l : list pyval) : Forall P l :=
                match l with
                | [] => Forall_nil P
                | x :: t => Forall_cons x (pyval_induction x) (all t)
                end) l)
  | PDict d =>
      HDict ((fix all (d : list (string * pyval))
                : Forall (fun kv => P (snd kv)) d :=
                match d with
                | [] => Forall_nil _
                | kv :: t => Forall_cons kv (pyval_induction (snd kv)) (all t)
                end) d)
  | PNpInteger z => HNpInteger z
  | PNpFloating x => HNpFloating x
  | PNdarray t => HNdarray (pyval_induction t)
  | POther s => HOther s
  end.

End PyvalInduction.

(** The normaliser on a dict entry. *)
Definition clean_item (kv : string * pyval) : exc (string * pyval) :=
  bind (Backend.clean_for_json (snd kv)) (fun v' => Ret (fst kv, v')).

(** A numpy floating scalar that is finite, but whose conversion to a
    Python float is not: a [longdouble] beyond the range of a double. *)
Definition overflows (x : float) : bool :=
  PyFloat.finite x && negb (PyFloat.finite (PyFloat.round x)).

(** No numpy floating scalar of the value overflows, at the places that
    the normaliser reaches. *)
Fixpoint fits_double (v : pyval) : bool :=
  match v with
  | PNpFloating x => negb (overflows x)
  | PList l => forallb fits_double l
  | PDict d => forallb (fun kv => fits_double (snd kv)) d
  | PNdarray t => fits_double t
  | _ => true
  end.

(** The number of nested calls of [clean_for_json] that a value needs:
    one for the value, and one more for every level of dict, list or
    array above its deepest element. *)
Fixpoint calls (v : pyval) : nat :=
  match v with
  | PList l => S (list_max (map calls l))
  | PDict d => S (list_max (map (fun kv => calls (snd kv)) d))
  | PNdarray t => S (calls t)
  | _ => 1
  end.

(** The run of the normaliser on a dict entry. *)
Definition run_item (frames : nat) (kv : string * pyval)
  : exc (string * pyval) :=
  bind (Backend.clean_for_json_run frames (snd kv)) (fun v' => Ret (fst kv, v')).

(** A list of lists, [depth] levels above the empty list. *)
Fixpoint nested_list (depth : nat) : pyval :=
  match depth with
  | 0 => PList []
  | S n => PList [nested_list n]
  end.

(** The types that [clean_for_json] tests for. *)
Definition recognized (o : pyval) : bool :=
  match o with
  | PDict _ | PList _ | PNdarray _ => true
  | _ =>
      isinstance_float o || isinstance_int_str_bool_none o ||
      isinstance_np_integer o || isinstance_np_floating o
  end.

(** A step into a value: under a key of a dict, or at a position of a
    list.  An array is entered like the list that [tolist()] gives. *)
Inductive step : Type :=
| Key (k : string)
| Index (i : nat).

Fixpoint unwrap (v : pyval) : pyval :=
  match v with
  | PNdarray t => unwrap t
  | _ => v
  end.






(** ** Loops that fill a dict, and invalid inputs *)

(** [d[k] = v] when there is a [v], nothing otherwise. *)
Definition dict_update (V : Type) (d : dict V) (k : string) (o : option V)
  : dict V :=
  match o with
  | Some v => dict_set d k v
  | None => d
  end.

(** The entries behind a result that may be ["None"]. *)
Definition entries (V : Type) (r : or_none (dict V)) : dict V :=
  match r with
  | NoneStr => []
  | Found d => d
  end.

Definition flagged (r : or_none (dict Backend.invalid_entry)) (col : string)
    (i : nat) : Prop :=
  exists e, dict_get (entries r) col = Some e /\ In i (Backend.inv_indices e).

(** The entry of [detect_invalid_inputs] for one rule. *)
Definition invalid_entry_of (repr_float : float -> string)
    (keeps_missing : bool) (pattern : Type)
    (matches : pattern -> string -> bool) (df : DataFrame)
    (col : string) (rule : pattern) : option Backend.invalid_entry :=
  match get_column df col with
  | Some c =>
      let mask := Backend.invalid_mask repr_float keeps_missing matches c rule in
      if mask_any mask then
        Some (Backend.InvalidEntry (mask_sum mask) (nonzero mask)
                (map stringify_nonfinite (select mask (col_cells c))))
      else None
  | None => None
  end.

(** A cell that [detect_invalid_inputs] takes as invalid under a
    pattern: [astype(str)] leaves it missing, or the pattern has no
    match at the start of its string. *)
Definition unmatched (repr_float : float -> string) (keeps_missing : bool)
    (pattern : Type) (matches : pattern -> string -> bool)
    (pat : pattern) (v : cell) : Prop :=
  astype_str repr_float keeps_missing v = None \/
  exists s, astype_str repr_float keeps_missing v = Some s /\
            matches pat s = false.

(** The entry of [Dq.detect_invalid_inputs] for one rule. *)
Definition invalid_rows_of (repr_float : float -> string)
    (keeps_missing : bool) (pattern : Type)
    (matches : pattern -> string -> bool) (df : DataFrame)
    (col : string) (rule : pattern) : option (list (nat * row)) :=
  match get_column df col with
  | Some c =>
      Some (Dq.frame_select df
              (Backend.invalid_mask repr_float keeps_missing matches c rule))
  | None => None
  end.

(** The digits pattern [\d+], and the pattern [.*], which matches every
    string as a whole. *)
Definition is_digit (c : ascii) : bool :=
  (48 <=? nat_of_ascii c) && (nat_of_ascii c <=? 57).

Definition digits : regex := RCat (RChar is_digit) (RStar (RChar is_digit)).

Definition anything : regex := RStar (RChar (fun _ => true)).

Definition ages_with_suffix : DataFrame :=
  [ Column_ "Age" [CInt 30; CStr "12abc"; CStr "x"; CNone] ].

(** ** Consistency rules *)

(** The entry that one rule leaves in the report. *)
Definition rule_entry (df : DataFrame) (rule_name : string)
    (f : Backend.rule_func) : option Backend.consistency_entry :=
  match df_apply df f with
  | Ret passed =>
      let failed_mask := mask_not passed in
      if mask_any failed_mask then
        Some (Backend.Failed (mask_sum failed_mask) (nonzero failed_mask)
                (map Backend.clean_row (select failed_mask (rows df))))
      else None
  | Raise e =>
      Some (Backend.RuleError e ("Error checking rule: " ++ rule_name))
  end.

(** Two rules as a caller may write them:
    [lambda row: row["Age"] <= 120], which raises a [TypeError] on a
    string, and [lambda row: row["Age"] != 150]. *)
Definition age_at_most_120 : Backend.rule_func := fun row =>
  bind (row_getitem row "Age") (fun v =>
    match cell_number v with
    | Some n => Ret (num_le n (NInt 120))
    | None =>
        Raise "'<=' not supported between instances of 'str' and 'int'"
    end).

Definition age_is_not_150 : Backend.rule_func := fun row =>
  bind (row_getitem row "Age") (fun v =>
    match cell_number v with
    | Some n => Ret (negb (num_eq n (NInt 150)))
    | None => Ret true
    end).

Definition two_rules : dict Backend.rule_func :=
  [ ("Age at most 120", age_at_most_120);
    ("Age is not 150", age_is_not_150) ]%string.

Definition ages_with_text : DataFrame :=
  [ Column_ "Age" [CInt 30; CStr "x"; CInt 150] ].

Definition ages_scenario : DataFrame :=
  [ Column_ "Age" [CInt 30; CInt 150; CStr "x"] ].

(** A parser of decimal integers, enough to read ["x"] as no number. *)
Fixpoint parse_digits (s : string) (acc : Z) : option Z :=
  match s with
  | EmptyString => Some acc
  | String c s' =>
      if is_digit c
      then parse_digits s' (10 * acc + Z.of_nat (nat_of_ascii c - 48))
      else None
  end.

Definition parse_integer (s : string) : option number :=
  match s with
  | EmptyString => None
  | _ => option_map NInt (parse_digits s 0)
  end.

(** ** Type profiles *)

(** The first of the entries with the largest count. *)
Fixpoint first_max (l : list (pytype * nat)) : option (pytype * nat) :=
  match l with
  | [] => None
  | x :: rest =>
      match first_max rest with
      | None => Some x
      | Some m => if Nat.leb (snd m) (snd x) then Some x else Some m
      end
  end.

(** The number of occurrences of a type. *)
Definition count_type (t : pytype) (ts : list pytype) : nat :=
  List.length (filter (pytype_eqb t) ts).

(** The count that a tally holds for a type, 0 when it holds none. *)
Fixpoint tally_get (t : pytype) (acc : list (pytype * nat)) : nat :=
  match acc with
  | [] => 0
  | (t', n) :: rest => if pytype_eqb t t' then n else tally_get t rest
  end.

(** A cell at row [i] that is not missing and has the type [t]. *)
Definition typed_cell (c : column) (i : nat) (t : pytype) : Prop :=
  exists v, nth_error (col_cells c) i = Some v /\
            isna v = false /\ type_of v = t.

(** The number of cells that are not missing and have the type [t]. *)
Definition type_count (t : pytype) (c : column) : nat :=
  List.length
    (filter (fun v => negb (isna v) && pytype_eqb t (type_of v)) (col_cells c)).

(** The loop that collects the indices of the cells whose type is not the
    dominant one, under the name of their type. *)
Definition mixed_step (dominant : pytype) (acc : dict (list nat))
    (p : nat * pytype) : dict (list nat) :=
  if pytype_eqb (snd p) dominant then acc
  else Backend.defaultdict_append acc (type_name (snd p)) (fst p).

Definition named_other (dominant : pytype) (name : string)
    (p : nat * pytype) : bool :=
  negb (pytype_eqb (snd p) dominant) && String.eqb name (type_name (snd p)).

(** What a profile says, for the dominant type [d]. *)
Definition profile_of (c : column) (p : Backend.type_profile) (d : pytype)
  : Prop :=
  Backend.dominant_type p = type_name d
  /\ 0 < type_count d c
  /\ (forall t, type_count t c <= type_count d c)
  /\ (forall t, t <> d -> type_count t c = type_count d c ->
        exists i, typed_cell c i d /\ forall j, typed_cell c j t -> i < j)
  /\ (forall name,
        match dict_get (Backend.mixed_indices p) name with
        | Some l =>
            l <> [] /\
            forall i, In i l <->
                      exists t, typed_cell c i t /\ t <> d /\ type_name t = name
        | None => forall i t, typed_cell c i t -> t <> d -> type_name t <> name
        end).

(** Two cells of the column that are not missing and differ in type. *)
Definition mixed_types (c : column) : Prop :=
  exists i j a b, typed_cell c i a /\ typed_cell c j b /\ a <> b.

Definition salary_column : column :=
  Column_ "Salary" [CInt 100; CStr "bad"; CFloat (PyFloat.of_Z 200);
                    CStr "unknown"; CNone; CInt 3].

(** ** What the normaliser returns *)

(** A value that strict JSON can hold: [None], a bool, an int, a string,
    a float that is finite, and lists and dicts of such values. *)
Fixpoint json_safe (v : pyval) : bool :=
  match v with
  | PNone | PBool _ | PInt _ | PStr _ => true
  | PFloat x => negb (PyFloat.isnan x || PyFloat.isinf x)
  | PList l => forallb json_safe l
  | PDict d => forallb (fun kv => json_safe (snd kv)) d
  | PNpInteger _ | PNpFloating _ | PNdarray _ | POther _ => false
  end.

(** ** Reports and example frames *)

(** One column with the two missing markers, each of them twice. *)
Definition two_markers : DataFrame :=
  [ Column_ "x" [CNone; CFloat PyFloat.nan; CNone; CFloat PyFloat.nan] ].

(** Whether two cells of the column that are not missing differ in
    type: some type differs from the first one. *)
Definition mixed_typesb (c : column) : bool :=
  match map type_of (filter (fun v => negb (isna v)) (col_cells c)) with
  | [] => false
  | t :: rest => existsb (fun u => negb (pytype_eqb u t)) rest
  end.

(** The entry of a column, when it has one. *)
Definition profile_entry (c : column) : list (string * Backend.type_profile) :=
  match Backend.profile_column c with
  | Some p => [(col_name c, p)]
  | None => []
  end.

Definition salary_and_age : DataFrame :=
  [ Column_ "Age" [CInt 30; CInt 41; CNone];
    Column_ "Salary" [CInt 100; CStr "bad"; CFloat (PyFloat.of_Z 200)];
    Column_ "Name" [CStr "a"; CStr "b"; CStr "c"];
    Column_ "Flag" [CBool true; CInt 1; CNone] ].

(** The line of the summary for an entry of the report. *)
Definition summary_line (report : dict Backend.type_profile) (c : column)
    (line : string) : Prop :=
  exists p,
    dict_get report (col_name c) = Some p /\
    line = (col_name c ++ ": Mixed types [" ++
            String.concat ", "
              (map (fun tc => fst tc ++ " (" ++ str_of_nat (snd tc) ++ ")")
                   (Backend.type_counts p)) ++ "]")%string.

(** The types of the column have names of their own. *)
Definition distinct_type_names (c : column) : Prop :=
  forall i j a b,
    typed_cell c i a -> typed_cell c j b -> type_name a = type_name b -> a = b.

(** A float of a report entry is finite. *)
Definition finite_cell (v : cell) : Prop :=
  forall x, v = CFloat x -> PyFloat.isnan x = false /\ PyFloat.isinf x = false.

Definition readings : DataFrame :=
  [ Column_ "reading" [CInt 7; CFloat PyFloat.nan; CStr "n/a";
                       CFloat PyFloat.inf] ].

Definition ages_in_range : DataFrame :=
  [ Column_ "Age" [CInt 30; CInt 0; CInt 120] ].





Definition valid_age_cell (parse_numeric : string -> option number)
    (v : cell) : bool :=
  let n := to_numeric_coerce parse_numeric v in
  num_le (NInt 0) n && num_le n (NInt 120).

Definition salary_cell (parse_numeric : string -> option number)
    (v : cell) : bool :=
  num_ge (to_numeric_coerce parse_numeric v) (NInt 0).

Definition fruits : list string :=
  ["apple"; "banana"; "cherry"; "date"; "elderberry"]%string.

Definition string_cell (v : cell) : bool :=
  match v with
  | CStr s => existsb (String.eqb s) fruits
  | _ => false
  end.

(** Row [i] is listed under the rule [name]. *)
Definition reported (r : or_none (dict Backend.consistency_entry))
    (name : string) (i : nat) : Prop :=
  exists count indices failed_rows,
    dict_get (entries r) name = Some (Backend.Failed count indices failed_rows)
    /\ In i indices.

Definition names_only : DataFrame :=
  [ Column_ "name" [CStr "Ann"; CNone] ].

Definition staff : DataFrame :=
  [ Column_ "Age" [CInt 30; CNone; CInt 121];
    Column_ "Salary" [CInt 100; CInt (-5); CFloat PyFloat.nan];
    Column_ "string" [CStr "apple"; CStr "Apple"; CNone] ].

Definition people : DataFrame :=
  [ Column_ "name" [CStr "Ann"; CStr "Bob"];
    Column_ "Age" [CInt 30; CInt 41] ].

(* ================================================================== *)
(** * Properties *)
(* ================================================================== *)

(** ** Masks *)

Lemma mask_sum_nonzero_from (m : list bool) :
  forall i, List.length (nonzero_from i m) = mask_sum m.
Proof.
  induction m as [|b m IH]; intros i; simpl; [reflexivity|].
  destruct b; simpl; rewrite IH; reflexivity.
Qed.

Lemma mask_sum_nonzero (m : list bool) :
  List.length (nonzero m) = mask_sum m.
Proof. apply mask_sum_nonzero_from. Qed.

Lemma nonzero_from_In (m : list bool) :
  forall i k,
    In k (nonzero_from i m) <->
    i <= k /\ nth_error m (k - i) = Some true.
Proof.
  induction m as [|b m IH]; intros i k; simpl.
  - split; [tauto|]. intros [_ H]. destruct (k - i); discriminate.
  - assert (Hstep : In k (nonzero_from (S i) m) <->
                    i < k /\ nth_error (b :: m) (k - i) = Some true).
    { rewrite IH. split.
      - intros [Hle Hn]. split; [lia|].
        replace (k - i) with (S (k - S i)) by lia. exact Hn.
      - intros [Hlt Hn]. split; [lia|].
        replace (k - i) with (S (k - S i)) in Hn by lia. exact Hn. }
    destruct b; simpl.
    + rewrite Hstep. split.
      * intros [->|[Hlt Hn]].
        -- split; [lia|]. rewrite Nat.sub_diag. reflexivity.
        -- split; [lia|exact Hn].
      * intros [Hle Hn].
        destruct (Nat.eq_dec i k) as [->|Hne]; [left; reflexivity|].
        right. split; [lia|exact Hn].
    + rewrite Hstep. split.
      * intros [Hlt Hn]. split; [lia|exact Hn].
      * intros [Hle Hn].
        destruct (Nat.eq_dec i k) as [->|Hne].
        -- rewrite Nat.sub_diag in Hn. discriminate.
        -- split; [lia|exact Hn].
Qed.

Lemma nonzero_In (m : list bool) (k : nat) :
  In k (nonzero m) <-> nth_error m k = Some true.
Proof.
  unfold nonzero. rewrite nonzero_from_In, Nat.sub_0_r.
  split; [tauto|]. intros H. split; [lia|exact H].
Qed.

Lemma nonzero_from_ascending (m : list bool) :
  forall i, StronglySorted lt (nonzero_from i m).
Proof.
  induction m as [|b m IH]; intros i; simpl; [constructor|].
  destruct b; [|apply IH].
  constructor; [apply IH|].
  apply Forall_forall. intros k Hk.
  apply nonzero_from_In in Hk. lia.
Qed.

Lemma nonzero_ascending (m : list bool) : StronglySorted lt (nonzero m).
Proof. apply nonzero_from_ascending. Qed.

Lemma mask_any_false (m : list bool) :
  mask_any m = false -> mask_sum m = 0.
Proof.
  unfold mask_any. induction m as [|b m IH]; simpl; [reflexivity|].
  destruct b; simpl; [discriminate|exact IH].
Qed.

Lemma mask_any_true (m : list bool) :
  mask_any m = true <-> 0 < mask_sum m.
Proof.
  unfold mask_any. induction m as [|b m IH]; simpl.
  - split; [discriminate|lia].
  - destruct b; simpl; [split; [lia|reflexivity]|exact IH].
Qed.

Lemma select_length (A : Type) (m : list bool) :
  forall xs : list A,
    List.length m <= List.length xs ->
    List.length (select m xs) = mask_sum m.
Proof.
  induction m as [|b m IH]; intros xs Hlen; simpl; [reflexivity|].
  destruct xs as [|x xs]; simpl in Hlen; [lia|].
  destruct b; simpl; rewrite IH by lia; reflexivity.
Qed.

Lemma mapM_length (A B : Type) (f : A -> exc B) (l : list A) :
  forall ys, mapM f l = Ret ys -> List.length ys = List.length l.
Proof.
  induction l as [|x l IH]; simpl; intros ys H.
  - inversion H. reflexivity.
  - destruct (f x); [|discriminate].
    destruct (mapM f l) as [zs|]; [|discriminate].
    inversion H. simpl. rewrite (IH zs); reflexivity.
Qed.

(** ** Dicts *)

Lemma dict_get_set_same (V : Type) (d : dict V) (k : string) (v : V) :
  dict_get (dict_set d k v) k = Some v.
Proof.
  induction d as [|[k' v'] d IH]; simpl.
  - rewrite String.eqb_refl. reflexivity.
  - destruct (String.eqb k k') eqn:E; simpl; rewrite E; [reflexivity|exact IH].
Qed.

Lemma dict_get_set_other (V : Type) (d : dict V) (k k' : string) (v : V) :
  k <> k' -> dict_get (dict_set d k v) k' = dict_get d k'.
Proof.
  intros Hne. induction d as [|[k0 v0] d IH]; simpl.
  - destruct (String.eqb k' k) eqn:E; [|reflexivity].
    apply String.eqb_eq in E. congruence.
  - destruct (String.eqb k k0) eqn:E; simpl.
    + apply String.eqb_eq in E. subst k0.
      destruct (String.eqb k' k) eqn:E'; [|reflexivity].
      apply String.eqb_eq in E'. congruence.
    + destruct (String.eqb k' k0); [reflexivity|exact IH].
Qed.

Lemma dict_set_In (V : Type) (d : dict V) (k : string) (v : V) :
  forall k1 v1, In (k1, v1) (dict_set d k v) ->
                (k1 = k /\ v1 = v) \/ In (k1, v1) d.
Proof.
  induction d as [|[k0 v0] d IH]; simpl; intros k1 v1 H.
  - destruct H as [H|[]]. inversion H. left. split; reflexivity.
  - destruct (String.eqb k k0) eqn:E.
    + apply String.eqb_eq in E. subst k0.
      destruct H as [H|H]; [inversion H; left; split; reflexivity|].
      right. right. exact H.
    + destruct H as [H|H]; [right; left; exact H|].
      destruct (IH _ _ H) as [?|?]; [left; assumption|right; right; assumption].
Qed.

Lemma dict_get_In (V : Type) (d : dict V) (k : string) (v : V) :
  dict_get d k = Some v -> In (k, v) d.
Proof.
  induction d as [|[k0 v0] d IH]; simpl; [discriminate|].
  destruct (String.eqb k k0) eqn:E.
  - apply String.eqb_eq in E. subst k0. intros H. inversion H. left. reflexivity.
  - intros H. right. apply IH. exact H.
Qed.

Lemma or_none_of_list_Found (A : Type) (l d : list A) :
  or_none_of_list l = Found d -> d = l.
Proof. destruct l; simpl; intros H; [discriminate|inversion H; reflexivity]. Qed.

(** What holds of every value put into a dict by a loop holds of every
    value of the dict at the end. *)
Lemma fold_dict_invariant (A V : Type) (P : V -> Prop)
    (step : dict V -> A -> dict V) :
  (forall acc a,
      (forall k v, In (k, v) acc -> P v) ->
      forall k v, In (k, v) (step acc a) -> P v) ->
  forall l acc,
    (forall k v, In (k, v) acc -> P v) ->
    forall k v, In (k, v) (fold_left step l acc) -> P v.
Proof.
  intros Hstep l. induction l as [|a l IH]; simpl; intros acc Hacc k v H.
  - eapply Hacc; eassumption.
  - eapply IH; [|eassumption]. apply Hstep. exact Hacc.
Qed.

(** ** Duplicates *)

Lemma cell_same_spec (other_eq : cell -> cell -> bool) (single : bool)
    (a b : cell) :
  cell_same other_eq single a b = true <-> same_value other_eq single a b.
Proof.
  split.
  - unfold cell_same. intros H.
    destruct (isna a) eqn:Ea, (isna b) eqn:Eb; try discriminate.
    + destruct single eqn:Es; [|apply SameMissing; auto].
      destruct a as [| | |x| |], b as [| | |y| |]; try discriminate.
      * apply SameNone.
      * apply SameNaN; assumption.
    + destruct a as [|p|z|x|s|ty s], b as [|q|w|y|t|ty' t];
        try discriminate;
        try (apply SameOther; [assumption|assumption|reflexivity|exact H]);
        try (eapply SameNumber; [assumption|assumption|reflexivity|reflexivity|exact H]).
      apply String.eqb_eq in H. subst t. apply SameStr.
  - intros H. unfold cell_same.
    destruct H as [|x y Hx Hy|a b Hs Ha Hb|a b x y Ha Hb Hx Hy Heq|s
                   |a b Ha Hb Ho Heq].
    + destruct single; reflexivity.
    + simpl. rewrite Hx, Hy. destruct single; reflexivity.
    + rewrite Ha, Hb, Hs. reflexivity.
    + rewrite Ha, Hb.
      destruct a as [|p|z|u|s|ty s], b as [|q|w|v|t|ty' t];
        simpl in Hx, Hy; try discriminate;
        injection Hx as <-; injection Hy as <-; exact Heq.
    + simpl. apply String.eqb_refl.
    + rewrite Ha, Hb.
      destruct a as [|p|z|u|s|ty s], b as [|q|w|v|t|ty' t];
        simpl in Ho; try discriminate; exact Heq.
Qed.

Lemma row_same_spec (other_eq : cell -> cell -> bool) (single : bool)
    (r1 : list cell) :
  forall r2,
    row_same other_eq single r1 r2 = true <->
    Forall2 (same_value other_eq single) r1 r2.
Proof.
  induction r1 as [|a r1 IH]; intros [|b r2]; simpl.
  - split; [constructor|reflexivity].
  - split; [discriminate|]. intros H. inversion H.
  - split; [discriminate|]. intros H. inversion H.
  - rewrite andb_true_iff, IH, cell_same_spec. split.
    + intros [Ha Hr]. constructor; assumption.
    + intros H. inversion H. subst. split; assumption.
Qed.

Lemma duplicated_from_length (other_eq : cell -> cell -> bool) (single : bool)
    (rest : list (list cell)) :
  forall seen,
    List.length (duplicated_from other_eq single seen rest) = List.length rest.
Proof.
  induction rest as [|r rest IH]; intros seen; simpl; [reflexivity|].
  rewrite IH. reflexivity.
Qed.

Lemma duplicated_from_nth (other_eq : cell -> cell -> bool) (single : bool)
    (rest : list (list cell)) :
  forall seen k,
    k < List.length rest ->
    nth_error (duplicated_from other_eq single seen rest) k =
    Some (existsb (row_same other_eq single (nth k rest []))
                  (seen ++ firstn k rest)).
Proof.
  induction rest as [|r rest IH]; intros seen k Hk; simpl in Hk; [lia|].
  destruct k as [|k]; simpl.
  - rewrite app_nil_r. reflexivity.
  - rewrite IH by lia. rewrite <- app_assoc. reflexivity.
Qed.

Lemma firstn_seq_le (n : nat) :
  forall k s, k <= n -> firstn k (seq s n) = seq s k.
Proof.
  induction n as [|n IH]; intros k s Hk.
  - replace k with 0 by lia. reflexivity.
  - destruct k as [|k]; [reflexivity|]. simpl. rewrite IH by lia. reflexivity.
Qed.

Lemma duplicated_length (other_eq : cell -> cell -> bool) (df : DataFrame) :
  List.length (duplicated other_eq df) = nrows df.
Proof.
  unfold duplicated.
  rewrite duplicated_from_length, length_map, length_seq. reflexivity.
Qed.

(** The mask of [df.duplicated()]: row [i] is marked when a row before it
    has the same values. *)
Lemma duplicated_spec (other_eq : cell -> cell -> bool) (df : DataFrame)
    (i : nat) :
  nth_error (duplicated other_eq df) i = Some true <->
  i < nrows df /\ exists j, j < i /\ identical_rows other_eq df i j.
Proof.
  unfold identical_rows, duplicated. split.
  - intros H.
    assert (Hi : i < nrows df).
    { rewrite <- (duplicated_length other_eq df). unfold duplicated.
      apply nth_error_Some. rewrite H. discriminate. }
    split; [exact Hi|].
    rewrite duplicated_from_nth in H by (rewrite length_map, length_seq; exact Hi).
    injection H as H'. simpl in H'.
    apply existsb_exists in H'. destruct H' as [r [Hin Hsame]].
    rewrite firstn_map, firstn_seq_le in Hin by lia.
    apply in_map_iff in Hin. destruct Hin as [j [<- Hj]].
    apply in_seq in Hj. exists j. split; [lia|].
    rewrite (nth_indep _ [] (row_values df 0)) in Hsame
      by (rewrite length_map, length_seq; exact Hi).
    rewrite map_nth, seq_nth in Hsame by exact Hi. simpl in Hsame.
    apply row_same_spec. exact Hsame.
  - intros [Hi [j [Hj Hsame]]].
    rewrite duplicated_from_nth by (rewrite length_map, length_seq; exact Hi).
    f_equal. simpl. apply existsb_exists.
    exists (row_values df j). split.
    + rewrite firstn_map, firstn_seq_le by lia. apply in_map. apply in_seq. lia.
    + rewrite (nth_indep _ [] (row_values df 0))
        by (rewrite length_map, length_seq; exact Hi).
      rewrite map_nth, seq_nth by exact Hi. simpl.
      apply row_same_spec. exact Hsame.
Qed.

Lemma ascending_singleton (l : list nat) (a : nat) :
  StronglySorted lt l -> (forall k, In k l <-> k = a) -> l = [a].
Proof.
  intros Hs Hin. destruct l as [|x t].
  - exfalso. apply (proj2 (Hin a) eq_refl).
  - assert (Hx : x = a) by (apply Hin; left; reflexivity). subst x.
    destruct t as [|y t]; [reflexivity|].
    exfalso. inversion Hs as [|? ? _ Hall]. subst.
    inversion Hall as [|? ? Hlt _]. subst.
    assert (y = a) by (apply Hin; right; left; reflexivity). lia.
Qed.

Lemma detect_duplicates_indices (other_eq : cell -> cell -> bool)
    (df : DataFrame) :
  Backend.dup_indices (Backend.detect_duplicates other_eq df) =
  nonzero (duplicated other_eq df).
Proof.
  unfold Backend.detect_duplicates. simpl.
  destruct (Nat.ltb 0 (mask_sum (duplicated other_eq df))) eqn:E; [reflexivity|].
  apply Nat.ltb_ge in E.
  pose proof (mask_sum_nonzero (duplicated other_eq df)) as Hlen.
  destruct (nonzero (duplicated other_eq df)); [reflexivity|simpl in Hlen; lia].
Qed.

Lemma detect_duplicates_count (other_eq : cell -> cell -> bool)
    (df : DataFrame) :
  Backend.dup_count (Backend.detect_duplicates other_eq df) =
  List.length (Backend.dup_indices (Backend.detect_duplicates other_eq df)).
Proof.
  rewrite detect_duplicates_indices, mask_sum_nonzero. reflexivity.
Qed.

Lemma detect_duplicates_flags (other_eq : cell -> cell -> bool)
    (df : DataFrame) (i : nat) :
  In i (Backend.dup_indices (Backend.detect_duplicates other_eq df)) <->
  i < nrows df /\ exists j, j < i /\ identical_rows other_eq df i j.
Proof.
  rewrite detect_duplicates_indices, nonzero_In. apply duplicated_spec.
Qed.

(** C5, as the code has it.  [detect_duplicates] flags row [i] exactly
    when an earlier row has the same value in every column, so the first
    row of each value pattern is never flagged.  Missing markers count
    as values: [None] is the same as [None] and NaN as NaN, and the two
    markers are the same as one another exactly in a frame of several
    columns, which pandas factorizes.  [count] is the number of flagged rows, [indices]
    lists them in ascending order and is empty when [count] is 0; and a
    frame whose only two rows with the same values are rows 0 and 3 gives
    [{count: 1, indices: [3]}]. *)
Theorem detect_duplicates_flags_later_copies
    (other_eq : cell -> cell -> bool) (df : DataFrame) :
  let r := Backend.detect_duplicates other_eq df in
  (forall i,
      In i (Backend.dup_indices r) <->
      i < nrows df /\ exists j, j < i /\ identical_rows other_eq df i j)
  /\ (forall i,
         (forall j, j < i -> ~ identical_rows other_eq df i j) ->
         ~ In i (Backend.dup_indices r))
  /\ (forall single x y,
         PyFloat.isnan x = true -> PyFloat.isnan y = true ->
         same_value other_eq single CNone CNone
         /\ same_value other_eq single (CFloat x) (CFloat y)
         /\ (same_value other_eq single CNone (CFloat x) <-> single = false)
         /\ (same_value other_eq single (CFloat x) CNone <-> single = false))
  /\ Backend.dup_count r = List.length (Backend.dup_indices r)
  /\ StronglySorted lt (Backend.dup_indices r)
  /\ (Backend.dup_count r = 0 -> Backend.dup_indices r = [])
  /\ (3 < nrows df ->
      (forall i j, j < i -> i < nrows df ->
         (identical_rows other_eq df i j <-> j = 0 /\ i = 3)) ->
      r = Backend.DuplicatesReport 1 [3]).
Proof.
  intros r.
  assert (Hflag : forall i,
             In i (Backend.dup_indices r) <->
             i < nrows df /\
             exists j, j < i /\ identical_rows other_eq df i j).
  { intros i. subst r. apply detect_duplicates_flags. }
  assert (Hcount := detect_duplicates_count other_eq df). fold r in Hcount.
  assert (Hsorted : StronglySorted lt (Backend.dup_indices r)).
  { subst r. rewrite detect_duplicates_indices. apply nonzero_ascending. }
  refine (conj Hflag (conj _ (conj _ (conj Hcount (conj Hsorted (conj _ _)))))).
  - intros i Hfirst Hin. apply Hflag in Hin.
    destruct Hin as [_ [j [Hj Hsame]]]. exact (Hfirst j Hj Hsame).
  - intros single x y Hx Hy.
    refine (conj (SameNone _ _) (conj (SameNaN _ _ _ _ Hx Hy) (conj _ _))).
    + rewrite <- cell_same_spec. unfold cell_same. simpl. rewrite Hx.
      destruct single; split; intros H; try reflexivity; discriminate.
    + rewrite <- cell_same_spec. unfold cell_same. simpl. rewrite Hx.
      destruct single; split; intros H; try reflexivity; discriminate.
  - intros H0. rewrite Hcount in H0.
    destruct (Backend.dup_indices r); [reflexivity|discriminate].
  - intros Hrows Honly.
    assert (Hidx : Backend.dup_indices r = [3]).
    { apply ascending_singleton; [exact Hsorted|].
      intros k. rewrite Hflag. split.
      - intros [Hk [j [Hj Hsame]]]. apply (Honly k j Hj Hk) in Hsame. tauto.
      - intros ->. split; [exact Hrows|]. exists 0. split; [lia|].
        apply (Honly 3 0); [lia|exact Hrows|split; reflexivity]. }
    destruct r as [count indices]. simpl in *. subst indices.
    simpl in Hcount. subst count. reflexivity.
Qed.

Lemma detect_duplicates_flags_later_copies_witness :
  Backend.detect_duplicates (fun _ _ => false) two_identical_rows =
  Backend.DuplicatesReport 1 [3].
Proof.
  apply (detect_duplicates_flags_later_copies (fun _ _ => false)
           two_identical_rows).
  - simpl. lia.
  - intros i j Hj Hi. unfold identical_rows. rewrite <- row_same_spec.
    simpl in Hi.
    destruct i as [|[|[|[|[|i]]]]]; try lia;
      destruct j as [|[|[|[|j]]]]; try lia;
      vm_compute; split; intros H; try discriminate; try reflexivity;
      try (destruct H; discriminate); try (split; reflexivity).
Defined.

(** C5 as stated fails for the two missing markers, whichever of them
    are taken as identical.  In a frame of one column a NaN after a
    [None] is not flagged; next to a second column, in which the two
    rows agree, it is. *)
Lemma detect_duplicates_missing_markers :
  Backend.detect_duplicates (fun _ _ => false)
    [ Column_ "x" [CNone; CFloat PyFloat.nan] ] =
    Backend.DuplicatesReport 0 []
  /\ Backend.detect_duplicates (fun _ _ => false)
       [ Column_ "x" [CNone; CFloat PyFloat.nan];
         Column_ "y" [CInt 1; CInt 1] ] =
     Backend.DuplicatesReport 1 [1].
Proof. split; reflexivity. Qed.

(** ** Counts and indices of the failure entries *)

Lemma df_apply_length (A : Type) (df : DataFrame) (f : row -> exc A)
    (results : list A) :
  df_apply df f = Ret results -> List.length results = List.length (rows df).
Proof. apply mapM_length. Qed.

Lemma detect_invalid_inputs_entries (repr_float : float -> string)
    (keeps_missing : bool) (pattern : Type)
    (matches : pattern -> string -> bool)
    (df : DataFrame) (rules : dict pattern) (d : dict Backend.invalid_entry) :
  Backend.detect_invalid_inputs repr_float keeps_missing matches df rules =
    Found d ->
  forall col e, In (col, e) d -> invalid_entry_ok e.
Proof.
  unfold Backend.detect_invalid_inputs. intros H.
  apply or_none_of_list_Found in H. subst d.
  apply fold_dict_invariant; [|intros ? ? []].
  intros acc [col rule] Hacc k v Hin. simpl in Hin.
  destruct (get_column df col) as [c|]; [|eapply Hacc; eassumption].
  destruct (mask_any (Backend.invalid_mask repr_float keeps_missing matches
                        c rule));
    [|eapply Hacc; eassumption].
  apply dict_set_In in Hin. destruct Hin as [[_ ->]|Hin];
    [|eapply Hacc; eassumption].
  split; simpl.
  - symmetry. apply mask_sum_nonzero.
  - apply nonzero_ascending.
Qed.

Lemma check_rule_entries (df : DataFrame) (name : string)
    (f : Backend.rule_func) (acc : dict Backend.consistency_entry) :
  (forall k v, In (k, v) acc -> consistency_entry_ok v) ->
  forall k v, In (k, v) (Backend.check_rule df name f acc) ->
              consistency_entry_ok v.
Proof.
  intros Hacc k v Hin. unfold Backend.check_rule in Hin.
  destruct (df_apply df f) as [passed|msg] eqn:Happly.
  - destruct (mask_any (mask_not passed)); [|eapply Hacc; eassumption].
    apply dict_set_In in Hin. destruct Hin as [[_ ->]|Hin];
      [|eapply Hacc; eassumption].
    simpl. repeat split.
    + symmetry. apply mask_sum_nonzero.
    + apply nonzero_ascending.
    + rewrite length_map, select_length; [reflexivity|].
      unfold mask_not. rewrite length_map.
      rewrite (df_apply_length _ _ Happly). lia.
  - apply dict_set_In in Hin. destruct Hin as [[_ ->]|Hin];
      [exact I|eapply Hacc; eassumption].
Qed.

Lemma check_consistency_entries (df : DataFrame)
    (rules : dict Backend.rule_func) (d : dict Backend.consistency_entry) :
  Backend.check_consistency df rules = Found d ->
  forall name e, In (name, e) d -> consistency_entry_ok e.
Proof.
  unfold Backend.check_consistency. intros H.
  apply or_none_of_list_Found in H. subst d.
  apply fold_dict_invariant; [|intros ? ? []].
  intros acc [name f]. apply check_rule_entries.
Qed.

(** C10. In the report of [detect_duplicates], in every entry of
    [detect_invalid_inputs] and in every entry of [check_consistency] that
    is not an error entry, [count] is the length of [indices] and
    [indices] is strictly ascending; in a consistency entry [count] is
    also the length of [rows]. *)
Theorem failure_entries_count_indices (repr_float : float -> string)
    (keeps_missing : bool) (pattern : Type)
    (matches : pattern -> string -> bool)
    (other_eq : cell -> cell -> bool)
    (df : DataFrame) (patterns : dict pattern)
    (rules : dict Backend.rule_func) :
  (Backend.dup_count (Backend.detect_duplicates other_eq df) =
     List.length (Backend.dup_indices (Backend.detect_duplicates other_eq df)) /\
   StronglySorted lt (Backend.dup_indices (Backend.detect_duplicates other_eq df)))
  /\ (forall d col e,
         Backend.detect_invalid_inputs repr_float keeps_missing matches
           df patterns = Found d ->
         In (col, e) d ->
         Backend.inv_count e = List.length (Backend.inv_indices e) /\
         StronglySorted lt (Backend.inv_indices e))
  /\ (forall d name count indices failed_rows,
         Backend.check_consistency df rules = Found d ->
         In (name, Backend.Failed count indices failed_rows) d ->
         count = List.length indices /\
         StronglySorted lt indices /\
         count = List.length failed_rows).
Proof.
  split; [split|split].
  - apply detect_duplicates_count.
  - rewrite detect_duplicates_indices. apply nonzero_ascending.
  - intros d col e Hd Hin.
    exact (@detect_invalid_inputs_entries _ _ _ _ _ _ _ Hd _ _ Hin).
  - intros d name count indices failed_rows Hd Hin.
    exact (check_consistency_entries _ _ Hd _ _ Hin).
Qed.

(** ** Missing values *)

Lemma mask_sum_filter (A : Type) (p : A -> bool) (l : list A) :
  mask_sum (map p l) = List.length (filter p l).
Proof.
  induction l as [|x l IH]; simpl; [reflexivity|].
  destruct (p x); simpl; rewrite IH; reflexivity.
Qed.

Lemma isnull_sum_missing_count (c : column) :
  Backend.isnull_sum c = missing_count c.
Proof. apply mask_sum_filter. Qed.

Lemma missing_count_pos (c : column) :
  Nat.ltb 0 (missing_count c) = has_missing c.
Proof.
  unfold missing_count, has_missing.
  induction (col_cells c) as [|v l IH]; simpl; [reflexivity|].
  destruct (isna v); simpl; [reflexivity|exact IH].
Qed.

Lemma filter_map_comm (A B : Type) (f : A -> B) (p : B -> bool) (l : list A) :
  filter p (map f l) = map f (filter (fun x => p (f x)) l).
Proof.
  induction l as [|x l IH]; simpl; [reflexivity|].
  destruct (p (f x)); simpl; rewrite IH; reflexivity.
Qed.

Lemma detect_missing_values_entries (df : DataFrame) :
  Backend.detect_missing_values df =
  or_none_of_list (map (missing_entry_of df) (filter has_missing df)).
Proof.
  unfold Backend.detect_missing_values, Backend.missing_report.
  rewrite filter_map_comm. simpl.
  rewrite (filter_ext _ has_missing)
    by (intros c; rewrite isnull_sum_missing_count; apply missing_count_pos).
  rewrite (map_ext _ (missing_entry_of df))
    by (intros c; unfold missing_entry_of, Backend.missing_percentage;
        rewrite isnull_sum_missing_count; reflexivity).
  destruct (map (missing_entry_of df) (filter has_missing df)); reflexivity.
Qed.

Lemma filter_nil_iff (A : Type) (p : A -> bool) (l : list A) :
  filter p l = [] <-> forall x, In x l -> p x = false.
Proof.
  induction l as [|x l IH]; simpl.
  - split; [intros _ y []|reflexivity].
  - destruct (p x) eqn:E.
    + split; [discriminate|]. intros H. rewrite (H x) in E by (left; reflexivity).
      discriminate.
    + rewrite IH. split.
      * intros H y [<-|Hy]; [exact E|apply H; exact Hy].
      * intros H y Hy. apply H. right. exact Hy.
Qed.

Lemma has_missing_false (c : column) :
  has_missing c = false <-> forall v, In v (col_cells c) -> isna v = false.
Proof.
  unfold has_missing. split.
  - intros H v Hv. destruct (isna v) eqn:E; [|reflexivity].
    rewrite <- H. symmetry. apply existsb_exists. exists v. split; assumption.
  - intros H. destruct (existsb isna (col_cells c)) eqn:E; [|reflexivity].
    apply existsb_exists in E. destruct E as [v [Hv Hna]].
    rewrite (H v Hv) in Hna. discriminate.
Qed.

(** C4, as the code has it.  [detect_missing_values] answers ["None"]
    exactly when no column has a missing cell, and never an empty
    list; otherwise it lists the columns that have a missing cell, in
    column order, each with its number of missing cells and with the
    percentage [(missing_count / row_count) * 100] computed in binary64,
    the division first and then the product. *)
Theorem detect_missing_values_report (df : DataFrame) :
  (Backend.detect_missing_values df = NoneStr <->
   forall c, In c df -> forall v, In v (col_cells c) -> isna v = false)
  /\ Backend.detect_missing_values df <> Found []
  /\ Backend.detect_missing_values df =
     or_none_of_list (map (missing_entry_of df) (filter has_missing df)).
Proof.
  pose proof (detect_missing_values_entries df) as Heq.
  refine (conj _ (conj _ Heq)).
  - rewrite Heq. split.
    + intros H c Hc. apply has_missing_false.
      destruct (filter has_missing df) as [|c0 l] eqn:E; [|discriminate].
      exact (proj1 (filter_nil_iff _ _) E c Hc).
    + intros H.
      assert (E : filter has_missing df = []).
      { apply filter_nil_iff. intros c Hc. apply has_missing_false. apply H, Hc. }
      rewrite E. reflexivity.
  - rewrite Heq.
    destruct (map (missing_entry_of df) (filter has_missing df)); discriminate.
Qed.

Lemma detect_missing_values_report_witness :
  Backend.detect_missing_values one_missing_of_three <> Found [].
Proof.
  apply (proj1 (proj2 (detect_missing_values_report one_missing_of_three))).
Defined.

(** C4 as stated fails on the percentage: with one missing cell in three
    rows the code computes [1/3*100 = 33.33333333333333], and
    [100*1/3] is [33.333333333333336], the next float. *)
Lemma detect_missing_values_percentage_differs :
  Backend.detect_missing_values one_missing_of_three =
    Found [Backend.MissingEntry "Age" 1
             (S754_finite false 4691249611844266 (-47))]
  /\ percentage_as_specified 1 3 = S754_finite false 4691249611844267 (-47)
  /\ ~ (forall e, Backend.detect_missing_values one_missing_of_three = Found [e] ->
                  Backend.Missing_Percentage e = percentage_as_specified 1 3).
Proof.
  assert (H1 : Backend.detect_missing_values one_missing_of_three =
               Found [Backend.MissingEntry "Age" 1
                        (S754_finite false 4691249611844266 (-47))])
    by (vm_compute; reflexivity).
  assert (H2 : percentage_as_specified 1 3 =
               S754_finite false 4691249611844267 (-47))
    by (vm_compute; reflexivity).
  refine (conj H1 (conj H2 _)).
  intros H. specialize (H _ H1). rewrite H2 in H. simpl in H. discriminate.
Qed.

(** ** The JSON normaliser *)

Lemma mapM_total (A B : Type) (f : A -> exc B) (l : list A) :
  Forall (fun x => exists y, f x = Ret y) l -> exists ys, mapM f l = Ret ys.
Proof.
  induction 1 as [|x l [y Hy] _ [ys Hys]]; simpl.
  - exists []. reflexivity.
  - rewrite Hy, Hys. exists (y :: ys). reflexivity.
Qed.

Lemma mapM_Forall2 (A B : Type) (f : A -> exc B) (l : list A) :
  forall ys, mapM f l = Ret ys -> Forall2 (fun x y => f x = Ret y) l ys.
Proof.
  induction l as [|x l IH]; simpl; intros ys H.
  - injection H as <-. constructor.
  - destruct (f x) as [y|] eqn:Hy; [|discriminate].
    destruct (mapM f l) as [zs|]; [|discriminate].
    injection H as <-. constructor; [exact Hy|apply IH; reflexivity].
Qed.

Lemma Forall2_mapM (A B : Type) (f : A -> exc B) (l : list A) (ys : list B) :
  Forall2 (fun x y => f x = Ret y) l ys -> mapM f l = Ret ys.
Proof.
  induction 1 as [|x y l ys Hy _ IH]; simpl; [reflexivity|].
  rewrite Hy, IH. reflexivity.
Qed.

Lemma clean_for_json_dict (d : list (string * pyval)) :
  Backend.clean_for_json (PDict d) =
  bind (mapM clean_item d) (fun d' => Ret (PDict d')).
Proof. reflexivity. Qed.

Lemma clean_for_json_list (l : list pyval) :
  Backend.clean_for_json (PList l) =
  bind (mapM Backend.clean_for_json l) (fun l' => Ret (PList l')).
Proof. reflexivity. Qed.

(** The normaliser returns on every value. *)
Lemma clean_for_json_returns (v : pyval) :
  exists r, Backend.clean_for_json v = Ret r.
Proof.
  induction v using pyval_induction;
    try (simpl; eexists; reflexivity).
  - destruct x as [s| s| |s m e]; try destruct s; simpl; eexists; reflexivity.
  - rewrite clean_for_json_list.
    destruct (mapM_total Backend.clean_for_json H) as [ys ->].
    simpl. eexists. reflexivity.
  - rewrite clean_for_json_dict.
    assert (Hitems : Forall (fun kv => exists y, clean_item kv = Ret y) d).
    { eapply Forall_impl; [|exact H]. intros [k w] [r Hr]. unfold clean_item.
      simpl in *. rewrite Hr. simpl. eexists. reflexivity. }
    destruct (mapM_total clean_item Hitems) as [ys ->].
    simpl. eexists. reflexivity.
  - destruct x as [s| s| |s m e]; try destruct s; simpl; eexists; reflexivity.
  - simpl. exact IHv.
Qed.

(** *** The values on which a second pass changes nothing *)

Lemma clean_for_json_run_dict (frames : nat) (d : list (string * pyval)) :
  Backend.clean_for_json_run (S frames) (PDict d) =
  bind (mapM (run_item frames) d) (fun d' => Ret (PDict d')).
Proof. reflexivity. Qed.

Lemma clean_for_json_run_list (frames : nat) (l : list pyval) :
  Backend.clean_for_json_run (S frames) (PList l) =
  bind (mapM (Backend.clean_for_json_run frames) l) (fun l' => Ret (PList l')).
Proof. reflexivity. Qed.

Lemma mapM_ext_in (A B : Type) (f g : A -> exc B) (l : list A) :
  (forall x, In x l -> f x = g x) -> mapM f l = mapM g l.
Proof.
  induction l as [|x l IH]; intros H; simpl; [reflexivity|].
  rewrite (H x (or_introl eq_refl)), IH; [reflexivity|].
  intros y Hy. apply H. right. exact Hy.
Qed.

Lemma list_max_In (l : list nat) (n : nat) : In n l -> n <= list_max l.
Proof.
  induction l as [|x l IH]; simpl; intros H; [destruct H|].
  destruct H as [->|H]; [lia|]. specialize (IH H). lia.
Qed.

Lemma list_max_exists (l : list nat) (n : nat) :
  n < list_max l -> exists x, In x l /\ n < x.
Proof.
  induction l as [|x l IH]; simpl; intros H; [lia|].
  destruct (Nat.lt_ge_cases n x) as [Hx|Hx].
  - exists x. split; [left; reflexivity|exact Hx].
  - destruct IH as [y [Hy Hn]]; [lia|]. exists y. split; [right; exact Hy|exact Hn].
Qed.


(** With room for the calls that the value needs, the run is the
    function. *)
Lemma clean_for_json_run_enough (v : pyval) :
  forall frames,
    calls v <= frames ->
    Backend.clean_for_json_run frames v = Backend.clean_for_json v.
Proof.
  induction v using pyval_induction; intros frames Hf;
    try (destruct frames as [|n]; [simpl in Hf; lia|reflexivity]).
  - destruct frames as [|n]; [simpl in Hf; lia|].
    rewrite clean_for_json_run_list, clean_for_json_list.
    rewrite (@mapM_ext_in _ _ (Backend.clean_for_json_run n)
               Backend.clean_for_json l); [reflexivity|].
    intros x Hx. rewrite Forall_forall in H. apply (H x Hx).
    simpl in Hf. pose proof (list_max_In _ _ (in_map calls l x Hx)). lia.
  - destruct frames as [|n]; [simpl in Hf; lia|].
    rewrite clean_for_json_run_dict, clean_for_json_dict.
    rewrite (@mapM_ext_in _ _ (run_item n) clean_item d); [reflexivity|].
    intros kv Hkv. rewrite Forall_forall in H. unfold run_item, clean_item.
    rewrite (H kv Hkv); [reflexivity|].
    simpl in Hf.
    pose proof (list_max_In _ _ (in_map (fun kv => calls (snd kv)) d kv Hkv)).
    simpl in *. lia.
  - destruct frames as [|n]; [simpl in Hf; lia|].
    simpl in Hf |- *. apply IHv. lia.
Qed.

(** The run returns, or raises [RecursionError]. *)
Lemma clean_for_json_run_cases (frames : nat) :
  forall v,
    (exists r, Backend.clean_for_json_run frames v = Ret r) \/
    Backend.clean_for_json_run frames v = Raise Backend.RecursionError.
Proof.
  induction frames as [|n IH]; intros v; [right; reflexivity|].
  destruct v; try (left; simpl; eexists; reflexivity).
  - left. destruct x as [s| s| |s m e]; try destruct s; simpl; eexists;
      reflexivity.
  - rewrite clean_for_json_run_list.
    induction l as [|x l IHl]; [left; eexists; reflexivity|].
    simpl. destruct (IH x) as [[y ->]| ->]; [|right; reflexivity].
    destruct IHl as [[r Hr]|Hr].
    + destruct (mapM (Backend.clean_for_json_run n) l); [|discriminate].
      left. eexists. reflexivity.
    + destruct (mapM (Backend.clean_for_json_run n) l); [discriminate|].
      simpl in Hr. injection Hr as ->. right. reflexivity.
  - rewrite clean_for_json_run_dict.
    induction d as [|[k x] d IHd]; [left; eexists; reflexivity|].
    simpl.
    change (run_item n (k, x))
      with (bind (Backend.clean_for_json_run n x) (fun v' => Ret (k, v'))).
    destruct (IH x) as [[y ->]| ->]; [|right; reflexivity].
    simpl. destruct IHd as [[r Hr]|Hr].
    + destruct (mapM (run_item n) d); [|discriminate].
      left. eexists. reflexivity.
    + destruct (mapM (run_item n) d); [discriminate|].
      simpl in Hr. injection Hr as ->. right. reflexivity.
  - left. destruct x as [s| s| |s m e]; try destruct s; simpl; eexists;
      reflexivity.
  - simpl. apply IH.
Qed.

Lemma mapM_raises_some (A B : Type) (f : A -> exc B) (msg : string)
    (l : list A) :
  (forall x, In x l -> (exists y, f x = Ret y) \/ f x = Raise msg) ->
  (exists x, In x l /\ f x = Raise msg) ->
  mapM f l = Raise msg.
Proof.
  induction l as [|x l IH]; intros Hall [z [Hz Hraise]]; [destruct Hz|].
  simpl. destruct (Hall x (or_introl eq_refl)) as [[y Hy]|Hy];
    [|rewrite Hy; reflexivity].
  rewrite Hy. destruct Hz as [->|Hz]; [congruence|].
  rewrite IH; [reflexivity| |exists z; split; assumption].
  intros w Hw. apply Hall. right. exact Hw.
Qed.

(** Without room for the calls that the value needs, the run raises
    [RecursionError]. *)
Lemma clean_for_json_run_short (v : pyval) :
  forall frames,
    frames < calls v ->
    Backend.clean_for_json_run frames v = Raise Backend.RecursionError.
Proof.
  induction v using pyval_induction; intros frames Hf;
    try (destruct frames as [|n]; [reflexivity|simpl in Hf; lia]).
  - destruct frames as [|n]; [reflexivity|].
    rewrite clean_for_json_run_list. simpl in Hf.
    destruct (@list_max_exists (map calls l) n) as [c [Hc Hn]]; [lia|].
    apply in_map_iff in Hc. destruct Hc as [x [<- Hx]].
    rewrite (@mapM_raises_some _ _ (Backend.clean_for_json_run n)
               Backend.RecursionError l); [reflexivity| |].
    + intros y _. apply clean_for_json_run_cases.
    + exists x. split; [exact Hx|]. rewrite Forall_forall in H.
      apply (H x Hx). exact Hn.
  - destruct frames as [|n]; [reflexivity|].
    rewrite clean_for_json_run_dict. simpl in Hf.
    destruct (@list_max_exists (map (fun kv => calls (snd kv)) d) n)
      as [c [Hc Hn]]; [lia|].
    apply in_map_iff in Hc. destruct Hc as [kv [<- Hkv]].
    rewrite (@mapM_raises_some _ _ (run_item n) Backend.RecursionError d);
      [reflexivity| |].
    + intros y _. unfold run_item.
      destruct (clean_for_json_run_cases n (snd y)) as [[r ->]| ->];
        [left; eexists; reflexivity|right; reflexivity].
    + exists kv. split; [exact Hkv|]. rewrite Forall_forall in H.
      unfold run_item. rewrite (H kv Hkv); [reflexivity|exact Hn].
  - destruct frames as [|n]; [reflexivity|].
    simpl in Hf |- *. apply IHv. lia.
Qed.






(** C9, as the code has it.  [clean_for_json] returns a result on every
    value for whose nested calls the stack has room, and it then turns a
    value of a type that it does not test for into its [str]; on a value
    nested deeper it raises [RecursionError]. *)
Theorem clean_for_json_total (frames : nat) (obj : pyval) :
  (calls obj <= frames ->
   exists r, Backend.clean_for_json_run frames obj = Ret r)
  /\ (frames < calls obj ->
      Backend.clean_for_json_run frames obj = Raise Backend.RecursionError)
  /\ (recognized obj = false ->
      0 < frames ->
      exists s, py_str obj = Ret s /\
                Backend.clean_for_json_run frames obj = Ret (PStr s)).
Proof.
  refine (conj _ (conj _ _)).
  - intros Hf. rewrite clean_for_json_run_enough by exact Hf.
    apply clean_for_json_returns.
  - apply clean_for_json_run_short.
  - intros Hobj Hf. destruct frames as [|n]; [lia|].
    destruct obj; simpl in Hobj; try discriminate.
    exists display. split; reflexivity.
Qed.

Lemma clean_for_json_total_witness :
  exists s, py_str (POther "2024-01-31 00:00:00") = Ret s /\
            Backend.clean_for_json_run Backend.recursionlimit
              (POther "2024-01-31 00:00:00") = Ret (PStr s).
Proof.
  apply (proj2 (proj2 (clean_for_json_total Backend.recursionlimit
                         (POther "2024-01-31 00:00:00")))).
  - reflexivity.
  - unfold Backend.recursionlimit. lia.
Defined.

(** C9 as stated fails: a list nested as deep as the recursion limit
    needs more calls than any stack under that limit has room for, and
    [clean_for_json] raises [RecursionError] on it. *)
Lemma clean_for_json_raises_on_deep_list :
  calls (nested_list Backend.recursionlimit) = S Backend.recursionlimit
  /\ Backend.clean_for_json_run Backend.recursionlimit
       (nested_list Backend.recursionlimit) =
     Raise "maximum recursion depth exceeded".
Proof. split; vm_compute; reflexivity. Qed.

(** *** Non-finite floats at any depth *)


Lemma unwrap_not_array (v t : pyval) : unwrap v <> PNdarray t.
Proof.
  induction v using pyval_induction; simpl; try discriminate. exact IHv.
Qed.








(** ** Patterns *)

Lemma lang_nullable (r : regex) : nullable r = true <-> lang r EmptyString.
Proof.
  induction r as [| |p|r1 IH1 r2 IH2|r1 IH1 r2 IH2|r IH]; simpl.
  - split; [discriminate|]. intros H. inversion H.
  - split; [constructor|reflexivity].
  - split; [discriminate|]. intros H. inversion H.
  - rewrite andb_true_iff, IH1, IH2. split.
    + intros [H1 H2]. exact (LCat H1 H2).
    + intros H. inversion H as [| |? ? s1 s2 H1 H2 E1 E2| | | |]. subst.
      destruct s1; [|discriminate]. destruct s2; [|discriminate].
      split; assumption.
  - rewrite orb_true_iff, IH1, IH2. split.
    + intros [H|H]; [apply LAltL|apply LAltR]; exact H.
    + intros H. inversion H; subst; [left|right]; assumption.
  - split; [constructor|reflexivity].
Qed.

(** A non-empty word of a star starts with a non-empty word of the body. *)
Lemma lang_star_cons (r : regex) (c : ascii) (s : string) :
  lang (RStar r) (String c s) ->
  exists s1 s2, s = (s1 ++ s2)%string /\
                lang r (String c s1) /\ lang (RStar r) s2.
Proof.
  intros H.
  remember (RStar r) as r' eqn:Er. remember (String c s) as w eqn:Ew.
  revert s Ew.
  induction H as [| | | | | |r0 s1 s2 H1 _ H2 IH2]; intros w' Ew;
    try discriminate.
  injection Er as ->.
  destruct s1 as [|c1 s1]; simpl in Ew.
  - apply IH2; [reflexivity|exact Ew].
  - injection Ew as -> <-. exists s1, s2. repeat split; assumption.
Qed.

Lemma lang_deriv (r : regex) :
  forall c s, lang (deriv c r) s <-> lang r (String c s).
Proof.
  induction r as [| |p|r1 IH1 r2 IH2|r1 IH1 r2 IH2|r IH]; intros c s; simpl.
  - split; intros H; inversion H.
  - split; intros H; inversion H.
  - destruct (p c) eqn:E; split; intros H.
    + inversion H. subst. constructor. exact E.
    + inversion H. subst. constructor.
    + inversion H.
    + inversion H. subst. congruence.
  - assert (Hcat : lang (RCat (deriv c r1) r2) s <->
                   exists s1 s2, s = (s1 ++ s2)%string /\
                                 lang r1 (String c s1) /\ lang r2 s2).
    { split.
      - intros H. inversion H as [| |? ? s1 s2 H1 H2 E1 E2| | | |]. subst.
        exists s1, s2. rewrite IH1 in H1. repeat split; assumption.
      - intros [s1 [s2 [-> [H1 H2]]]]. apply LCat; [apply IH1|]; assumption. }
    assert (Hsplit : lang (RCat r1 r2) (String c s) <->
              (exists s1 s2, s = (s1 ++ s2)%string /\
                             lang r1 (String c s1) /\ lang r2 s2) \/
              (lang r1 EmptyString /\ lang r2 (String c s))).
    { split.
      - intros H. inversion H as [| |? ? s1 s2 H1 H2 E1 E2| | | |]. subst.
        destruct s1 as [|c1 s1]; simpl in E2.
        + right. subst. split; assumption.
        + injection E2 as -> <-. left. exists s1, s2. repeat split; assumption.
      - intros [[s1 [s2 [-> [H1 H2]]]]|[H1 H2]].
        + exact (LCat H1 H2).
        + exact (LCat H1 H2). }
    rewrite Hsplit.
    destruct (nullable r1) eqn:En.
    + split.
      * intros H. inversion H; subst.
        -- left. apply Hcat. assumption.
        -- right. split; [apply lang_nullable; exact En|apply IH2; assumption].
      * intros [H|[_ H]].
        -- apply LAltL, Hcat, H.
        -- apply LAltR, IH2, H.
    + rewrite Hcat. split; [intros H; left; exact H|].
      intros [H|[H _]]; [exact H|].
      apply lang_nullable in H. congruence.
  - split; intros H; inversion H; subst.
    + apply LAltL, IH1. assumption.
    + apply LAltR, IH2. assumption.
    + apply LAltL, IH1. assumption.
    + apply LAltR, IH2. assumption.
  - split.
    + intros H. inversion H as [| |? ? s1 s2 H1 H2 E1 E2| | | |]. subst.
      apply IH in H1. exact (LStarS H1 H2).
    + intros H. apply lang_star_cons in H.
      destruct H as [s1 [s2 [-> [H1 H2]]]].
      apply LCat; [apply IH|]; assumption.
Qed.

(** [re_fullmatch]: the whole string is a word of the pattern. *)
Lemma re_fullmatch_lang (s : string) :
  forall r, re_fullmatch r s = true <-> lang r s.
Proof.
  induction s as [|c s IH]; intros r; simpl.
  - apply lang_nullable.
  - rewrite IH. apply lang_deriv.
Qed.

(** [re_match]: a prefix of the string is a word of the pattern. *)
Lemma re_match_lang (s : string) :
  forall r,
    re_match r s = true <->
    exists p q, s = (p ++ q)%string /\ lang r p.
Proof.
  induction s as [|c s IH]; intros r; simpl.
  - rewrite orb_false_r, lang_nullable. split.
    + intros H. exists EmptyString, EmptyString. split; [reflexivity|exact H].
    + intros [p [q [E H]]]. destruct p; [exact H|discriminate].
  - rewrite orb_true_iff, lang_nullable, IH. split.
    + intros [H|[p [q [-> H]]]].
      * exists EmptyString, (String c s). split; [reflexivity|exact H].
      * exists (String c p), q. split; [reflexivity|]. apply lang_deriv, H.
    + intros [p [q [E H]]]. destruct p as [|c' p]; simpl in E.
      * left. exact H.
      * injection E as <- ->. right. exists p, q.
        split; [reflexivity|]. apply lang_deriv, H.
Qed.

(** ** Loops that fill a dict *)

Lemma entries_or_none_of_list (V : Type) (d : dict V) :
  entries (or_none_of_list d) = d.
Proof. destruct d; reflexivity. Qed.

Lemma fold_left_pointwise (A B : Type) (f g : A -> B -> A) (l : list B) :
  (forall a b, f a b = g a b) ->
  forall a, fold_left f l a = fold_left g l a.
Proof.
  intros Hfg. induction l as [|b l IH]; intros a; simpl; [reflexivity|].
  rewrite Hfg. apply IH.
Qed.

Lemma dict_get_absent (V : Type) (d : dict V) (k : string) :
  ~ In k (dict_keys d) -> dict_get d k = None.
Proof.
  induction d as [|[k0 v0] d IH]; simpl; intros H; [reflexivity|].
  destruct (String.eqb k k0) eqn:E.
  - apply String.eqb_eq in E. subst. exfalso. apply H. left. reflexivity.
  - apply IH. intros Hin. apply H. right. exact Hin.
Qed.

Lemma dict_get_update (V : Type) (d : dict V) (k k' : string) (o : option V) :
  dict_get (dict_update d k o) k' =
  if String.eqb k' k
  then match o with Some v => Some v | None => dict_get d k' end
  else dict_get d k'.
Proof.
  destruct (String.eqb k' k) eqn:E.
  - apply String.eqb_eq in E. subst k'. destruct o; simpl; [|reflexivity].
    apply dict_get_set_same.
  - apply String.eqb_neq in E. destruct o; simpl; [|reflexivity].
    apply dict_get_set_other. congruence.
Qed.

(** A loop over the items of a dict that sets, for each key, the entry
    that [g] computes for it: the entry of a key at the end. *)
Lemma fold_dict_update_get (A V : Type) (g : string -> A -> option V)
    (l : dict A) :
  NoDup (dict_keys l) ->
  forall acc k,
    dict_get
      (fold_left (fun acc ka => dict_update acc (fst ka) (g (fst ka) (snd ka)))
                 l acc) k =
    match dict_get l k with
    | Some a =>
        match g k a with
        | Some v => Some v
        | None => dict_get acc k
        end
    | None => dict_get acc k
    end.
Proof.
  induction l as [|[k0 a0] l IH]; simpl; intros Hnd acc k; [reflexivity|].
  inversion Hnd as [|? ? Hnotin Hnd']. subst.
  rewrite (IH Hnd'). rewrite dict_get_update.
  destruct (String.eqb k k0) eqn:E.
  - apply String.eqb_eq in E. subst k0.
    rewrite (dict_get_absent _ _ Hnotin). reflexivity.
  - destruct (dict_get l k) as [a|]; [|reflexivity].
    destruct (g k a); reflexivity.
Qed.

(** ** Invalid inputs *)

Lemma detect_invalid_inputs_get (repr_float : float -> string)
    (keeps_missing : bool) (pattern : Type)
    (matches : pattern -> string -> bool)
    (df : DataFrame) (rules : dict pattern) (col : string) :
  NoDup (dict_keys rules) ->
  dict_get (entries (Backend.detect_invalid_inputs repr_float keeps_missing
                       matches df rules)) col =
  match dict_get rules col with
  | Some rule => invalid_entry_of repr_float keeps_missing matches df col rule
  | None => None
  end.
Proof.
  intros Hnd. unfold Backend.detect_invalid_inputs.
  rewrite entries_or_none_of_list.
  rewrite (fold_left_pointwise _
             (fun acc cr => dict_update acc (fst cr)
                              (invalid_entry_of repr_float keeps_missing matches
                                 df (fst cr) (snd cr)))).
  - rewrite (fold_dict_update_get _ _ Hnd). simpl.
    destruct (dict_get rules col) as [rule|]; [|reflexivity].
    destruct (invalid_entry_of repr_float keeps_missing matches df col rule);
      reflexivity.
  - intros acc [c rule]. unfold invalid_entry_of. simpl.
    destruct (get_column df c); [|reflexivity].
    destruct (mask_any _); reflexivity.
Qed.

Lemma invalid_mask_nth (repr_float : float -> string)
    (keeps_missing : bool) (pattern : Type)
    (matches : pattern -> string -> bool) (c : column)
    (rule : pattern) (i : nat) :
  nth_error (Backend.invalid_mask repr_float keeps_missing matches c rule) i =
    Some true <->
  exists v, nth_error (col_cells c) i = Some v /\
            unmatched repr_float keeps_missing matches rule v.
Proof.
  unfold Backend.invalid_mask, mask_not, str_match, unmatched.
  rewrite !map_map, nth_error_map.
  destruct (nth_error (col_cells c) i) as [v|]; simpl.
  - split.
    + intros H. injection H as H. exists v. split; [reflexivity|].
      destruct (astype_str repr_float keeps_missing v) as [s|];
        [|left; reflexivity].
      right. exists s. split; [reflexivity|].
      destruct (matches rule s); [discriminate|reflexivity].
    + intros [v' [Hv H]]. injection Hv as <-.
      destruct H as [->|[s [-> Hs]]]; [reflexivity|].
      rewrite Hs. reflexivity.
  - split; [discriminate|]. intros [v [Hv _]]. discriminate.
Qed.

Lemma invalid_mask_length (repr_float : float -> string)
    (keeps_missing : bool) (pattern : Type)
    (matches : pattern -> string -> bool) (c : column) (rule : pattern) :
  List.length (Backend.invalid_mask repr_float keeps_missing matches c rule) =
  List.length (col_cells c).
Proof.
  unfold Backend.invalid_mask, mask_not, str_match.
  rewrite !length_map. reflexivity.
Qed.

Lemma nonzero_nil_of_any (m : list bool) : mask_any m = false -> nonzero m = [].
Proof.
  intros H. apply mask_any_false in H.
  pose proof (mask_sum_nonzero m) as Hlen.
  destruct (nonzero m); [reflexivity|simpl in Hlen; lia].
Qed.

Lemma select_enumerate_from (A : Type) (mask : list bool) :
  forall (xs : list A) (s : nat),
    List.length mask <= List.length xs ->
    map fst (select mask (combine (seq s (List.length xs)) xs)) =
    nonzero_from s mask.
Proof.
  induction mask as [|b mask IH]; intros xs s Hlen; simpl.
  - reflexivity.
  - destruct xs as [|x xs]; simpl in Hlen; [lia|]. simpl.
    destruct b; simpl; rewrite IH by lia; reflexivity.
Qed.

Lemma get_column_In (df : DataFrame) (col : string) (c : column) :
  get_column df col = Some c -> In c df /\ col_name c = col.
Proof.
  induction df as [|c0 df IH]; simpl; [discriminate|].
  destruct (String.eqb col (col_name c0)) eqn:E.
  - intros H. injection H as <-. apply String.eqb_eq in E.
    split; [left; reflexivity|symmetry; exact E].
  - intros H. destruct (IH H) as [Hin Hn]. split; [right; exact Hin|exact Hn].
Qed.

Lemma rows_length (df : DataFrame) : List.length (rows df) = nrows df.
Proof. unfold rows. rewrite length_map, length_seq. reflexivity. Qed.

Lemma dq_detect_invalid_inputs_get (repr_float : float -> string)
    (keeps_missing : bool) (pattern : Type)
    (matches : pattern -> string -> bool)
    (df : DataFrame) (rules : dict pattern) (col : string) :
  NoDup (dict_keys rules) ->
  dict_get (Dq.detect_invalid_inputs repr_float keeps_missing matches df rules)
           col =
  match dict_get rules col with
  | Some rule => invalid_rows_of repr_float keeps_missing matches df col rule
  | None => None
  end.
Proof.
  intros Hnd. unfold Dq.detect_invalid_inputs.
  rewrite (fold_left_pointwise _
             (fun acc cr => dict_update acc (fst cr)
                              (invalid_rows_of repr_float keeps_missing matches
                                 df (fst cr) (snd cr)))).
  - rewrite (fold_dict_update_get _ _ Hnd). simpl.
    destruct (dict_get rules col) as [rule|]; [|reflexivity].
    destruct (invalid_rows_of repr_float keeps_missing matches df col rule);
      reflexivity.
  - intros acc [c rule]. unfold invalid_rows_of. simpl.
    destruct (get_column df c); reflexivity.
Qed.

(** C7, as the code has it.  For every rule of the mapping whose column is
    in the frame, [detect_invalid_inputs] turns every cell of the column
    that is not missing into its string; a missing cell is not skipped:
    where [astype(str)] turns it into a string (pandas before 3) that
    string is ["None"] or ["nan"], after its marker, and where it stays
    missing (pandas 3) the cell is flagged whatever the pattern.  The
    function flags exactly the cells that stay missing and the cells
    whose string has no match of the pattern that starts at its first
    character ([Series.str.match] is [re.match]; for a regular pattern:
    no prefix of the string is in the language of the pattern, and the
    match need not reach the end).  A rule whose column is not in the
    frame leaves no entry.  The script [dq.py] selects the rows of the
    same cells. *)
Theorem detect_invalid_inputs_flags_unmatched (repr_float : float -> string)
    (keeps_missing : bool) (pattern : Type)
    (matches : pattern -> string -> bool)
    (df : DataFrame) (rules : dict pattern) (col : string) (pat : pattern) :
  well_formed df ->
  NoDup (dict_keys rules) ->
  dict_get rules col = Some pat ->
  (forall v,
      (isna v = false ->
       astype_str repr_float keeps_missing v = Some (cell_str repr_float v))
      /\ (isna v = true -> keeps_missing = false ->
          astype_str repr_float keeps_missing v = Some (cell_str repr_float v)
          /\ (cell_str repr_float v = "None"%string \/
              cell_str repr_float v = "nan"%string))
      /\ (isna v = true -> keeps_missing = true ->
          astype_str repr_float keeps_missing v = None))
  /\ (forall (r : regex) (s : string),
         (re_match r s = true <->
          exists p q, s = (p ++ q)%string /\ lang r p)
         /\ (re_fullmatch r s = true <-> lang r s))
  /\ match get_column df col with
     | None =>
         dict_get (entries (Backend.detect_invalid_inputs repr_float
                              keeps_missing matches df rules)) col = None
         /\ dict_get (Dq.detect_invalid_inputs repr_float keeps_missing
                        matches df rules) col = None
     | Some c =>
         let invalid i :=
           exists v, nth_error (col_cells c) i = Some v /\
                     unmatched repr_float keeps_missing matches pat v in
         (forall i,
             flagged (Backend.detect_invalid_inputs repr_float keeps_missing
                        matches df rules) col i
             <-> invalid i)
         /\ exists selected,
              dict_get (Dq.detect_invalid_inputs repr_float keeps_missing
                          matches df rules) col = Some selected
              /\ forall i, In i (map fst selected) <-> invalid i
     end.
Proof.
  intros [Hlen _] Hnd Hrule. split.
  { intros v. unfold astype_str. refine (conj _ (conj _ _)).
    - intros ->. reflexivity.
    - intros Hna ->. rewrite Hna. split; [reflexivity|].
      destruct v as [| | |x| |]; try discriminate.
      + left. reflexivity.
      + right. destruct x; try discriminate. reflexivity.
    - intros -> ->. reflexivity. }
  split.
  { intros r s. split; [apply re_match_lang|apply re_fullmatch_lang]. }
  pose proof (detect_invalid_inputs_get repr_float keeps_missing matches
                df rules col Hnd) as HB.
  pose proof (dq_detect_invalid_inputs_get repr_float keeps_missing matches
                df rules col Hnd) as HD.
  rewrite Hrule in HB, HD. unfold invalid_entry_of in HB.
  unfold invalid_rows_of in HD.
  destruct (get_column df col) as [c|] eqn:Hc; [|split; assumption].
  pose proof (invalid_mask_nth repr_float keeps_missing matches c pat) as Hun.
  cbv zeta. split.
  - intros i. rewrite <- Hun. unfold flagged. rewrite HB. cbv zeta.
    destruct (mask_any (Backend.invalid_mask repr_float keeps_missing matches
                          c pat)) eqn:Hany.
    + rewrite <- nonzero_In. split.
      * intros [e [He Hi]]. injection He as <-. exact Hi.
      * intros Hi. eexists. split; [reflexivity|exact Hi].
    + split.
      * intros [e [He _]]. discriminate.
      * intros Hi. apply nonzero_In in Hi.
        rewrite (nonzero_nil_of_any _ Hany) in Hi. destruct Hi.
  - eexists. split; [exact HD|].
    intros i. rewrite <- Hun, <- nonzero_In.
    unfold Dq.frame_select, enumerate, nonzero.
    rewrite select_enumerate_from; [reflexivity|].
    rewrite rows_length, invalid_mask_length.
    destruct (get_column_In _ _ Hc) as [Hin _].
    rewrite Forall_forall in Hlen. rewrite (Hlen c Hin). lia.
Qed.

Lemma detect_invalid_inputs_flags_unmatched_witness :
  flagged (Backend.detect_invalid_inputs (fun _ => "0.0"%string) false
             re_match ages_with_suffix [("Age"%string, digits)]) "Age" 2
  <->
  exists v, nth_error [CInt 30; CStr "12abc"; CStr "x"; CNone] 2 = Some v /\
            unmatched (fun _ => "0.0"%string) false re_match digits v.
Proof.
  assert (Hwf : well_formed ages_with_suffix).
  { split; [repeat constructor|].
    simpl. constructor; [intros []|constructor]. }
  assert (Hnd : NoDup (dict_keys [("Age"%string, digits)])).
  { simpl. constructor; [intros []|constructor]. }
  exact (proj1 (proj2 (proj2 (@detect_invalid_inputs_flags_unmatched
                         (fun _ => "0.0"%string) false regex re_match
                         ages_with_suffix
                         [("Age"%string, digits)] "Age" digits
                         Hwf Hnd eq_refl))) 2).
Defined.

(** C7 as stated fails.  ["12abc"] does not match [\d+] as a whole, and
    [detect_invalid_inputs] does not flag it, in neither file and
    whatever [astype(str)] does to missing cells.  And where
    [astype(str)] leaves a missing cell missing, the cell is flagged
    under [.*], a pattern that every string matches as a whole: it is
    not tested as a string. *)
Lemma detect_invalid_inputs_accepts_prefix_match :
  re_fullmatch digits "12abc" = false
  /\ (forall keeps_missing,
         Backend.detect_invalid_inputs (fun _ => "0.0"%string) keeps_missing
           re_match [ Column_ "Age" [CStr "12abc"] ] [("Age"%string, digits)]
         = NoneStr
         /\ Dq.detect_invalid_inputs (fun _ => "0.0"%string) keeps_missing
              re_match [ Column_ "Age" [CStr "12abc"] ]
              [("Age"%string, digits)]
            = [("Age"%string, [])]
         /\ ~ (flagged (Backend.detect_invalid_inputs (fun _ => "0.0"%string)
                          keeps_missing re_match
                          [ Column_ "Age" [CStr "12abc"] ]
                          [("Age"%string, digits)])
                       "Age" 0
               <-> re_fullmatch digits "12abc" = false))
  /\ (forall s, re_fullmatch anything s = true)
  /\ Backend.detect_invalid_inputs (fun _ => "0.0"%string) true re_match
       [ Column_ "Age" [CNone; CFloat PyFloat.nan; CStr "7"] ]
       [("Age"%string, anything)]
     = Found [("Age"%string,
               Backend.InvalidEntry 2 [0; 1] [CNone; CStr "nan"])].
Proof.
  split; [reflexivity|]. split.
  { intros [|]; (split; [reflexivity|]); (split; [reflexivity|]);
      intros [_ H]; destruct (H eq_refl) as [e [He _]]; discriminate. }
  split; [|reflexivity].
  intros s. apply re_fullmatch_lang. unfold anything.
  induction s as [|c s IH]; [apply LStar0|].
  change (String c s) with (String c EmptyString ++ s)%string.
  apply LStarS; [apply LChar; reflexivity|exact IH].
Qed.

(** ** Consistency rules *)

Lemma check_rule_update (df : DataFrame) (rule_name : string)
    (f : Backend.rule_func) (acc : dict Backend.consistency_entry) :
  Backend.check_rule df rule_name f acc =
  dict_update acc rule_name (rule_entry df rule_name f).
Proof.
  unfold Backend.check_rule, rule_entry.
  destruct (df_apply df f) as [passed|e]; [|reflexivity].
  cbv zeta. destruct (mask_any (mask_not passed)); reflexivity.
Qed.

Lemma check_consistency_get (df : DataFrame)
    (rules : dict Backend.rule_func) (name : string) :
  NoDup (dict_keys rules) ->
  dict_get (entries (Backend.check_consistency df rules)) name =
  match dict_get rules name with
  | Some f => rule_entry df name f
  | None => None
  end.
Proof.
  intros Hnd. unfold Backend.check_consistency.
  rewrite entries_or_none_of_list.
  rewrite (fold_left_pointwise _
             (fun acc nr => dict_update acc (fst nr)
                              (rule_entry df (fst nr) (snd nr)))).
  - rewrite (fold_dict_update_get _ _ Hnd). simpl.
    destruct (dict_get rules name) as [f|]; [|reflexivity].
    destruct (rule_entry df name f); reflexivity.
  - intros acc [n f]. apply check_rule_update.
Qed.

(** When [f] raises on some element, [mapM f] raises what [f] raises on
    the first such element. *)
Lemma mapM_raises (A B : Type) (f : A -> exc B) (l : list A) :
  forall i x msg,
    nth_error l i = Some x -> f x = Raise msg ->
    exists j y msg',
      j <= i /\ nth_error l j = Some y /\ f y = Raise msg' /\
      (forall k z, k < j -> nth_error l k = Some z -> exists b, f z = Ret b) /\
      mapM f l = Raise msg'.
Proof.
  induction l as [|a l IH]; intros i x msg Hi Hx.
  - destruct i; discriminate.
  - simpl. destruct (f a) as [b|m] eqn:Ha.
    + destruct i as [|i]; simpl in Hi.
      * injection Hi as ->. congruence.
      * destruct (IH i x msg Hi Hx) as [j [y [msg' [Hj [Hy [Hfy [Hbefore Hm]]]]]]].
        exists (S j), y, msg'. repeat split; try assumption; try lia.
        -- intros k z Hk Hz. destruct k as [|k]; simpl in Hz.
           ++ injection Hz as <-. exists b. exact Ha.
           ++ apply (Hbefore k z); [lia|exact Hz].
        -- rewrite Hm. reflexivity.
    + exists 0, a, m. repeat split; try assumption; try lia.
Qed.

Lemma mapM_returns_nth (A B : Type) (f : A -> exc B) (l : list A) :
  forall ys, mapM f l = Ret ys ->
  forall k b, nth_error ys k = Some b <->
              exists x, nth_error l k = Some x /\ f x = Ret b.
Proof.
  induction l as [|a l IH]; simpl; intros ys H k b.
  - injection H as <-. split.
    + destruct k; discriminate.
    + intros [x [Hx _]]. destruct k; discriminate.
  - destruct (f a) as [b0|] eqn:Ha; [|discriminate].
    destruct (mapM f l) as [zs|] eqn:Hz; [|discriminate].
    injection H as <-. destruct k as [|k]; simpl.
    + split.
      * intros Hb. injection Hb as <-. exists a. split; [reflexivity|exact Ha].
      * intros [x [Hx Hb]]. injection Hx as <-. congruence.
    + apply IH. reflexivity.
Qed.

(** The indices of a [Failed] entry are the rows on which the rule
    answers [False]. *)
Lemma rule_entry_returns (df : DataFrame) (name : string)
    (f : Backend.rule_func) :
  (forall r, In r (rows df) -> exists b, f r = Ret b) ->
  match rule_entry df name f with
  | None => forall r, In r (rows df) -> f r = Ret true
  | Some (Backend.Failed count indices failed_rows) =>
      0 < count /\
      forall k, In k indices <->
                exists r, nth_error (rows df) k = Some r /\ f r = Ret false
  | Some (Backend.RuleError _ _) => False
  end.
Proof.
  intros Hret. unfold rule_entry, df_apply.
  assert (Htot : exists passed, mapM f (rows df) = Ret passed).
  { apply mapM_total. apply Forall_forall. exact Hret. }
  destruct Htot as [passed Hp]. rewrite Hp. cbv zeta.
  pose proof (mapM_returns_nth _ _ Hp) as Hnth.
  assert (Hfalse : forall k,
             nth_error (mask_not passed) k = Some true <->
             exists r, nth_error (rows df) k = Some r /\ f r = Ret false).
  { intros k. unfold mask_not. rewrite nth_error_map.
    rewrite <- Hnth.
    destruct (nth_error passed k) as [[|]|]; simpl; split; intros H;
      try discriminate; reflexivity. }
  destruct (mask_any (mask_not passed)) eqn:Hany.
  - split; [apply mask_any_true; exact Hany|].
    intros k. rewrite nonzero_In. apply Hfalse.
  - intros r Hr. destruct (Hret r Hr) as [[|] Hb]; [exact Hb|].
    exfalso. apply In_nth_error in Hr. destruct Hr as [k Hk].
    assert (Hin : In k (nonzero (mask_not passed))).
    { apply nonzero_In, Hfalse. exists r. split; assumption. }
    rewrite (nonzero_nil_of_any _ Hany) in Hin. destruct Hin.
Qed.


(** In [dq.py] nothing catches what a rule raises: the call raises, and
    no rule gets a result. *)
Lemma dq_check_consistency_loop_raises (df : DataFrame)
    (rules : dict (row -> exc bool)) (name : string) (f : row -> exc bool)
    (i : nat) (r : row) (msg : string) :
  In (name, f) rules ->
  nth_error (rows df) i = Some r ->
  f r = Raise msg ->
  forall acc, exists msg', Dq.check_consistency_loop df rules acc = Raise msg'.
Proof.
  intros Hin Hi Hraise.
  induction rules as [|[n0 f0] rules IH]; intros acc; [destruct Hin|].
  simpl. destruct (df_apply df f0) as [passed|e] eqn:Happly.
  - destruct Hin as [Heq|Hin].
    + injection Heq as -> ->.
      destruct (mapM_raises f (rows df) i Hi Hraise)
        as [j [y [msg' [_ [_ [_ [_ Hm]]]]]]].
      unfold df_apply in Happly. congruence.
    + apply IH. exact Hin.
  - exists e. reflexivity.
Qed.

(** C1 at a frame with a string in [Age]: [backend.py] reports the rule
    that raises as an error entry and the other rule with its failing
    row, and [dq.py] raises, with no result for either rule. *)
Theorem check_consistency_raising_rule :
  Backend.check_consistency ages_with_text two_rules =
    Found
      [ ("Age at most 120",
         Backend.RuleError
           "'<=' not supported between instances of 'str' and 'int'"
           "Error checking rule: Age at most 120");
        ("Age is not 150",
         Backend.Failed 1 [2] [[("Age", CInt 150)]]) ]%string
  /\ Dq.check_consistency ages_with_text two_rules =
       Raise "'<=' not supported between instances of 'str' and 'int'".
Proof. split; reflexivity. Qed.


(** In [dq.py], when a rule of the mapping raises on some row,
    [check_consistency] raises: no rule is reported. *)
Theorem dq_check_consistency_raises (df : DataFrame)
    (rules : dict (row -> exc bool)) (name : string) (f : row -> exc bool)
    (i : nat) (r : row) (msg : string) :
  In (name, f) rules ->
  nth_error (rows df) i = Some r ->
  f r = Raise msg ->
  exists msg', Dq.check_consistency df rules = Raise msg'.
Proof.
  intros Hin Hi Hraise. unfold Dq.check_consistency.
  exact (@dq_check_consistency_loop_raises df rules name f i r msg
           Hin Hi Hraise []).
Qed.

Lemma dq_check_consistency_raises_witness :
  exists msg, Dq.check_consistency ages_with_text two_rules = Raise msg.
Proof.
  apply (@dq_check_consistency_raises ages_with_text two_rules
           "Age at most 120" age_at_most_120 1 [("Age"%string, CStr "x")]
           "'<=' not supported between instances of 'str' and 'int'").
  - left. reflexivity.
  - reflexivity.
  - reflexivity.
Defined.

(** ** The default rules *)

(** C8. With the default rules and [Age = [30, 150, "x"]], "Valid Age"
    passes row 0 and fails rows 1 and 2: 150 is above 120, and ["x"] is
    coerced to NaN, which is not above 0; the report has the entry of
    "Valid Age" with these two rows and no other entry. *)
Theorem valid_age_scenario (parse_numeric : string -> option number) :
  parse_numeric "x"%string = None ->
  let valid_age := Backend.valid_age parse_numeric in
  valid_age (row_at ages_scenario 0) = Ret true
  /\ valid_age (row_at ages_scenario 1) = Ret false
  /\ valid_age (row_at ages_scenario 2) = Ret false
  /\ num_le (NInt 150) (NInt 120) = false
  /\ to_numeric_coerce parse_numeric (CStr "x") = NFloat PyFloat.nan
  /\ num_le (NInt 0) (NFloat PyFloat.nan) = false
  /\ Backend.check_consistency ages_scenario
       (Backend.consistency_rules parse_numeric) =
     Found [ ("Valid Age"%string,
              Backend.Failed 2 [1; 2]
                [ [("Age"%string, CInt 150)]; [("Age"%string, CStr "x")] ]) ].
Proof.
  intros Hx.
  assert (Hnum : to_numeric_coerce parse_numeric (CStr "x") = NFloat PyFloat.nan)
    by (simpl; rewrite Hx; reflexivity).
  assert (H2 : Backend.valid_age parse_numeric (row_at ages_scenario 2) = Ret false).
  { unfold Backend.valid_age. simpl. rewrite Hx. reflexivity. }
  assert (Hage : df_apply ages_scenario (Backend.valid_age parse_numeric) =
                 Ret [true; false; false]).
  { unfold df_apply.
    change (rows ages_scenario)
      with [row_at ages_scenario 0; row_at ages_scenario 1; row_at ages_scenario 2].
    cbn [mapM]. rewrite H2. reflexivity. }
  cbv zeta. repeat split; try assumption; try reflexivity.
  unfold Backend.check_consistency, Backend.consistency_rules.
  cbn [fold_left fst snd]. unfold Backend.check_rule. rewrite Hage.
  reflexivity.
Qed.

Lemma valid_age_scenario_witness :
  Backend.check_consistency ages_scenario (Backend.consistency_rules parse_integer)
  = Found [ ("Valid Age"%string,
             Backend.Failed 2 [1; 2]
               [ [("Age"%string, CInt 150)]; [("Age"%string, CStr "x")] ]) ].
Proof.
  apply (valid_age_scenario parse_integer). reflexivity.
Defined.

Lemma failure_entries_count_indices_witness :
  2 = List.length [1; 2] /\ StronglySorted lt [1; 2] /\
  2 = List.length [ [("Age"%string, CInt 150)]; [("Age"%string, CStr "x")] ].
Proof.
  apply (proj2 (proj2 (@failure_entries_count_indices
                         (fun _ => "0.0"%string) false regex re_match
                         (fun _ _ => false) ages_scenario []
                         (Backend.consistency_rules parse_integer)))
           [ ("Valid Age"%string,
              Backend.Failed 2 [1; 2]
                [ [("Age"%string, CInt 150)]; [("Age"%string, CStr "x")] ]) ]
           "Valid Age"%string).
  - reflexivity.
  - left. reflexivity.
Defined.

(** ** Type profiles *)

Lemma pytype_eqb_eq (a b : pytype) : pytype_eqb a b = true <-> a = b.
Proof.
  destruct a, b; simpl; split; intros H; try discriminate; try reflexivity.
  - apply String.eqb_eq in H. subst. reflexivity.
  - injection H as ->. apply String.eqb_refl.
Qed.

Lemma pytype_eqb_refl (a : pytype) : pytype_eqb a a = true.
Proof. apply pytype_eqb_eq. reflexivity. Qed.

Lemma pytype_eqb_neq (a b : pytype) : pytype_eqb a b = false <-> a <> b.
Proof.
  split.
  - intros H E. apply pytype_eqb_eq in E. congruence.
  - intros H. destruct (pytype_eqb a b) eqn:E; [|reflexivity].
    apply pytype_eqb_eq in E. contradiction.
Qed.

(** *** The head of [value_counts] *)

Lemma insert_desc_head (x : pytype * nat) (l : list (pytype * nat)) :
  hd_error (insert_desc x l) =
  match hd_error l with
  | None => Some x
  | Some y => if Nat.leb (snd y) (snd x) then Some x else Some y
  end.
Proof.
  destruct l as [|y l]; simpl; [reflexivity|].
  destruct (Nat.leb (snd y) (snd x)); reflexivity.
Qed.

Lemma sort_desc_head (l : list (pytype * nat)) :
  hd_error (sort_desc l) = first_max l.
Proof.
  induction l as [|x l IH]; [reflexivity|].
  change (sort_desc (x :: l)) with (insert_desc x (sort_desc l)).
  rewrite insert_desc_head, IH. reflexivity.
Qed.

Lemma insert_desc_length (x : pytype * nat) (l : list (pytype * nat)) :
  List.length (insert_desc x l) = S (List.length l).
Proof.
  induction l as [|y l IH]; simpl; [reflexivity|].
  destruct (Nat.leb (snd y) (snd x)); simpl; [reflexivity|].
  rewrite IH. reflexivity.
Qed.

Lemma sort_desc_length (l : list (pytype * nat)) :
  List.length (sort_desc l) = List.length l.
Proof.
  induction l as [|x l IH]; [reflexivity|].
  change (sort_desc (x :: l)) with (insert_desc x (sort_desc l)).
  rewrite insert_desc_length, IH. reflexivity.
Qed.

(** [first_max] is an entry with the largest count, and every entry
    before it has a smaller count. *)
Lemma first_max_spec (l : list (pytype * nat)) (m : pytype * nat) :
  first_max l = Some m ->
  (forall x, In x l -> snd x <= snd m) /\
  exists l1 l2, l = l1 ++ m :: l2 /\ forall x, In x l1 -> snd x < snd m.
Proof.
  revert m. induction l as [|x l IH]; simpl; intros m H; [discriminate|].
  destruct (first_max l) as [m'|] eqn:E.
  - destruct (IH m' eq_refl) as [Hmax [l1 [l2 [Hl Hbefore]]]].
    destruct (Nat.leb (snd m') (snd x)) eqn:Hle; injection H as <-.
    + apply Nat.leb_le in Hle. split.
      * intros y [<-|Hy]; [lia|]. specialize (Hmax y Hy). lia.
      * exists [], l. split; [reflexivity|]. intros y [].
    + apply Nat.leb_gt in Hle. split.
      * intros y [<-|Hy]; [lia|]. apply Hmax, Hy.
      * exists (x :: l1), l2. split; [rewrite Hl; reflexivity|].
        intros y [<-|Hy]; [exact Hle|]. apply Hbefore, Hy.
  - injection H as <-. destruct l as [|y l].
    + split.
      * intros y [<-|[]]. lia.
      * exists [], []. split; [reflexivity|]. intros y [].
    + simpl in E. destruct (first_max l) as [m'|];
        [destruct (Nat.leb (snd m') (snd y))|]; discriminate.
Qed.

(** *** The tally *)

Lemma tally_snoc (ts : list pytype) (t : pytype) :
  tally (ts ++ [t]) = tally_add t (tally ts).
Proof. unfold tally. rewrite fold_left_app. reflexivity. Qed.

Lemma count_type_snoc (x t : pytype) (ts : list pytype) :
  count_type x (ts ++ [t]) =
  count_type x ts + (if pytype_eqb x t then 1 else 0).
Proof.
  unfold count_type. rewrite filter_app, length_app. simpl.
  destruct (pytype_eqb x t); reflexivity.
Qed.

Lemma tally_get_add (x t : pytype) (acc : list (pytype * nat)) :
  tally_get x (tally_add t acc) =
  tally_get x acc + (if pytype_eqb x t then 1 else 0).
Proof.
  induction acc as [|[t' n] acc IH]; simpl.
  - destruct (pytype_eqb x t); reflexivity.
  - destruct (pytype_eqb t t') eqn:Ett; simpl.
    + apply pytype_eqb_eq in Ett. subst t'.
      destruct (pytype_eqb x t); lia.
    + destruct (pytype_eqb x t') eqn:Ext.
      * apply pytype_eqb_eq in Ext. subst t'.
        assert (pytype_eqb x t = false) as ->; [|lia].
        apply pytype_eqb_neq. apply pytype_eqb_neq in Ett. congruence.
      * exact IH.
Qed.

Lemma tally_get_count (ts : list pytype) (x : pytype) :
  tally_get x (tally ts) = count_type x ts.
Proof.
  induction ts as [|t ts IH] using rev_ind; [reflexivity|].
  rewrite tally_snoc, tally_get_add, count_type_snoc, IH. reflexivity.
Qed.

Lemma tally_add_keys (t : pytype) (acc : list (pytype * nat)) :
  map fst (tally_add t acc) =
  if existsb (pytype_eqb t) (map fst acc)
  then map fst acc
  else map fst acc ++ [t].
Proof.
  induction acc as [|[t' n] acc IH]; simpl; [reflexivity|].
  destruct (pytype_eqb t t') eqn:E; simpl; [reflexivity|].
  rewrite IH. destruct (existsb (pytype_eqb t) (map fst acc)); reflexivity.
Qed.

Lemma existsb_pytype_In (t : pytype) (l : list pytype) :
  existsb (pytype_eqb t) l = true <-> In t l.
Proof.
  rewrite existsb_exists. split.
  - intros [x [Hx E]]. apply pytype_eqb_eq in E. subst. exact Hx.
  - intros H. exists t. split; [exact H|apply pytype_eqb_refl].
Qed.

Lemma count_type_pos (t : pytype) (ts : list pytype) :
  0 < count_type t ts <-> In t ts.
Proof.
  unfold count_type. induction ts as [|x ts IH]; simpl.
  - split; [lia|intros []].
  - destruct (pytype_eqb t x) eqn:E; simpl.
    + apply pytype_eqb_eq in E. subst. split; [left; reflexivity|lia].
    + rewrite IH. split; [right; assumption|].
      intros [->|H]; [|exact H]. rewrite pytype_eqb_refl in E. discriminate.
Qed.

Lemma tally_get_pos_keys (t : pytype) (acc : list (pytype * nat)) :
  Forall (fun p => 0 < snd p) acc ->
  (0 < tally_get t acc <-> In t (map fst acc)).
Proof.
  induction 1 as [|[t' n] acc Hn _ IH]; simpl.
  - split; [lia|intros []].
  - destruct (pytype_eqb t t') eqn:E.
    + apply pytype_eqb_eq in E. subst. simpl in Hn.
      split; [left; reflexivity|intros _; exact Hn].
    + rewrite IH. split; [right; assumption|].
      intros [->|H]; [|exact H]. rewrite pytype_eqb_refl in E. discriminate.
Qed.

Lemma tally_add_positive (t : pytype) (acc : list (pytype * nat)) :
  Forall (fun p => 0 < snd p) acc ->
  Forall (fun p => 0 < snd p) (tally_add t acc).
Proof.
  induction 1 as [|[t' n] acc Hn Hacc IH]; simpl.
  - constructor; [simpl; lia|constructor].
  - destruct (pytype_eqb t t'); constructor; simpl in *; try lia; assumption.
Qed.

Lemma tally_positive (ts : list pytype) :
  Forall (fun p => 0 < snd p) (tally ts).
Proof.
  induction ts as [|t ts IH] using rev_ind; [constructor|].
  rewrite tally_snoc. apply tally_add_positive, IH.
Qed.

(** The keys of the tally are the types that occur. *)
Lemma tally_keys_In (ts : list pytype) (t : pytype) :
  In t (map fst (tally ts)) <-> In t ts.
Proof.
  rewrite <- (tally_get_pos_keys t (tally_positive ts)).
  rewrite tally_get_count. apply count_type_pos.
Qed.

Lemma tally_keys_NoDup (ts : list pytype) : NoDup (map fst (tally ts)).
Proof.
  induction ts as [|t ts IH] using rev_ind; [constructor|].
  rewrite tally_snoc, tally_add_keys.
  destruct (existsb (pytype_eqb t) (map fst (tally ts))) eqn:E; [exact IH|].
  apply NoDup_app; [exact IH|repeat constructor; intros []|].
  intros x Hx [<-|[]].
  apply existsb_pytype_In in Hx. congruence.
Qed.

Lemma tally_In_count (ts : list pytype) (t : pytype) (n : nat) :
  In (t, n) (tally ts) -> n = count_type t ts.
Proof.
  rewrite <- tally_get_count.
  pose proof (tally_keys_NoDup ts) as Hnd.
  induction (tally ts) as [|[t' n'] acc IH]; simpl; intros Hin; [destruct Hin|].
  simpl in Hnd. inversion Hnd as [|? ? Hnotin Hnd']. subst.
  destruct Hin as [Heq|Hin].
  - injection Heq as -> ->. rewrite pytype_eqb_refl. reflexivity.
  - destruct (pytype_eqb t t') eqn:E.
    + apply pytype_eqb_eq in E. subst t'. exfalso. apply Hnotin.
      apply (in_map fst) in Hin. exact Hin.
    + apply IH; assumption.
Qed.

Lemma snoc_eq_middle (A : Type) (l k1 k2 : list A) (t a : A) :
  l ++ [t] = k1 ++ a :: k2 ->
  (k2 = [] /\ l = k1 /\ a = t) \/
  (exists k2', k2 = k2' ++ [t] /\ l = k1 ++ a :: k2').
Proof.
  intros H. destruct (rev k2) as [|x rk] eqn:E.
  - assert (k2 = []) by (rewrite <- (rev_involutive k2), E; reflexivity).
    subst k2. apply app_inj_tail in H. destruct H as [-> ->].
    left. repeat split.
  - assert (Hk : k2 = rev rk ++ [x])
      by (rewrite <- (rev_involutive k2), E; reflexivity).
    subst k2. right. exists (rev rk).
    change (k1 ++ a :: rev rk ++ [x]) with (k1 ++ (a :: rev rk) ++ [x]) in H.
    rewrite app_assoc in H. apply app_inj_tail in H.
    destruct H as [-> ->]. split; reflexivity.
Qed.

(** The keys of the tally are in the order in which the types first
    occur: a key before another occurs before the other does. *)
Lemma tally_keys_order (ts : list pytype) :
  forall k1 a k2 b,
    map fst (tally ts) = k1 ++ a :: k2 -> In b k2 ->
    exists pre post, ts = pre ++ post /\ In a pre /\ ~ In b pre.
Proof.
  induction ts as [|t ts IH] using rev_ind; intros k1 a k2 b Hk Hb.
  - destruct k1; discriminate.
  - rewrite tally_snoc, tally_add_keys in Hk.
    destruct (existsb (pytype_eqb t) (map fst (tally ts))) eqn:E.
    + destruct (IH _ _ _ _ Hk Hb) as [pre [post [-> [Ha Hnb]]]].
      exists pre, (post ++ [t]).
        split; [rewrite app_assoc; reflexivity|split; assumption].
    + apply snoc_eq_middle in Hk.
      destruct Hk as [[-> _]|[k2' [-> Hk]]]; [destruct Hb|].
      apply in_app_or in Hb. destruct Hb as [Hb|[<-|[]]].
      * destruct (IH _ _ _ _ Hk Hb) as [pre [post [-> [Ha Hnb]]]].
        exists pre, (post ++ [t]).
        split; [rewrite app_assoc; reflexivity|split; assumption].
      * exists ts, [t]. split; [reflexivity|]. split.
        -- apply tally_keys_In. rewrite Hk. apply in_or_app. right. left.
           reflexivity.
        -- intros Hin. apply tally_keys_In, existsb_pytype_In in Hin. congruence.
Qed.

Lemma tally_two_types (ts : list pytype) :
  2 <= List.length (tally ts) <->
  exists a b, In a ts /\ In b ts /\ a <> b.
Proof.
  pose proof (tally_keys_NoDup ts) as Hnd.
  pose proof (tally_keys_In ts) as Hin.
  rewrite <- (length_map fst).
  destruct (map fst (tally ts)) as [|a [|b l]]; simpl in *.
  - split; [lia|]. intros [a [_ [Ha _]]]. apply Hin in Ha. destruct Ha.
  - split; [lia|]. intros [x [y [Hx [Hy Hne]]]].
    apply Hin in Hx, Hy. destruct Hx as [<-|[]]. destruct Hy as [<-|[]].
    contradiction.
  - split; [|lia]. intros _. exists a, b. repeat split.
    + apply Hin. left. reflexivity.
    + apply Hin. right. left. reflexivity.
    + inversion Hnd as [|? ? Hnotin _]. subst. intros ->. apply Hnotin.
      left. reflexivity.
Qed.

(** *** The types of a column *)

Lemma enumerate_from_In (A : Type) (l : list A) :
  forall s i v,
    In (i, v) (combine (seq s (List.length l)) l) <->
    s <= i /\ nth_error l (i - s) = Some v.
Proof.
  induction l as [|x l IH]; intros s i v; simpl.
  - split; [intros []|]. intros [_ H]. destruct (i - s); discriminate.
  - rewrite IH. split.
    + intros [H|[Hle Hn]].
      * injection H as <- <-. split; [lia|]. rewrite Nat.sub_diag. reflexivity.
      * split; [lia|]. replace (i - s) with (S (i - S s)) by lia. exact Hn.
    + intros [Hle Hn].
      destruct (Nat.eq_dec s i) as [->|Hne].
      * rewrite Nat.sub_diag in Hn. injection Hn as ->. left. reflexivity.
      * right. split; [lia|].
        replace (i - s) with (S (i - S s)) in Hn by lia. exact Hn.
Qed.

Lemma enumerate_In (A : Type) (l : list A) (i : nat) (v : A) :
  In (i, v) (enumerate l) <-> nth_error l i = Some v.
Proof.
  unfold enumerate. rewrite enumerate_from_In, Nat.sub_0_r.
  split; [tauto|]. intros H. split; [lia|exact H].
Qed.

Lemma filter_enumerate_fst (A : Type) (q : A -> bool) (l : list A) :
  forall s,
    map fst (filter (fun p => q (snd p)) (combine (seq s (List.length l)) l)) =
    nonzero_from s (map q l).
Proof.
  induction l as [|x l IH]; intros s; simpl; [reflexivity|].
  destruct (q x); simpl; rewrite IH; reflexivity.
Qed.

Lemma filter_enumerate_snd (A : Type) (q : A -> bool) (l : list A) :
  forall s,
    map snd (filter (fun p => q (snd p)) (combine (seq s (List.length l)) l)) =
    filter q l.
Proof.
  induction l as [|x l IH]; intros s; simpl; [reflexivity|].
  destruct (q x); simpl; rewrite IH; reflexivity.
Qed.

Lemma type_series_In (c : column) (i : nat) (t : pytype) :
  In (i, t) (Backend.type_series c) <-> typed_cell c i t.
Proof.
  unfold Backend.type_series, typed_cell. rewrite in_map_iff. split.
  - intros [[j v] [Heq Hin]]. simpl in Heq. injection Heq as -> <-.
    apply filter_In in Hin. destruct Hin as [Hin Hna]. simpl in Hna.
    apply enumerate_In in Hin. exists v. repeat split; try assumption.
    destruct (isna v); [discriminate|reflexivity].
  - intros [v [Hv [Hna <-]]]. exists (i, v). split; [reflexivity|].
    apply filter_In. split; [apply enumerate_In; exact Hv|].
    simpl. rewrite Hna. reflexivity.
Qed.

Lemma type_series_indices (c : column) :
  map fst (Backend.type_series c) =
  nonzero (map (fun v => negb (isna v)) (col_cells c)).
Proof.
  unfold Backend.type_series, enumerate, nonzero.
  rewrite map_map. simpl.
  apply (filter_enumerate_fst (fun v => negb (isna v))).
Qed.

Lemma type_series_types (c : column) :
  map snd (Backend.type_series c) =
  map type_of (filter (fun v => negb (isna v)) (col_cells c)).
Proof.
  unfold Backend.type_series, enumerate.
  rewrite map_map. simpl.
  rewrite <- (filter_enumerate_snd (fun v => negb (isna v)) (col_cells c) 0).
  rewrite map_map. reflexivity.
Qed.

Lemma type_series_count (c : column) (t : pytype) :
  count_type t (map snd (Backend.type_series c)) = type_count t c.
Proof.
  rewrite type_series_types. unfold count_type, type_count.
  induction (col_cells c) as [|v l IH]; simpl; [reflexivity|].
  destruct (isna v); simpl; [exact IH|].
  destruct (pytype_eqb t (type_of v)); simpl; rewrite IH; reflexivity.
Qed.

Lemma type_series_In_types (c : column) (t : pytype) :
  In t (map snd (Backend.type_series c)) <-> exists i, typed_cell c i t.
Proof.
  rewrite in_map_iff. split.
  - intros [[i t'] [Heq Hin]]. simpl in Heq. subst t'. exists i.
    apply type_series_In. exact Hin.
  - intros [i Hi]. exists (i, t). split; [reflexivity|].
    apply type_series_In. exact Hi.
Qed.

Lemma ascending_app_lt (l1 l2 : list nat) :
  StronglySorted lt (l1 ++ l2) ->
  forall x y, In x l1 -> In y l2 -> x < y.
Proof.
  induction l1 as [|a l1 IH]; simpl; intros Hs x y Hx Hy; [destruct Hx|].
  inversion Hs as [|? ? Hs' Hall]. subst.
  destruct Hx as [<-|Hx].
  - rewrite Forall_forall in Hall. apply Hall. apply in_or_app. right. exact Hy.
  - apply IH; assumption.
Qed.

(** A type that occurs in a prefix of the series in which another does
    not occur has a cell before every cell of the other. *)
Lemma type_series_prefix (c : column) (pre post : list pytype) (a b : pytype) :
  map snd (Backend.type_series c) = pre ++ post ->
  In a pre -> ~ In b pre ->
  exists i, typed_cell c i a /\ forall j, typed_cell c j b -> i < j.
Proof.
  intros Hsplit Ha Hb.
  apply map_eq_app in Hsplit.
  destruct Hsplit as [P [Q [HPQ [HP HQ]]]]. subst pre post.
  apply in_map_iff in Ha. destruct Ha as [[i a'] [Heq Hin]].
  simpl in Heq. subst a'.
  exists i. split.
  - apply type_series_In. rewrite HPQ. apply in_or_app. left. exact Hin.
  - intros j Hj. apply type_series_In in Hj. rewrite HPQ in Hj.
    apply in_app_or in Hj. destruct Hj as [Hj|Hj].
    + exfalso. apply Hb. apply in_map_iff. exists (j, b). split; [reflexivity|exact Hj].
    + pose proof (nonzero_ascending (map (fun v => negb (isna v)) (col_cells c)))
        as Hs.
      rewrite <- type_series_indices, HPQ, map_app in Hs.
      apply (ascending_app_lt _ _ Hs).
      * apply (in_map fst) in Hin. exact Hin.
      * apply (in_map fst) in Hj. exact Hj.
Qed.

(** *** The indices of the other types *)

Lemma defaultdict_append_get (d : dict (list nat)) (key name : string)
    (idx : nat) :
  dict_get (Backend.defaultdict_append d key idx) name =
  if String.eqb name key
  then Some (match dict_get d key with Some l => l | None => [] end ++ [idx])
  else dict_get d name.
Proof.
  unfold Backend.defaultdict_append.
  destruct (String.eqb name key) eqn:E.
  - apply String.eqb_eq in E. subst name.
    destruct (dict_get d key); apply dict_get_set_same.
  - apply String.eqb_neq in E.
    destruct (dict_get d key); apply dict_get_set_other; congruence.
Qed.

Lemma mixed_fold_get (dominant : pytype) (name : string)
    (l : list (nat * pytype)) :
  forall acc,
    dict_get (fold_left (mixed_step dominant) l acc) name =
    match dict_get acc name, map fst (filter (named_other dominant name) l) with
    | None, [] => None
    | None, new => Some new
    | Some prev, new => Some (prev ++ new)
    end.
Proof.
  induction l as [|[i t] l IH]; intros acc; simpl.
  - destruct (dict_get acc name); [rewrite app_nil_r|]; reflexivity.
  - rewrite IH. unfold mixed_step, named_other. simpl.
    destruct (pytype_eqb t dominant); simpl; [reflexivity|].
    rewrite defaultdict_append_get.
    destruct (String.eqb name (type_name t)) eqn:E; simpl.
    + apply String.eqb_eq in E. subst name.
      destruct (dict_get acc (type_name t)); simpl.
      * rewrite <- app_assoc. reflexivity.
      * reflexivity.
    + reflexivity.
Qed.

Lemma named_other_In (c : column) (dominant : pytype) (name : string)
    (i : nat) :
  In i (map fst (filter (named_other dominant name) (Backend.type_series c)))
  <->
  exists t, typed_cell c i t /\ t <> dominant /\ type_name t = name.
Proof.
  rewrite in_map_iff. split.
  - intros [[j t] [Heq Hin]]. simpl in Heq. subst j.
    apply filter_In in Hin. destruct Hin as [Hin Hsel].
    unfold named_other in Hsel. simpl in Hsel.
    apply andb_true_iff in Hsel. destruct Hsel as [Hne Hname].
    exists t. repeat split.
    + apply type_series_In. exact Hin.
    + apply pytype_eqb_neq. destruct (pytype_eqb t dominant);
        [discriminate|reflexivity].
    + apply String.eqb_eq in Hname. symmetry. exact Hname.
  - intros [t [Hcell [Hne Hname]]]. exists (i, t). split; [reflexivity|].
    apply filter_In. split; [apply type_series_In; exact Hcell|].
    unfold named_other. simpl. apply andb_true_iff. split.
    + apply pytype_eqb_neq in Hne. rewrite Hne. reflexivity.
    + apply String.eqb_eq. symmetry. exact Hname.
Qed.

(** *** The profile of a column *)

Lemma mixed_types_tally (c : column) :
  mixed_types c <->
  2 <= List.length (tally (map snd (Backend.type_series c))).
Proof.
  rewrite tally_two_types. unfold mixed_types. split.
  - intros [i [j [a [b [Ha [Hb Hne]]]]]]. exists a, b. repeat split.
    + apply type_series_In_types. exists i. exact Ha.
    + apply type_series_In_types. exists j. exact Hb.
    + exact Hne.
  - intros [a [b [Ha [Hb Hne]]]].
    apply type_series_In_types in Ha, Hb.
    destruct Ha as [i Ha]. destruct Hb as [j Hb].
    exists i, j, a, b. repeat split; assumption.
Qed.

Lemma profile_column_spec (c : column) :
  match Backend.profile_column c with
  | None => ~ mixed_types c
  | Some p => mixed_types c /\ exists d, profile_of c p d
  end.
Proof.
  unfold Backend.profile_column.
  set (ts := map snd (Backend.type_series c)).
  destruct (Nat.eqb (mask_sum (map (fun v => negb (isna v)) (col_cells c))) 0)
    eqn:Hzero.
  { apply Nat.eqb_eq in Hzero. intros [i [_ [a [_ [Ha _]]]]].
    apply type_series_In in Ha. apply (in_map fst) in Ha.
    rewrite type_series_indices in Ha. simpl in Ha.
    pose proof (mask_sum_nonzero (map (fun v => negb (isna v)) (col_cells c)))
      as Hlen.
    destruct (nonzero (map (fun v => negb (isna v)) (col_cells c)));
      [destruct Ha|simpl in Hlen; lia]. }
  pose proof (sort_desc_head (tally ts)) as Hhead.
  pose proof (sort_desc_length (tally ts)) as Hlen.
  unfold value_counts.
  destruct (sort_desc (tally ts)) as [|[d nd] [|y rest]] eqn:Hsort.
  - rewrite mixed_types_tally. fold ts. simpl in Hlen. lia.
  - rewrite mixed_types_tally. fold ts. simpl in Hlen. lia.
  - split; [apply mixed_types_tally; fold ts; simpl in Hlen; lia|].
    exists d. simpl in Hhead. symmetry in Hhead.
    destruct (first_max_spec _ Hhead) as [Hmax [l1 [l2 [Hl Hbefore]]]].
    assert (Hd : In (d, nd) (tally ts))
      by (rewrite Hl; apply in_or_app; right; left; reflexivity).
    assert (Hnd : nd = type_count d c).
    { rewrite <- type_series_count. apply tally_In_count. exact Hd. }
    assert (Hin_tally : forall t, 0 < type_count t c ->
                                  In (t, type_count t c) (tally ts)).
    { intros t Ht. rewrite <- type_series_count in *. fold ts in Ht |- *.
      apply count_type_pos, tally_keys_In, in_map_iff in Ht.
      destruct Ht as [[t' n] [Heq Hin]]. simpl in Heq. subst t'.
      rewrite <- (tally_In_count _ _ _ Hin). exact Hin. }
    unfold profile_of. simpl. repeat split.
    + pose proof (tally_positive ts) as Hpos. rewrite Forall_forall in Hpos.
      specialize (Hpos _ Hd). simpl in Hpos. lia.
    + intros t. destruct (type_count t c) as [|n] eqn:Hn; [lia|].
      rewrite <- Hn, <- Hnd.
      apply (Hmax (t, type_count t c)). apply Hin_tally. lia.
    + intros t Hne Heq.
      assert (Ht : In (t, nd) (tally ts)).
      { rewrite Hnd, <- Heq. apply Hin_tally. rewrite Heq, <- Hnd.
        pose proof (tally_positive ts) as Hpos. rewrite Forall_forall in Hpos.
        apply (Hpos _ Hd). }
      rewrite Hl in Ht. apply in_app_or in Ht.
      destruct Ht as [Ht|[Ht|Ht]].
      * specialize (Hbefore _ Ht). simpl in Hbefore. lia.
      * injection Ht as ->. contradiction.
      * assert (Hkeys : map fst (tally ts) = map fst l1 ++ d :: map fst l2)
          by (rewrite Hl, map_app; reflexivity).
        apply (in_map fst) in Ht. simpl in Ht.
        destruct (tally_keys_order ts _ _ _ _ Hkeys Ht)
          as [pre [post [Hsplit [Ha Hb]]]].
        exact (@type_series_prefix c pre post d t Hsplit Ha Hb).
    + intros name.
      change (fold_left _ (Backend.type_series c) [])
        with (fold_left (mixed_step d) (Backend.type_series c) []).
      rewrite mixed_fold_get. simpl.
      pose proof (named_other_In c d name) as Hin.
      destruct (map fst (filter (named_other d name) (Backend.type_series c)))
        as [|i0 l0].
      * intros i t Hcell Hne Hname.
        apply (proj2 (Hin i)). exists t. repeat split; assumption.
      * split; [discriminate|exact Hin].
Qed.

Lemma detect_data_type_mismatches_get (df : DataFrame) :
  forall acc,
    NoDup (columns df) ->
    (forall name, ~ In name (columns df) ->
       dict_get
         (fold_left
            (fun mismatches c =>
               match Backend.profile_column c with
               | Some p => dict_set mismatches (col_name c) p
               | None => mismatches
               end) df acc) name = dict_get acc name)
    /\ (forall c, In c df ->
          dict_get
            (fold_left
               (fun mismatches c =>
                  match Backend.profile_column c with
                  | Some p => dict_set mismatches (col_name c) p
                  | None => mismatches
                  end) df acc) (col_name c) =
          match Backend.profile_column c with
          | Some p => Some p
          | None => dict_get acc (col_name c)
          end).
Proof.
  induction df as [|c0 df IH]; intros acc Hnd; simpl.
  - split; [reflexivity|intros c []].
  - inversion Hnd as [|? ? Hnotin Hnd']. subst.
    destruct (IH (match Backend.profile_column c0 with
                  | Some p => dict_set acc (col_name c0) p
                  | None => acc
                  end) Hnd') as [Hout Hin].
    assert (Hother : forall name, name <> col_name c0 ->
              dict_get (match Backend.profile_column c0 with
                        | Some p => dict_set acc (col_name c0) p
                        | None => acc
                        end) name = dict_get acc name).
    { intros name Hne. destruct (Backend.profile_column c0); [|reflexivity].
      apply dict_get_set_other. congruence. }
    split.
    + intros name Hname. rewrite Hout by tauto. apply Hother.
      intros ->. apply Hname. left. reflexivity.
    + intros c [<-|Hc].
      * rewrite (Hout _ Hnotin).
        destruct (Backend.profile_column c0); [|reflexivity].
        apply dict_get_set_same.
      * rewrite (Hin c Hc).
        destruct (Backend.profile_column c); [reflexivity|].
        apply Hother. intros Heq. apply Hnotin. rewrite <- Heq.
        apply in_map. exact Hc.
Qed.

(** C6. For a column of the frame, [detect_data_type_mismatches] has an
    entry exactly when two of its cells that are not missing differ in
    type.  In the entry, [dominant_type] names a type with the largest
    count among these cells, and of the types with that count the one
    that occurs first; [mixed_indices] holds, under the name of every
    other type that occurs, the rows of the cells of that name, and
    nothing else. *)
Theorem detect_data_type_mismatches_profile (df : DataFrame) (c : column) :
  NoDup (columns df) ->
  In c df ->
  let report := Backend.detect_data_type_mismatches df in
  (dict_mem report (col_name c) = true <-> mixed_types c)
  /\ (forall p, dict_get report (col_name c) = Some p ->
                exists d, profile_of c p d).
Proof.
  intros Hnd Hc report.
  assert (Hget : dict_get report (col_name c) = Backend.profile_column c).
  { subst report. unfold Backend.detect_data_type_mismatches.
    rewrite (proj2 (detect_data_type_mismatches_get df [] Hnd) c Hc).
    destruct (Backend.profile_column c); reflexivity. }
  pose proof (profile_column_spec c) as Hspec.
  unfold dict_mem. rewrite Hget.
  destruct (Backend.profile_column c) as [p|].
  - destruct Hspec as [Hmixed Hprof]. split.
    + split; [intros _; exact Hmixed|reflexivity].
    + intros p' Hp'. injection Hp' as <-. exact Hprof.
  - split.
    + split; [discriminate|]. intros H. contradiction.
    + intros p Hp. discriminate.
Qed.

Lemma detect_data_type_mismatches_profile_witness :
  dict_mem (Backend.detect_data_type_mismatches [salary_column]) "Salary" = true
  <-> mixed_types salary_column.
Proof.
  apply (detect_data_type_mismatches_profile [salary_column] salary_column).
  - simpl. constructor; [intros []|constructor].
  - left. reflexivity.
Defined.

(** ** What the normaliser returns *)

Lemma clean_for_json_result_safe (v : pyval) :
  fits_double v = true ->
  forall r, Backend.clean_for_json v = Ret r -> json_safe r = true.
Proof.
  induction v using pyval_induction; intros Hfit r Hr;
    try (simpl in Hr; injection Hr as <-; reflexivity).
  - destruct x as [s| s| |s m e]; try destruct s; simpl in Hr;
      injection Hr as <-; reflexivity.
  - rewrite clean_for_json_list in Hr.
    destruct (mapM Backend.clean_for_json l) as [ys|] eqn:E; [|discriminate].
    simpl in Hr. injection Hr as <-. simpl.
    apply mapM_Forall2 in E. apply forallb_forall.
    simpl in Hfit. rewrite forallb_forall in Hfit. rewrite Forall_forall in H.
    clear -E H Hfit.
    induction E as [|x y l ys Hxy _ IH]; intros z Hz; [destruct Hz|].
    destruct Hz as [<-|Hz].
    + apply (H x (or_introl eq_refl) (Hfit x (or_introl eq_refl)) y Hxy).
    + apply IH; [| |exact Hz]; intros w Hw; [apply H|apply Hfit]; right; exact Hw.
  - rewrite clean_for_json_dict in Hr.
    destruct (mapM clean_item d) as [ys|] eqn:E; [|discriminate].
    simpl in Hr. injection Hr as <-. simpl.
    apply mapM_Forall2 in E. apply forallb_forall.
    simpl in Hfit. rewrite forallb_forall in Hfit. rewrite Forall_forall in H.
    clear -E H Hfit.
    induction E as [|[k w] [k' w'] d ys Hxy _ IH]; intros z Hz; [destruct Hz|].
    destruct Hz as [<-|Hz].
    + unfold clean_item in Hxy. simpl in Hxy.
      destruct (Backend.clean_for_json w) as [w1|] eqn:Ew; [|discriminate].
      simpl in Hxy. injection Hxy as <- <-. simpl.
      apply (H (k, w) (or_introl eq_refl) (Hfit (k, w) (or_introl eq_refl)) w1 Ew).
    + apply IH; [| |exact Hz]; intros u Hu; [apply H|apply Hfit]; right; exact Hu.
  - simpl in Hfit. unfold overflows in Hfit.
    destruct x as [s| s| |s m e]; try destruct s; simpl in Hr;
      try (injection Hr as <-; reflexivity);
      injection Hr as <-; simpl in Hfit |- *;
      apply negb_true_iff, negb_false_iff in Hfit; exact Hfit.
  - simpl in Hr, Hfit. apply IHv; assumption.
Qed.

Lemma clean_for_json_safe_unchanged (v : pyval) :
  json_safe v = true -> Backend.clean_for_json v = Ret v.
Proof.
  induction v using pyval_induction; intros Hs; try discriminate;
    try reflexivity.
  - destruct x as [s| s| |s m e]; try discriminate; reflexivity.
  - rewrite clean_for_json_list. simpl in Hs.
    assert (Hl : mapM Backend.clean_for_json l = Ret l).
    { apply Forall2_mapM. induction H as [|x l Hx _ IH]; [constructor|].
      simpl in Hs. apply andb_true_iff in Hs. destruct Hs as [Hsx Hsl].
      constructor; [apply Hx; exact Hsx|apply IH; exact Hsl]. }
    rewrite Hl. reflexivity.
  - rewrite clean_for_json_dict. simpl in Hs.
    assert (Hd : mapM clean_item d = Ret d).
    { apply Forall2_mapM. induction H as [|[k w] d Hx _ IH]; [constructor|].
      simpl in Hs. apply andb_true_iff in Hs. destruct Hs as [Hsx Hsl].
      constructor; [|apply IH; exact Hsl].
      unfold clean_item. simpl in *. rewrite (Hx Hsx). reflexivity. }
    rewrite Hd. reflexivity.
Qed.


(** X3. When the stack has room for the calls that the value needs and
    no numpy floating scalar of the value lies beyond the range of a
    double, [clean_for_json] returns, and its result holds only [None],
    bools, ints, strings, finite floats, lists and dicts: no NaN, no
    infinity, no numpy integer, no numpy floating scalar of another
    type than [float], no array and no object of another type is left
    at any depth.  (A [numpy.float64] is a [float]: when it is finite
    it is returned as it is.) *)
Theorem clean_for_json_json_safe (frames : nat) (obj : pyval) :
  fits_double obj = true ->
  calls obj <= frames ->
  exists r, Backend.clean_for_json_run frames obj = Ret r /\
            json_safe r = true.
Proof.
  intros Hfit Hcalls. destruct (clean_for_json_returns obj) as [r Hr].
  exists r. split; [rewrite clean_for_json_run_enough; assumption|].
  apply (clean_for_json_result_safe obj Hfit Hr).
Qed.

Lemma clean_for_json_json_safe_witness :
  exists r,
    Backend.clean_for_json_run 4
      (PDict [("score"%string, PNdarray (PList [PNpFloating PyFloat.inf]))]) =
      Ret r /\
    json_safe r = true.
Proof.
  apply (@clean_for_json_json_safe 4
           (PDict [("score"%string,
                    PNdarray (PList [PNpFloating PyFloat.inf]))])).
  - reflexivity.
  - vm_compute. lia.
Defined.


Lemma mapM_clean_item_keys (d : list (string * pyval)) :
  forall d', mapM clean_item d = Ret d' -> map fst d' = map fst d.
Proof.
  induction d as [|[k w] d IH]; simpl; intros d' H.
  - injection H as <-. reflexivity.
  - unfold clean_item at 1 in H. simpl in H.
    destruct (Backend.clean_for_json w) as [w1|]; [|discriminate].
    simpl in H. destruct (mapM clean_item d) as [zs|]; [|discriminate].
    injection H as <-. simpl. rewrite (IH zs); reflexivity.
Qed.


(** X6. [CustomJSONEncoder.default] answers as [clean_for_json] does on
    a Python float that is NaN or an infinity, and raises the
    [TypeError] of [json.JSONEncoder.default] on every other value: a
    finite float, a numpy floating scalar that is NaN, a list. *)
Theorem CustomJSONEncoder_default_nonfinite (class_name : pyval -> string) :
  (forall x, PyFloat.isnan x || PyFloat.isinf x = true ->
             Backend.CustomJSONEncoder_default class_name (PFloat x) =
             Backend.clean_for_json (PFloat x))
  /\ (forall obj,
         (forall x, obj = PFloat x ->
                    PyFloat.isnan x || PyFloat.isinf x = false) ->
         Backend.CustomJSONEncoder_default class_name obj =
         Raise ("Object of type " ++ class_name obj ++
                " is not JSON serializable")).
Proof.
  split.
  - intros x Hx. destruct x as [s|s| |s m e]; try discriminate;
      try destruct s; reflexivity.
  - intros obj Hobj. destruct obj; try reflexivity.
    specialize (Hobj x eq_refl).
    destruct x as [s|s| |s m e]; try discriminate; reflexivity.
Qed.

Lemma CustomJSONEncoder_default_nonfinite_witness :
  Backend.CustomJSONEncoder_default (fun _ => "float32"%string)
    (PNpFloating S754_nan) =
  Raise "Object of type float32 is not JSON serializable".
Proof.
  apply (proj2 (CustomJSONEncoder_default_nonfinite (fun _ => "float32"%string))).
  intros x Hx. discriminate.
Defined.

(** ** Duplicates: copies appended to distinct rows *)

Lemma ascending_interval (k : nat) :
  forall (l : list nat) (a : nat),
    StronglySorted lt l ->
    (forall i, In i l <-> a <= i < a + k) ->
    l = seq a k.
Proof.
  induction k as [|k IH]; intros l a Hs Hin.
  - destruct l as [|x t]; [reflexivity|].
    exfalso. assert (H : a <= x < a + 0) by (apply Hin; left; reflexivity). lia.
  - destruct l as [|x t].
    + exfalso. apply (proj2 (Hin a)). lia.
    + inversion Hs as [|? ? Hs' Hall]. subst. rewrite Forall_forall in Hall.
      assert (Hx : x = a).
      { assert (Hxa : a <= x < a + S k) by (apply Hin; left; reflexivity).
        assert (Ha : In a (x :: t)) by (apply Hin; lia).
        destruct Ha as [Ha|Ha]; [exact Ha|]. specialize (Hall a Ha). lia. }
      subst x. simpl. f_equal. apply IH; [exact Hs'|].
      intros i. split.
      * intros Hi. specialize (Hall i Hi).
        assert (a <= i < a + S k) by (apply Hin; right; exact Hi). lia.
      * intros Hi. assert (Hi' : In i (a :: t)) by (apply Hin; lia).
        destruct Hi' as [Hi'|Hi']; [lia|exact Hi'].
Qed.

Lemma ascending_NoDup (l : list nat) : StronglySorted lt l -> NoDup l.
Proof.
  induction 1 as [|x l _ IH Hall]; constructor; [|exact IH].
  intros Hin. rewrite Forall_forall in Hall. specialize (Hall x Hin). lia.
Qed.

Lemma dq_detect_duplicates_count (other_eq : cell -> cell -> bool)
    (df : DataFrame) :
  Dq.detect_duplicates other_eq df =
  Backend.dup_count (Backend.detect_duplicates other_eq df).
Proof. reflexivity. Qed.

(** X7. When the first [n] rows of a frame differ from one another and
    every later row has the values of one of them, [detect_duplicates]
    reports the later rows and only them: [count] is the number of rows
    after the first [n], [indices] are their positions.  [dq.py] returns
    the same count. *)
Theorem detect_duplicates_appended_copies (other_eq : cell -> cell -> bool)
    (df : DataFrame) (n : nat) :
  n <= nrows df ->
  (forall i j, j < i -> i < n -> ~ identical_rows other_eq df i j) ->
  (forall i, n <= i -> i < nrows df ->
     exists j, j < n /\ identical_rows other_eq df i j) ->
  Backend.detect_duplicates other_eq df =
    Backend.DuplicatesReport (nrows df - n) (seq n (nrows df - n))
  /\ Dq.detect_duplicates other_eq df = nrows df - n.
Proof.
  intros Hn Hbase Hcopies.
  assert (Hidx : Backend.dup_indices (Backend.detect_duplicates other_eq df) =
                 seq n (nrows df - n)).
  { apply ascending_interval.
    - rewrite detect_duplicates_indices. apply nonzero_ascending.
    - intros i. rewrite detect_duplicates_flags. split.
      + intros [Hi [j [Hj Hsame]]]. split; [|lia].
        destruct (Nat.lt_ge_cases i n) as [Hlt|Hge]; [|exact Hge].
        destruct (Hbase i j Hj Hlt Hsame).
      + intros [Hge Hlt]. split; [lia|].
        destruct (Hcopies i Hge ltac:(lia)) as [j [Hj Hsame]].
        exists j. split; [lia|exact Hsame]. }
  assert (Hcount := detect_duplicates_count other_eq df).
  rewrite Hidx, length_seq in Hcount.
  split.
  - destruct (Backend.detect_duplicates other_eq df) as [count indices].
    simpl in *. subst. reflexivity.
  - rewrite dq_detect_duplicates_count. exact Hcount.
Qed.

Lemma detect_duplicates_appended_copies_witness :
  Backend.detect_duplicates (fun _ _ => false) two_markers =
    Backend.DuplicatesReport 2 [2; 3]
  /\ Dq.detect_duplicates (fun _ _ => false) two_markers = 2.
Proof.
  apply (@detect_duplicates_appended_copies (fun _ _ => false) two_markers 2).
  - simpl. lia.
  - intros i j Hj Hi. unfold identical_rows. rewrite <- row_same_spec.
    destruct i as [|[|i]]; try lia;
      destruct j as [|j]; try lia. vm_compute. discriminate.
  - intros i Hge Hlt. simpl in Hlt.
    destruct i as [|[|[|[|i]]]]; try lia.
    + exists 0. split; [lia|]. unfold identical_rows.
      apply row_same_spec. reflexivity.
    + exists 1. split; [lia|]. unfold identical_rows.
      apply row_same_spec. reflexivity.
Defined.

(** X8. [detect_duplicates] never flags the first row; every index it
    reports is a row of the frame after the first, so a frame with rows
    has fewer duplicates than rows, and a frame of at most one row has
    none. *)
Theorem detect_duplicates_bounds (other_eq : cell -> cell -> bool)
    (df : DataFrame) :
  let r := Backend.detect_duplicates other_eq df in
  (forall i, In i (Backend.dup_indices r) -> 0 < i < nrows df)
  /\ Backend.dup_count r <= nrows df - 1
  /\ (nrows df <= 1 -> r = Backend.DuplicatesReport 0 []).
Proof.
  intros r.
  assert (Hin : forall i, In i (Backend.dup_indices r) -> 0 < i < nrows df).
  { intros i Hi. apply detect_duplicates_flags in Hi.
    destruct Hi as [Hlt [j [Hj _]]]. lia. }
  assert (Hcount := detect_duplicates_count other_eq df). fold r in Hcount.
  assert (Hle : Backend.dup_count r <= nrows df - 1).
  { rewrite Hcount.
    apply Nat.le_trans with (List.length (seq 1 (nrows df - 1)));
      [|rewrite length_seq; lia].
    apply NoDup_incl_length.
    - apply ascending_NoDup. subst r. rewrite detect_duplicates_indices.
      apply nonzero_ascending.
    - intros i Hi. apply in_seq. specialize (Hin i Hi). lia. }
  refine (conj Hin (conj Hle _)).
  intros Hsmall.
  assert (H0 : Backend.dup_count r = 0) by lia.
  destruct r as [count indices]. simpl in *. subst count.
  destruct indices; [reflexivity|discriminate].
Qed.

(** ** The report of the type mismatches *)

Lemma mixed_typesb_spec (c : column) :
  mixed_typesb c = true <-> mixed_types c.
Proof.
  assert (Hmixed : mixed_types c <->
            exists a b, In a (map snd (Backend.type_series c)) /\
                        In b (map snd (Backend.type_series c)) /\ a <> b).
  { rewrite mixed_types_tally. apply tally_two_types. }
  rewrite Hmixed, type_series_types. unfold mixed_typesb.
  destruct (map type_of (filter (fun v => negb (isna v)) (col_cells c)))
    as [|t rest].
  - split; [discriminate|]. intros [a [_ [[] _]]].
  - rewrite existsb_exists. split.
    + intros [u [Hu Hne]]. exists u, t. repeat split.
      * right. exact Hu.
      * left. reflexivity.
      * apply pytype_eqb_neq. destruct (pytype_eqb u t);
          [discriminate|reflexivity].
    + intros [a [b [Ha [Hb Hne]]]].
      destruct (pytype_eqb a t) eqn:Eat.
      * apply pytype_eqb_eq in Eat. subst a.
        destruct Hb as [Hb|Hb]; [congruence|].
        exists b. split; [exact Hb|].
        assert (pytype_eqb b t = false) as ->
          by (apply pytype_eqb_neq; congruence). reflexivity.
      * destruct Ha as [Ha|Ha];
          [subst a; rewrite pytype_eqb_refl in Eat; discriminate|].
        exists a. split; [exact Ha|]. rewrite Eat. reflexivity.
Qed.

Lemma dict_set_fresh (V : Type) (d : dict V) (k : string) (v : V) :
  ~ In k (dict_keys d) -> dict_set d k v = d ++ [(k, v)].
Proof.
  induction d as [|[k0 v0] d IH]; simpl; intros H; [reflexivity|].
  destruct (String.eqb k k0) eqn:E.
  - apply String.eqb_eq in E. subst. exfalso. apply H. left. reflexivity.
  - rewrite IH; [reflexivity|]. intros Hin. apply H. right. exact Hin.
Qed.

Lemma detect_data_type_mismatches_fold (df : DataFrame) :
  forall acc,
    NoDup (columns df) ->
    (forall name, In name (columns df) -> ~ In name (dict_keys acc)) ->
    fold_left
      (fun mismatches c =>
         match Backend.profile_column c with
         | Some p => dict_set mismatches (col_name c) p
         | None => mismatches
         end) df acc
    = acc ++ flat_map profile_entry df.
Proof.
  induction df as [|c df IH]; intros acc Hnd Hfresh; simpl.
  - rewrite app_nil_r. reflexivity.
  - inversion Hnd as [|? ? Hnotin Hnd']. subst.
    assert (Hstep : match Backend.profile_column c with
                    | Some p => dict_set acc (col_name c) p
                    | None => acc
                    end = acc ++ profile_entry c).
    { unfold profile_entry. destruct (Backend.profile_column c).
      - apply dict_set_fresh. apply Hfresh. left. reflexivity.
      - rewrite app_nil_r. reflexivity. }
    rewrite Hstep, IH, <- app_assoc; [reflexivity|exact Hnd'|].
    intros name Hname Hin. unfold dict_keys in Hin.
    rewrite map_app in Hin. apply in_app_or in Hin. destruct Hin as [Hin|Hin].
    + apply (Hfresh name); [right; exact Hname|exact Hin].
    + unfold profile_entry in Hin. destruct (Backend.profile_column c);
        [|destruct Hin].
      destruct Hin as [Hin|[]]. simpl in Hin. subst name. contradiction.
Qed.

Lemma detect_data_type_mismatches_entries (df : DataFrame) :
  NoDup (columns df) ->
  Backend.detect_data_type_mismatches df = flat_map profile_entry df.
Proof.
  intros Hnd. unfold Backend.detect_data_type_mismatches.
  rewrite detect_data_type_mismatches_fold; [reflexivity|exact Hnd|].
  intros name _ [].
Qed.

Lemma profile_entry_mixed (c : column) :
  match Backend.profile_column c with
  | Some _ => mixed_typesb c = true
  | None => mixed_typesb c = false
  end.
Proof.
  pose proof (profile_column_spec c) as H.
  destruct (Backend.profile_column c).
  - apply mixed_typesb_spec. tauto.
  - destruct (mixed_typesb c) eqn:E; [|reflexivity].
    apply mixed_typesb_spec in E. contradiction.
Qed.

Lemma profile_entries_keys (df : DataFrame) :
  map fst (flat_map profile_entry df) = map col_name (filter mixed_typesb df).
Proof.
  induction df as [|c df IH]; simpl; [reflexivity|].
  rewrite map_app, IH. unfold profile_entry.
  pose proof (profile_entry_mixed c) as H.
  destruct (Backend.profile_column c); rewrite H; reflexivity.
Qed.

(** X9. The report of [detect_data_type_mismatches] has one entry for
    every column with cells of two types, under the name of the column
    and in the order of the columns, and no other key. *)
Theorem detect_data_type_mismatches_keys (df : DataFrame) :
  NoDup (columns df) ->
  dict_keys (Backend.detect_data_type_mismatches df) =
    map col_name (filter mixed_typesb df)
  /\ (forall c, mixed_typesb c = true <-> mixed_types c).
Proof.
  intros Hnd. split; [|exact mixed_typesb_spec].
  rewrite (@detect_data_type_mismatches_entries df Hnd).
  apply profile_entries_keys.
Qed.

Lemma detect_data_type_mismatches_keys_witness :
  dict_keys (Backend.detect_data_type_mismatches salary_and_age) =
    ["Salary"; "Flag"]%string.
Proof.
  apply (proj1 (@detect_data_type_mismatches_keys salary_and_age
                  ltac:(simpl; repeat constructor; simpl; intuition discriminate))).
Defined.

Lemma profile_entries_get (df : DataFrame) (c : column) (p : Backend.type_profile) :
  NoDup (columns df) -> In c df -> Backend.profile_column c = Some p ->
  dict_get (flat_map profile_entry df) (col_name c) = Some p.
Proof.
  intros Hnd Hc Hp.
  rewrite <- (@detect_data_type_mismatches_entries df Hnd).
  unfold Backend.detect_data_type_mismatches.
  rewrite (proj2 (detect_data_type_mismatches_get df [] Hnd) c Hc), Hp.
  reflexivity.
Qed.

(** X10. [format_data_type_mismatches] applied to the report of
    [detect_data_type_mismatches] answers ["None"] exactly when no
    column has cells of two types, and otherwise one line for every
    such column, in column order: the name of the column, [": Mixed
    types ["], the types of its entry with their counts, ["]"].  The
    text of [dq.py] is these lines, each after ["  - "], joined by
    newlines. *)
Theorem format_data_type_mismatches_lines (df : DataFrame) :
  NoDup (columns df) ->
  let report := Backend.detect_data_type_mismatches df in
  (Backend.format_data_type_mismatches report = NoneStr <->
   forall c, In c df -> ~ mixed_types c)
  /\ (forall lines,
         Backend.format_data_type_mismatches report = Found lines ->
         Forall2 (summary_line report) (filter mixed_typesb df) lines)
  /\ Dq.format_data_type_mismatches (Dq.detect_data_type_mismatches df) =
     match Backend.format_data_type_mismatches report with
     | NoneStr => "None"%string
     | Found lines =>
         String.concat (String "010" EmptyString)
                       (map (fun line => ("  - " ++ line)%string) lines)
     end.
Proof.
  intros Hnd report.
  assert (Hrep : report = flat_map profile_entry df)
    by (apply detect_data_type_mismatches_entries; exact Hnd).
  assert (Hkeys : map fst report = map col_name (filter mixed_typesb df))
    by (rewrite Hrep; apply profile_entries_keys).
  refine (conj _ (conj _ _)).
  - split.
    + intros Hnone c Hc Hmixed.
      assert (Hempty : report = []).
      { unfold Backend.format_data_type_mismatches in Hnone.
        destruct report; [reflexivity|discriminate]. }
      rewrite Hempty in Hkeys. simpl in Hkeys.
      apply mixed_typesb_spec in Hmixed.
      assert (Hin : In c (filter mixed_typesb df))
        by (apply filter_In; split; assumption).
      destruct (filter mixed_typesb df); [destruct Hin|discriminate].
    + intros Hclean.
      assert (Hfilter : filter mixed_typesb df = []).
      { apply filter_nil_iff. intros c Hc.
        destruct (mixed_typesb c) eqn:E; [|reflexivity].
        apply mixed_typesb_spec in E. exfalso. exact (Hclean c Hc E). }
      rewrite Hfilter in Hkeys. simpl in Hkeys.
      destruct report; [reflexivity|discriminate].
  - intros lines Hlines.
    assert (Hall : lines = map (fun ci => Backend.mismatch_line (fst ci) (snd ci))
                               report).
    { unfold Backend.format_data_type_mismatches in Hlines.
      destruct report; [discriminate|]. injection Hlines as <-. reflexivity. }
    subst lines. rewrite Hrep at 2.
    assert (Hsub : forall c, In c df -> In c df) by auto.
    revert Hsub. generalize df at 1 3 4.
    intros cols. induction cols as [|c cols IH]; intros Hsub; simpl;
      [constructor|].
    pose proof (profile_entry_mixed c) as Hmix.
    unfold profile_entry at 1.
    destruct (Backend.profile_column c) as [p|] eqn:Hp; rewrite Hmix; simpl.
    + constructor; [|apply IH; intros c' Hc'; apply Hsub; right; exact Hc'].
      exists p. split; [|reflexivity].
      rewrite Hrep. apply profile_entries_get;
        [exact Hnd|apply Hsub; left; reflexivity|exact Hp].
    + apply IH. intros c' Hc'. apply Hsub. right. exact Hc'.
  - unfold Dq.format_data_type_mismatches, Dq.detect_data_type_mismatches,
      Backend.format_data_type_mismatches.
    fold report. destruct report; [reflexivity|].
    rewrite map_map. reflexivity.
Qed.

Lemma format_data_type_mismatches_lines_witness :
  Backend.format_data_type_mismatches
    (Backend.detect_data_type_mismatches salary_and_age) = NoneStr
  <-> forall c, In c salary_and_age -> ~ mixed_types c.
Proof.
  apply (proj1 (@format_data_type_mismatches_lines salary_and_age
                  ltac:(simpl; repeat constructor; simpl; intuition discriminate))).
Defined.

(** *** The counts and the indices of a profile *)

Lemma profile_column_unfold (c : column) (p : Backend.type_profile) :
  Backend.profile_column c = Some p ->
  exists d nd rest,
    value_counts (map snd (Backend.type_series c)) = (d, nd) :: rest /\
    p = Backend.TypeProfile (type_name d)
          (fold_left (fun acc tc => dict_set acc (type_name (fst tc)) (snd tc))
                     ((d, nd) :: rest) [])
          (fold_left (mixed_step d) (Backend.type_series c) []).
Proof.
  unfold Backend.profile_column. intros H.
  destruct (Nat.eqb _ 0); [discriminate|].
  destruct (value_counts (map snd (Backend.type_series c)))
    as [|[d nd] [|y rest]]; try discriminate.
  injection H as <-. exists d, nd, (y :: rest). split; reflexivity.
Qed.

Lemma insert_desc_perm (x : pytype * nat) (l : list (pytype * nat)) :
  Permutation (insert_desc x l) (x :: l).
Proof.
  induction l as [|y l IH]; simpl; [apply Permutation_refl|].
  destruct (Nat.leb (snd y) (snd x)); [apply Permutation_refl|].
  apply perm_trans with (y :: x :: l); [apply perm_skip; exact IH|apply perm_swap].
Qed.

Lemma sort_desc_perm (l : list (pytype * nat)) : Permutation (sort_desc l) l.
Proof.
  induction l as [|x l IH]; [apply Permutation_refl|].
  change (sort_desc (x :: l)) with (insert_desc x (sort_desc l)).
  apply perm_trans with (x :: sort_desc l);
    [apply insert_desc_perm|apply perm_skip; exact IH].
Qed.

Lemma insert_desc_sorted (x : pytype * nat) (l : list (pytype * nat)) :
  StronglySorted (fun a b => snd b <= snd a) l ->
  StronglySorted (fun a b => snd b <= snd a) (insert_desc x l).
Proof.
  induction 1 as [|y l Hs IH Hall]; simpl.
  - repeat constructor.
  - destruct (Nat.leb (snd y) (snd x)) eqn:E.
    + apply Nat.leb_le in E. constructor; [constructor; assumption|].
      constructor; [exact E|].
      eapply Forall_impl; [|exact Hall]. simpl. intros z Hz. lia.
    + apply Nat.leb_gt in E. constructor; [exact IH|].
      apply (Permutation_Forall (Permutation_sym (insert_desc_perm x l))).
      constructor; [lia|exact Hall].
Qed.

Lemma sort_desc_sorted (l : list (pytype * nat)) :
  StronglySorted (fun a b => snd b <= snd a) (sort_desc l).
Proof.
  induction l as [|x l IH]; [constructor|].
  change (sort_desc (x :: l)) with (insert_desc x (sort_desc l)).
  apply insert_desc_sorted, IH.
Qed.

Lemma sorted_counts (l : list (pytype * nat)) :
  StronglySorted (fun a b => snd b <= snd a) l ->
  StronglySorted ge (map snd l).
Proof.
  induction 1 as [|x l Hs IH Hall]; simpl; constructor; [exact IH|].
  rewrite Forall_forall in *. intros n Hn.
  apply in_map_iff in Hn. destruct Hn as [y [<- Hy]]. apply Hall, Hy.
Qed.

Lemma tally_add_sum (t : pytype) (acc : list (pytype * nat)) :
  list_sum (map snd (tally_add t acc)) = S (list_sum (map snd acc)).
Proof.
  induction acc as [|[t' n] acc IH]; simpl; [reflexivity|].
  destruct (pytype_eqb t t'); simpl; [reflexivity|]. rewrite IH. lia.
Qed.

Lemma tally_sum (ts : list pytype) :
  list_sum (map snd (tally ts)) = List.length ts.
Proof.
  induction ts as [|t ts IH] using rev_ind; [reflexivity|].
  rewrite tally_snoc, tally_add_sum, IH, length_app. simpl. lia.
Qed.

Lemma list_sum_perm (l l' : list nat) :
  Permutation l l' -> list_sum l = list_sum l'.
Proof. induction 1; simpl; lia. Qed.

Lemma fold_dict_set_distinct (A V : Type) (f : A -> string) (g : A -> V)
    (l : list A) :
  forall acc,
    NoDup (map f l) ->
    (forall x, In x l -> ~ In (f x) (dict_keys acc)) ->
    fold_left (fun acc x => dict_set acc (f x) (g x)) l acc =
    acc ++ map (fun x => (f x, g x)) l.
Proof.
  induction l as [|x l IH]; intros acc Hnd Hfresh; simpl.
  - rewrite app_nil_r. reflexivity.
  - inversion Hnd as [|? ? Hnotin Hnd']. subst.
    rewrite dict_set_fresh by (apply Hfresh; left; reflexivity).
    rewrite IH, <- app_assoc; [reflexivity|exact Hnd'|].
    intros y Hy Hin. unfold dict_keys in Hin. rewrite map_app in Hin.
    apply in_app_or in Hin. destruct Hin as [Hin|[Hin|[]]].
    + apply (Hfresh y); [right; exact Hy|exact Hin].
    + simpl in Hin. apply Hnotin. rewrite Hin. apply in_map. exact Hy.
Qed.

Lemma NoDup_map_on (A B : Type) (f : A -> B) (l : list A) :
  NoDup l ->
  (forall x y, In x l -> In y l -> f x = f y -> x = y) ->
  NoDup (map f l).
Proof.
  induction 1 as [|x l Hnotin Hnd IH]; intros Hinj; simpl; constructor.
  - intros Hin. apply in_map_iff in Hin. destruct Hin as [y [Hfy Hy]].
    apply Hnotin. rewrite (Hinj x y); [exact Hy|left; reflexivity|right; exact Hy|].
    symmetry. exact Hfy.
  - apply IH. intros a b Ha Hb. apply Hinj; right; assumption.
Qed.

Lemma dict_get_of_In (V : Type) (d : dict V) (k : string) (v : V) :
  NoDup (dict_keys d) -> In (k, v) d -> dict_get d k = Some v.
Proof.
  induction d as [|[k0 v0] d IH]; simpl; intros Hnd Hin; [destruct Hin|].
  inversion Hnd as [|? ? Hnotin Hnd']. subst.
  destruct Hin as [Heq|Hin].
  - injection Heq as -> ->. rewrite String.eqb_refl. reflexivity.
  - destruct (String.eqb k k0) eqn:E.
    + apply String.eqb_eq in E. subst k0. exfalso. apply Hnotin.
      apply (in_map fst) in Hin. exact Hin.
    + apply IH; assumption.
Qed.

Lemma ascending_filter (A : Type) (f : nat * A -> bool) (l : list (nat * A)) :
  StronglySorted lt (map fst l) -> StronglySorted lt (map fst (filter f l)).
Proof.
  induction l as [|x l IH]; simpl; intros Hs; [constructor|].
  inversion Hs as [|? ? Hs' Hall]. subst.
  destruct (f x); simpl; [|apply IH; exact Hs'].
  constructor; [apply IH; exact Hs'|].
  rewrite Forall_forall in *. intros i Hi. apply Hall.
  apply in_map_iff in Hi. destruct Hi as [y [<- Hy]].
  apply filter_In in Hy. apply in_map. tauto.
Qed.

(** X11. In an entry of [detect_data_type_mismatches] for a column whose
    types have names of their own, [type_counts] gives every type that
    occurs the number of its cells; the counts are in non-increasing
    order, start with the dominant type and add up to the number of
    cells that are not missing; and [mixed_indices] lists, for every
    other type, as many rows as [type_counts] counts. *)
Theorem type_profile_counts (df : DataFrame) (c : column)
    (p : Backend.type_profile) :
  NoDup (columns df) ->
  In c df ->
  dict_get (Backend.detect_data_type_mismatches df) (col_name c) = Some p ->
  distinct_type_names c ->
  (forall i t, typed_cell c i t ->
     dict_get (Backend.type_counts p) (type_name t) = Some (type_count t c))
  /\ list_sum (map snd (Backend.type_counts p)) =
     List.length (filter (fun v => negb (isna v)) (col_cells c))
  /\ StronglySorted ge (map snd (Backend.type_counts p))
  /\ (exists n rest,
         Backend.type_counts p = (Backend.dominant_type p, n) :: rest)
  /\ (forall i t, typed_cell c i t ->
        type_name t <> Backend.dominant_type p ->
        exists l, dict_get (Backend.mixed_indices p) (type_name t) = Some l /\
                  List.length l = type_count t c).
Proof.
  intros Hnd Hc Hget Hnames.
  assert (Hp : Backend.profile_column c = Some p).
  { unfold Backend.detect_data_type_mismatches in Hget.
    rewrite (proj2 (detect_data_type_mismatches_get df [] Hnd) c Hc) in Hget.
    destruct (Backend.profile_column c); [exact Hget|discriminate]. }
  destruct (profile_column_unfold c Hp) as [d [nd [rest [Hvc ->]]]].
  set (ts := map snd (Backend.type_series c)) in *.
  assert (Hperm : Permutation (value_counts ts) (tally ts))
    by apply sort_desc_perm.
  assert (Hocc : forall t, In t ts <-> exists i, typed_cell c i t)
    by (intros t; apply type_series_In_types).
  assert (Hinj : forall x y, In x (value_counts ts) -> In y (value_counts ts) ->
                             type_name (fst x) = type_name (fst y) -> x = y).
  { intros [a na] [b nb] Ha Hb Hname. simpl in Hname.
    apply (Permutation_in _ Hperm) in Ha, Hb.
    assert (Hab : a = b).
    { pose proof (in_map fst _ _ Ha) as Ha'. pose proof (in_map fst _ _ Hb) as Hb'.
      apply tally_keys_In, Hocc in Ha', Hb'.
      destruct Ha' as [i Hi]. destruct Hb' as [j Hj].
      exact (Hnames i j a b Hi Hj Hname). }
    subst b. rewrite (tally_In_count _ _ _ Ha), (tally_In_count _ _ _ Hb).
    reflexivity. }
  assert (Hnd_vc : NoDup (value_counts ts)).
  { apply (Permutation_NoDup (Permutation_sym Hperm)).
    apply (NoDup_map_inv fst). apply tally_keys_NoDup. }
  assert (Hkeys : NoDup (map (fun tc => type_name (fst tc)) (value_counts ts)))
    by (apply NoDup_map_on; assumption).
  assert (Hcounts :
            fold_left (fun acc tc => dict_set acc (type_name (fst tc)) (snd tc))
                      ((d, nd) :: rest) [] =
            map (fun tc => (type_name (fst tc), snd tc)) (value_counts ts)).
  { rewrite <- Hvc.
    rewrite (fold_dict_set_distinct (fun tc => type_name (fst tc)) snd);
      [reflexivity|exact Hkeys|intros x _ []]. }
  cbn [Backend.type_counts Backend.dominant_type Backend.mixed_indices].
  rewrite Hcounts.
  assert (Hcount_of : forall i t, typed_cell c i t ->
                                  In (t, type_count t c) (value_counts ts)).
  { intros i t Hi. apply (Permutation_in _ (Permutation_sym Hperm)).
    assert (Hin : In t (map fst (tally ts)))
      by (apply tally_keys_In, Hocc; exists i; exact Hi).
    apply in_map_iff in Hin. destruct Hin as [[t' n] [Heq Hin]].
    simpl in Heq. subst t'.
    rewrite <- type_series_count. fold ts.
    rewrite <- (tally_In_count _ _ _ Hin). exact Hin. }
  assert (Hmap : map snd (map (fun tc : pytype * nat =>
                                 (type_name (fst tc), snd tc))
                              (value_counts ts)) =
                 map snd (value_counts ts))
    by (rewrite map_map; apply map_ext; reflexivity).
  refine (conj _ (conj _ (conj _ (conj _ _)))).
  - intros i t Hi. apply dict_get_of_In.
    + unfold dict_keys. rewrite map_map. exact Hkeys.
    + apply in_map_iff. exists (t, type_count t c).
      split; [reflexivity|]. exact (Hcount_of i t Hi).
  - rewrite Hmap.
    rewrite (list_sum_perm (Permutation_map snd Hperm)), tally_sum.
    unfold ts. rewrite type_series_types, length_map. reflexivity.
  - rewrite Hmap.
    apply sorted_counts. apply sort_desc_sorted.
  - rewrite Hvc. simpl. eexists. eexists. reflexivity.
  - intros i t Hi Hne.
    assert (Htd : t <> d) by (intros ->; apply Hne; reflexivity).
    rewrite mixed_fold_get. simpl.
    assert (Hfilter :
              filter (named_other d (type_name t)) (Backend.type_series c) =
              filter (fun q => pytype_eqb t (snd q)) (Backend.type_series c)).
    { apply filter_ext_in. intros [j u] Hju. unfold named_other. simpl.
      apply type_series_In in Hju.
      destruct (pytype_eqb t u) eqn:Etu.
      - apply pytype_eqb_eq in Etu. subst u.
        apply pytype_eqb_neq in Htd. rewrite Htd, String.eqb_refl. reflexivity.
      - destruct (String.eqb (type_name t) (type_name u)) eqn:En;
          [|apply andb_false_r].
        apply String.eqb_eq in En.
        rewrite (Hnames i j t u Hi Hju En) in Etu.
        rewrite pytype_eqb_refl in Etu. discriminate. }
    assert (Hlen : List.length (map fst (filter (named_other d (type_name t))
                                           (Backend.type_series c))) =
                   type_count t c).
    { rewrite Hfilter, length_map, <- type_series_count. unfold count_type.
      rewrite <- (length_map snd). clear.
      induction (Backend.type_series c) as [|[j u] l IH]; simpl; [reflexivity|].
      destruct (pytype_eqb t u); simpl; rewrite IH; reflexivity. }
    destruct (map fst (filter (named_other d (type_name t))
                         (Backend.type_series c))) as [|i0 l0] eqn:El.
    + exfalso. simpl in Hlen.
      assert (Hpos : 0 < type_count t c).
      { rewrite <- type_series_count. apply count_type_pos, Hocc.
        exists i. exact Hi. }
      lia.
    + eexists. split; [reflexivity|exact Hlen].
Qed.

Lemma type_profile_counts_witness :
  list_sum
    (map snd
       (Backend.type_counts
          (Backend.TypeProfile "int"
             [("int"%string, 1); ("str"%string, 1); ("float"%string, 1)]
             [("str"%string, [1]); ("float"%string, [2])]))) =
  List.length
    (filter (fun v => negb (isna v))
       [CInt 100; CStr "bad"; CFloat (PyFloat.of_Z 200)]).
Proof.
  assert (Hnd : NoDup (columns salary_and_age))
    by (simpl; repeat constructor; simpl; intuition discriminate).
  assert (Hnames : distinct_type_names
                     (Column_ "Salary" [CInt 100; CStr "bad";
                                        CFloat (PyFloat.of_Z 200)])).
  { intros i j a b [v [Hv [_ Ha]]] [w [Hw [_ Hb]]] Hname. subst a b.
    destruct i as [|[|[|i]]]; simpl in Hv; try discriminate;
      try (destruct i; discriminate);
      injection Hv as <-;
      destruct j as [|[|[|j]]]; simpl in Hw; try discriminate;
      try (destruct j; discriminate);
      injection Hw as <-; simpl in *; try reflexivity; discriminate. }
  exact (proj1 (proj2 (@type_profile_counts salary_and_age
                         (Column_ "Salary" [CInt 100; CStr "bad";
                                            CFloat (PyFloat.of_Z 200)])
                         _ Hnd (or_intror (or_introl eq_refl)) eq_refl Hnames))).
Defined.

(** X12. In an entry of [detect_data_type_mismatches], every list of
    [mixed_indices] is strictly ascending and holds rows of the column,
    and no row is listed under two names. *)
Theorem mixed_indices_lists (df : DataFrame) (c : column)
    (p : Backend.type_profile) :
  NoDup (columns df) ->
  In c df ->
  dict_get (Backend.detect_data_type_mismatches df) (col_name c) = Some p ->
  (forall name l,
      dict_get (Backend.mixed_indices p) name = Some l ->
      StronglySorted lt l /\
      forall i, In i l -> i < List.length (col_cells c))
  /\ (forall name1 name2 l1 l2 i,
         dict_get (Backend.mixed_indices p) name1 = Some l1 ->
         dict_get (Backend.mixed_indices p) name2 = Some l2 ->
         In i l1 -> In i l2 -> name1 = name2).
Proof.
  intros Hnd Hc Hget.
  assert (Hp : Backend.profile_column c = Some p).
  { unfold Backend.detect_data_type_mismatches in Hget.
    rewrite (proj2 (detect_data_type_mismatches_get df [] Hnd) c Hc) in Hget.
    destruct (Backend.profile_column c); [exact Hget|discriminate]. }
  destruct (profile_column_unfold c Hp) as [d [nd [rest [_ ->]]]].
  cbn [Backend.mixed_indices].
  assert (Hlist : forall name l,
             dict_get (fold_left (mixed_step d) (Backend.type_series c) []) name
               = Some l ->
             l = map fst (filter (named_other d name) (Backend.type_series c))).
  { intros name l Hl. rewrite mixed_fold_get in Hl. simpl in Hl.
    destruct (map fst (filter (named_other d name) (Backend.type_series c)));
      [discriminate|]. injection Hl as <-. reflexivity. }
  split.
  - intros name l Hl. rewrite (Hlist name l Hl). split.
    + apply ascending_filter. rewrite type_series_indices.
      apply nonzero_ascending.
    + intros i Hi. apply named_other_In in Hi.
      destruct Hi as [t [[v [Hv _]] _]].
      apply nth_error_Some. rewrite Hv. discriminate.
  - intros name1 name2 l1 l2 i H1 H2 Hi1 Hi2.
    rewrite (Hlist _ _ H1) in Hi1. rewrite (Hlist _ _ H2) in Hi2.
    apply named_other_In in Hi1, Hi2.
    destruct Hi1 as [t1 [[v1 [Hv1 [_ Ht1]]] [_ Hn1]]].
    destruct Hi2 as [t2 [[v2 [Hv2 [_ Ht2]]] [_ Hn2]]].
    rewrite Hv1 in Hv2. injection Hv2 as <-. congruence.
Qed.

Lemma mixed_indices_lists_witness :
  StronglySorted lt [1] /\ forall i, In i [1] -> i < 3.
Proof.
  assert (Hnd : NoDup (columns salary_and_age))
    by (simpl; repeat constructor; simpl; intuition discriminate).
  exact (proj1 (@mixed_indices_lists salary_and_age
                  (Column_ "Salary" [CInt 100; CStr "bad";
                                     CFloat (PyFloat.of_Z 200)])
                  _ Hnd (or_intror (or_introl eq_refl)) eq_refl)
           "str"%string [1] eq_refl).
Defined.

(** ** When a detector has nothing to report, and what it reports *)

Lemma dict_set_not_nil (V : Type) (d : dict V) (k : string) (v : V) :
  dict_set d k v <> [].
Proof.
  destruct d as [|[k' v'] d]; simpl; [discriminate|].
  destruct (String.eqb k k'); discriminate.
Qed.

(** A loop that sets entries ends with the empty dict only when it
    starts with it and sets nothing. *)
Lemma fold_dict_update_nil (A V : Type) (g : string -> A -> option V)
    (l : dict A) :
  forall acc,
    fold_left (fun acc ka => dict_update acc (fst ka) (g (fst ka) (snd ka)))
              l acc = [] <->
    acc = [] /\ forall k a, In (k, a) l -> g k a = None.
Proof.
  induction l as [|[k a] l IH]; intros acc; simpl.
  - split; [intros ->; split; [reflexivity|intros ? ? []]|tauto].
  - rewrite IH. split.
    + intros [Hacc Hl]. destruct (g k a) as [v|] eqn:E; simpl in Hacc.
      * exfalso. exact (dict_set_not_nil _ _ _ Hacc).
      * split; [exact Hacc|].
        intros k' a' [Heq|Hin];
          [injection Heq as <- <-; exact E|apply Hl; exact Hin].
    + intros [-> Hl]. split.
      * rewrite (Hl k a (or_introl eq_refl)). reflexivity.
      * intros k' a' Hin. apply Hl. right. exact Hin.
Qed.

Lemma or_none_of_list_NoneStr (A : Type) (l : list A) :
  or_none_of_list l = NoneStr <-> l = [].
Proof. destruct l; simpl; split; intros H; try reflexivity; discriminate. Qed.

Lemma invalid_mask_any (repr_float : float -> string)
    (keeps_missing : bool) (pattern : Type)
    (matches : pattern -> string -> bool) (c : column) (rule : pattern) :
  mask_any (Backend.invalid_mask repr_float keeps_missing matches c rule) =
    false <->
  Forall (fun v => exists s,
              astype_str repr_float keeps_missing v = Some s /\
              matches rule s = true)
         (col_cells c).
Proof.
  unfold Backend.invalid_mask, mask_not, str_match, mask_any.
  induction (col_cells c) as [|v l IH]; simpl.
  - split; [constructor|reflexivity].
  - destruct (astype_str repr_float keeps_missing v) as [s|] eqn:Es.
    + destruct (matches rule s) eqn:E; simpl.
      * rewrite IH. split.
        -- intros H. constructor; [exists s; split; [exact Es|exact E]|exact H].
        -- intros H. exact (Forall_inv_tail H).
      * split; [discriminate|]. intros H. apply Forall_inv in H.
        destruct H as [s' [Hs' Hm]]. rewrite Es in Hs'.
        injection Hs' as <-. congruence.
    + simpl. split; [discriminate|]. intros H. apply Forall_inv in H.
      destruct H as [s' [Hs' _]]. rewrite Es in Hs'. discriminate.
Qed.

(** The elements under a mask are the elements at its nonzero
    positions. *)
Lemma select_nth_from (A : Type) (d : A) (mask : list bool) :
  forall (xs : list A) (s : nat),
    List.length mask <= List.length xs ->
    select mask xs = map (fun i => nth (i - s) xs d) (nonzero_from s mask).
Proof.
  induction mask as [|b mask IH]; intros xs s Hlen; simpl; [reflexivity|].
  destruct xs as [|x xs]; simpl in Hlen; [lia|].
  assert (Htail : select mask xs =
                  map (fun i => nth (i - s) (x :: xs) d)
                      (nonzero_from (S s) mask)).
  { rewrite (IH xs (S s)) by lia. apply map_ext_in. intros i Hi.
    apply nonzero_from_In in Hi. destruct Hi as [Hle _].
    replace (i - s) with (S (i - S s)) by lia. reflexivity. }
  destruct b; simpl; [|exact Htail].
  rewrite Nat.sub_diag. simpl. rewrite Htail. reflexivity.
Qed.

Lemma select_nth (A : Type) (d : A) (mask : list bool) (xs : list A) :
  List.length mask <= List.length xs ->
  select mask xs = map (fun i => nth i xs d) (nonzero mask).
Proof.
  intros Hlen. rewrite (select_nth_from d mask xs 0 Hlen).
  apply map_ext. intros i. rewrite Nat.sub_0_r. reflexivity.
Qed.

Lemma stringify_nonfinite_finite (v : cell) :
  finite_cell (stringify_nonfinite v).
Proof.
  intros x Hx. destruct v as [| | |y| |]; simpl in Hx; try discriminate.
  destruct y as [s|s| |s m e]; simpl in Hx; try discriminate;
    injection Hx as <-; split; reflexivity.
Qed.

(** X13. [detect_invalid_inputs] of [backend.py] answers ["None"]
    exactly when, in every mapped column of the frame, [astype(str)]
    turns every cell into a string and the pattern has a match at the
    start of that string; so it does for an empty mapping and for a
    mapping that names no column of the frame, and it does not when a
    mapped column has a missing cell that [astype(str)] leaves missing
    (pandas 3).  The function of [dq.py] returns the empty dict only
    when no mapped column is in the frame: a column without an invalid
    cell gets the empty selection. *)
Theorem detect_invalid_inputs_none_iff (repr_float : float -> string)
    (keeps_missing : bool) (pattern : Type)
    (matches : pattern -> string -> bool)
    (df : DataFrame) (rules : dict pattern) :
  (Backend.detect_invalid_inputs repr_float keeps_missing matches df rules =
     NoneStr <->
   forall col rule c,
     In (col, rule) rules -> get_column df col = Some c ->
     Forall (fun v => exists s,
                 astype_str repr_float keeps_missing v = Some s /\
                 matches rule s = true)
            (col_cells c))
  /\ (forall col rule c v,
         In (col, rule) rules -> get_column df col = Some c ->
         In v (col_cells c) -> isna v = true -> keeps_missing = true ->
         Backend.detect_invalid_inputs repr_float keeps_missing matches
           df rules <> NoneStr)
  /\ (Dq.detect_invalid_inputs repr_float keeps_missing matches df rules = [] <->
      forall col rule, In (col, rule) rules -> get_column df col = None).
Proof.
  assert (Hnone :
            Backend.detect_invalid_inputs repr_float keeps_missing matches
              df rules = NoneStr <->
            forall col rule c,
              In (col, rule) rules -> get_column df col = Some c ->
              Forall (fun v => exists s,
                          astype_str repr_float keeps_missing v = Some s /\
                          matches rule s = true)
                     (col_cells c)).
  { unfold Backend.detect_invalid_inputs.
    etransitivity; [apply or_none_of_list_NoneStr|].
    rewrite (fold_left_pointwise _
               (fun acc cr => dict_update acc (fst cr)
                                (invalid_entry_of repr_float keeps_missing
                                   matches df (fst cr) (snd cr)))).
    + etransitivity;
        [apply (@fold_dict_update_nil pattern Backend.invalid_entry
                  (invalid_entry_of repr_float keeps_missing matches df)
                  rules [])|].
      split.
      * intros [_ H] col rule c Hin Hc. specialize (H col rule Hin).
        unfold invalid_entry_of in H. rewrite Hc in H. cbv zeta in H.
        apply invalid_mask_any.
        destruct (mask_any (Backend.invalid_mask repr_float keeps_missing
                              matches c rule));
          [discriminate|reflexivity].
      * intros H. split; [reflexivity|]. intros col rule Hin.
        unfold invalid_entry_of.
        destruct (get_column df col) as [c|] eqn:Hc; [|reflexivity].
        cbv zeta.
        rewrite (proj2 (invalid_mask_any repr_float keeps_missing matches
                          c rule) (H col rule c Hin Hc)).
        reflexivity.
    + intros acc [c rule]. unfold invalid_entry_of. simpl.
      destruct (get_column df c); [|reflexivity].
      destruct (mask_any _); reflexivity. }
  refine (conj Hnone (conj _ _)).
  - intros col rule c v Hin Hc Hv Hna Hkeep Hres.
    pose proof (proj1 Hnone Hres col rule c Hin Hc) as Hall.
    rewrite Forall_forall in Hall. destruct (Hall v Hv) as [s [Hs _]].
    unfold astype_str in Hs. rewrite Hna, Hkeep in Hs. discriminate.
  - unfold Dq.detect_invalid_inputs.
    rewrite (fold_left_pointwise _
               (fun acc cr => dict_update acc (fst cr)
                                (invalid_rows_of repr_float keeps_missing
                                   matches df (fst cr) (snd cr)))).
    + etransitivity;
        [apply (@fold_dict_update_nil pattern (list (nat * row))
                  (invalid_rows_of repr_float keeps_missing matches df)
                  rules [])|].
      split.
      * intros [_ H] col rule Hin. specialize (H col rule Hin).
        unfold invalid_rows_of in H.
        destruct (get_column df col); [discriminate|reflexivity].
      * intros H. split; [reflexivity|]. intros col rule Hin.
        unfold invalid_rows_of. rewrite (H col rule Hin). reflexivity.
    + intros acc [c rule]. unfold invalid_rows_of. simpl.
      destruct (get_column df c); reflexivity.
Qed.

(** X14. In an entry of [detect_invalid_inputs], [values] runs along
    [indices]: its k-th value is the cell of the column at the k-th
    index, as its [str] when the cell is a float that is NaN or an
    infinity; so no value is a float that is not finite, and the entry
    has at least one index. *)
Theorem detect_invalid_inputs_values (repr_float : float -> string)
    (keeps_missing : bool) (pattern : Type)
    (matches : pattern -> string -> bool)
    (df : DataFrame) (rules : dict pattern) (col : string)
    (e : Backend.invalid_entry) :
  NoDup (dict_keys rules) ->
  dict_get (entries (Backend.detect_invalid_inputs repr_float keeps_missing
                       matches df rules)) col =
    Some e ->
  exists c,
    get_column df col = Some c
    /\ Backend.inv_values e =
       map (fun i => stringify_nonfinite (nth i (col_cells c) CNone))
           (Backend.inv_indices e)
    /\ Backend.inv_indices e <> []
    /\ Forall finite_cell (Backend.inv_values e).
Proof.
  intros Hnd He.
  rewrite (detect_invalid_inputs_get repr_float keeps_missing matches
             df rules col Hnd) in He.
  destruct (dict_get rules col) as [rule|]; [|discriminate].
  unfold invalid_entry_of in He.
  destruct (get_column df col) as [c|]; [|discriminate].
  cbv zeta in He.
  destruct (mask_any (Backend.invalid_mask repr_float keeps_missing matches
                        c rule)) eqn:Hany;
    [|discriminate].
  injection He as <-. exists c. simpl.
  refine (conj eq_refl (conj _ (conj _ _))).
  - rewrite (select_nth CNone
               (Backend.invalid_mask repr_float keeps_missing matches c rule)
               (col_cells c)) by (rewrite invalid_mask_length; lia).
    rewrite map_map. reflexivity.
  - intros Hnil. apply mask_any_true in Hany.
    rewrite <- mask_sum_nonzero, Hnil in Hany. simpl in Hany. lia.
  - apply Forall_forall. intros v Hv. apply in_map_iff in Hv.
    destruct Hv as [w [<- _]]. apply stringify_nonfinite_finite.
Qed.

Lemma detect_invalid_inputs_values_witness :
  exists c,
    get_column readings "reading" = Some c
    /\ [CStr "nan"; CStr "n/a"; CStr "inf"] =
       map (fun i => stringify_nonfinite (nth i (col_cells c) CNone)) [1; 2; 3]
    /\ [1; 2; 3] <> []
    /\ Forall finite_cell [CStr "nan"; CStr "n/a"; CStr "inf"].
Proof.
  assert (Hnd : NoDup (dict_keys [("reading"%string, digits)]))
    by (repeat constructor; simpl; tauto).
  exact (@detect_invalid_inputs_values
           (fun _ => "nan"%string) false regex re_match
           readings [("reading"%string, digits)]
           "reading"%string
           (Backend.InvalidEntry 3 [1; 2; 3] [CStr "nan"; CStr "n/a"; CStr "inf"])
           Hnd eq_refl).
Defined.

(** *** Consistency rules *)

Lemma rows_In (df : DataFrame) (r : row) :
  In r (rows df) <-> exists i, i < nrows df /\ r = row_at df i.
Proof.
  unfold rows. rewrite in_map_iff. split.
  - intros [i [<- Hi]]. apply in_seq in Hi. exists i. split; [lia|reflexivity].
  - intros [i [Hi ->]]. exists i. split; [reflexivity|apply in_seq; lia].
Qed.

Lemma rows_nth_error (df : DataFrame) (i : nat) :
  i < nrows df -> nth_error (rows df) i = Some (row_at df i).
Proof.
  intros Hi. unfold rows. rewrite nth_error_map.
  rewrite (nth_error_nth' _ 0) by (rewrite length_seq; exact Hi).
  rewrite seq_nth by exact Hi. reflexivity.
Qed.

Lemma rule_entry_none (df : DataFrame) (name : string)
    (f : Backend.rule_func) :
  rule_entry df name f = None <->
  forall i, i < nrows df -> f (row_at df i) = Ret true.
Proof.
  unfold rule_entry, df_apply.
  destruct (mapM f (rows df)) as [passed|e] eqn:Hp.
  - pose proof (mapM_returns_nth _ _ Hp) as Hnth. cbv zeta.
    destruct (mask_any (mask_not passed)) eqn:Hany.
    + split; [discriminate|]. intros Hall. exfalso.
      apply mask_any_true in Hany. rewrite <- mask_sum_nonzero in Hany.
      destruct (nonzero (mask_not passed)) as [|k ks] eqn:Hnz;
        [simpl in Hany; lia|].
      assert (Hk : In k (nonzero (mask_not passed)))
        by (rewrite Hnz; left; reflexivity).
      apply nonzero_In in Hk. unfold mask_not in Hk.
      rewrite nth_error_map in Hk.
      destruct (nth_error passed k) as [b|] eqn:Hb; [|discriminate].
      simpl in Hk. injection Hk as Hk. destruct b; [discriminate|].
      apply Hnth in Hb. destruct Hb as [r [Hr Hf]].
      assert (Hlt : k < nrows df).
      { rewrite <- rows_length. apply nth_error_Some. rewrite Hr. discriminate. }
      rewrite (rows_nth_error df Hlt) in Hr. injection Hr as <-.
      rewrite (Hall k Hlt) in Hf. discriminate.
    + split; [|reflexivity]. intros _ i Hi.
      pose proof (rows_nth_error df Hi) as Hr.
      assert (Hlen : i < List.length passed).
      { rewrite (mapM_length _ _ Hp), rows_length. exact Hi. }
      destruct (nth_error passed i) as [b|] eqn:Hb;
        [|apply nth_error_None in Hb; lia].
      pose proof Hb as Hb'. apply Hnth in Hb'.
      destruct Hb' as [r [Hr' Hf]]. rewrite Hr in Hr'. injection Hr' as <-.
      destruct b; [exact Hf|]. exfalso.
      assert (Hin : In i (nonzero (mask_not passed))).
      { apply nonzero_In. unfold mask_not. rewrite nth_error_map, Hb.
        reflexivity. }
      rewrite (nonzero_nil_of_any _ Hany) in Hin. destruct Hin.
  - split; [discriminate|]. intros Hall. exfalso.
    assert (Htot : exists passed, mapM f (rows df) = Ret passed).
    { apply mapM_total. apply Forall_forall. intros r Hr.
      apply rows_In in Hr. destruct Hr as [i [Hi ->]].
      exists true. apply Hall. exact Hi. }
    destruct Htot as [passed Hp']. congruence.
Qed.

Lemma check_consistency_none (df : DataFrame)
    (rules : dict Backend.rule_func) :
  Backend.check_consistency df rules = NoneStr <->
  forall name f, In (name, f) rules ->
                 forall i, i < nrows df -> f (row_at df i) = Ret true.
Proof.
  unfold Backend.check_consistency.
  etransitivity; [apply or_none_of_list_NoneStr|].
  rewrite (fold_left_pointwise _
             (fun acc nr => dict_update acc (fst nr)
                              (rule_entry df (fst nr) (snd nr))))
    by (intros acc [n f]; apply check_rule_update).
  etransitivity;
    [apply (@fold_dict_update_nil Backend.rule_func Backend.consistency_entry
              (rule_entry df) rules [])|].
  split.
  - intros [_ H] name f Hin. apply (rule_entry_none df name f).
    apply H. exact Hin.
  - intros H. split; [reflexivity|]. intros name f Hin.
    apply rule_entry_none. apply (H name f Hin).
Qed.

Lemma select_nil (A : Type) (mask : list bool) (xs : list A) :
  List.length mask <= List.length xs ->
  (select mask xs = [] <-> mask_any mask = false).
Proof.
  intros Hlen. pose proof (select_length mask xs Hlen) as Hs. split.
  - intros Hnil. rewrite Hnil in Hs. simpl in Hs.
    destruct (mask_any mask) eqn:E; [|reflexivity].
    apply mask_any_true in E. lia.
  - intros Hany. apply mask_any_false in Hany.
    destruct (select mask xs); [reflexivity|simpl in Hs; lia].
Qed.

Lemma dq_check_consistency_loop_nil (df : DataFrame)
    (rules : dict Backend.rule_func) :
  forall acc,
    Dq.check_consistency_loop df rules acc = Ret [] <->
    acc = [] /\ forall name f, In (name, f) rules -> rule_entry df name f = None.
Proof.
  induction rules as [|[name f] rules IH]; intros acc; simpl.
  - split.
    + intros H. injection H as ->. split; [reflexivity|intros ? ? []].
    + intros [-> _]. reflexivity.
  - assert (Hentry : forall passed,
               df_apply df f = Ret passed ->
               (Dq.frame_select df (mask_not passed) = [] <->
                rule_entry df name f = None)).
    { intros passed Hp. unfold Dq.frame_select, enumerate.
      rewrite select_nil.
      - unfold rule_entry. rewrite Hp. cbv zeta.
        destruct (mask_any (mask_not passed)); split; intros H;
          try reflexivity; discriminate.
      - unfold mask_not. rewrite length_map, length_combine, length_seq.
        rewrite (df_apply_length _ _ Hp). lia. }
    destruct (df_apply df f) as [passed|e] eqn:Hp.
    + cbv zeta. rewrite IH. specialize (Hentry passed eq_refl). split.
      * intros [Hacc Hrest].
        destruct (Dq.frame_select df (mask_not passed)) as [|x xs] eqn:Hsel.
        -- split; [exact Hacc|]. intros n g [Heq|Hin].
           ++ injection Heq as <- <-. apply Hentry. reflexivity.
           ++ apply (Hrest n g Hin).
        -- exfalso. exact (dict_set_not_nil _ _ _ Hacc).
      * intros [-> Hall].
        rewrite (proj2 Hentry (Hall name f (or_introl eq_refl))).
        split; [reflexivity|]. intros n g Hin. apply Hall. right. exact Hin.
    + split; [discriminate|]. intros [_ Hall].
      specialize (Hall name f (or_introl eq_refl)).
      unfold rule_entry in Hall. rewrite Hp in Hall. discriminate.
Qed.

(** X15. On a frame with at least one row, [check_consistency] of
    [backend.py] answers ["None"] exactly when every rule returns [True]
    on every row, and [check_consistency] of [dq.py] returns the empty
    dict under the same condition. *)
Theorem check_consistency_none_iff (df : DataFrame)
    (rules : dict Backend.rule_func) :
  0 < nrows df ->
  let all_pass :=
    forall name f, In (name, f) rules ->
                   forall i, i < nrows df -> f (row_at df i) = Ret true in
  (Backend.check_consistency df rules = NoneStr <-> all_pass)
  /\ (Dq.check_consistency df rules = Ret [] <-> all_pass).
Proof.
  intros _. cbv zeta. split; [apply check_consistency_none|].
  unfold Dq.check_consistency.
  etransitivity; [apply dq_check_consistency_loop_nil|]. split.
  - intros [_ H] name f Hin. apply (rule_entry_none df name f), H, Hin.
  - intros H. split; [reflexivity|]. intros name f Hin.
    apply rule_entry_none, (H name f Hin).
Qed.

Lemma check_consistency_none_iff_witness :
  Backend.check_consistency ages_in_range
    [("Age at most 120"%string, age_at_most_120)] = NoneStr
  /\ Dq.check_consistency ages_in_range
       [("Age at most 120"%string, age_at_most_120)] = Ret [].
Proof.
  assert (Hrows : 0 < nrows ages_in_range) by (simpl; lia).
  pose proof (@check_consistency_none_iff ages_in_range
                [("Age at most 120"%string, age_at_most_120)] Hrows) as H.
  cbv zeta in H.
  assert (Hall : forall name f,
             In (name, f) [("Age at most 120"%string, age_at_most_120)] ->
             forall i, i < nrows ages_in_range ->
                       f (row_at ages_in_range i) = Ret true).
  { intros name f [Heq|[]] i Hi. injection Heq as <- <-.
    simpl in Hi. destruct i as [|[|[|i]]]; [reflexivity..|lia]. }
  split; [apply (proj2 (proj1 H) Hall)|apply (proj2 (proj2 H) Hall)].
Defined.




(** *** The rules of [run_data_quality_checks] *)

Lemma row_at_get (df : DataFrame) (i : nat) (col : string) :
  dict_get (row_at df i) col =
  match get_column df col with
  | Some c => Some (nth i (col_cells c) CNone)
  | None => None
  end.
Proof.
  induction df as [|c df IH]; simpl; [reflexivity|].
  destruct (String.eqb col (col_name c)); [reflexivity|exact IH].
Qed.

(** The verdict of a rule of the form
    [check(row[col]) if col in row.index else True]. *)
Lemma guarded_rule_row (df : DataFrame) (i : nat) (col : string)
    (check : cell -> bool) :
  (if dict_mem (row_at df i) col
   then (v <- row_getitem (row_at df i) col ;; Ret (check v))%exc
   else Ret true) =
  Ret match get_column df col with
      | Some c => check (nth i (col_cells c) CNone)
      | None => true
      end.
Proof.
  unfold dict_mem, row_getitem. rewrite row_at_get.
  destruct (get_column df col); reflexivity.
Qed.

Lemma valid_age_row (parse_numeric : string -> option number)
    (df : DataFrame) (i : nat) :
  Backend.valid_age parse_numeric (row_at df i) =
  Ret match get_column df "Age" with
      | Some c => valid_age_cell parse_numeric (nth i (col_cells c) CNone)
      | None => true
      end.
Proof.
  exact (guarded_rule_row df i "Age" (valid_age_cell parse_numeric)).
Qed.

Lemma salary_non_negative_row (parse_numeric : string -> option number)
    (df : DataFrame) (i : nat) :
  Backend.salary_non_negative parse_numeric (row_at df i) =
  Ret match get_column df "Salary" with
      | Some c => salary_cell parse_numeric (nth i (col_cells c) CNone)
      | None => true
      end.
Proof.
  exact (guarded_rule_row df i "Salary" (salary_cell parse_numeric)).
Qed.

Lemma string_in_set_row (df : DataFrame) (i : nat) :
  Backend.string_in_set (row_at df i) =
  Ret match get_column df "string" with
      | Some c => string_cell (nth i (col_cells c) CNone)
      | None => true
      end.
Proof.
  exact (guarded_rule_row df i "string" string_cell).
Qed.

Lemma check_consistency_reported (df : DataFrame)
    (rules : dict Backend.rule_func) (name : string) (f : Backend.rule_func)
    (i : nat) :
  NoDup (dict_keys rules) ->
  dict_get rules name = Some f ->
  (forall k, k < nrows df -> exists b, f (row_at df k) = Ret b) ->
  i < nrows df ->
  (reported (Backend.check_consistency df rules) name i <->
   f (row_at df i) = Ret false).
Proof.
  intros Hnd Hf Hret Hi. unfold reported.
  rewrite (check_consistency_get df rules name Hnd), Hf.
  assert (Hret' : forall r, In r (rows df) -> exists b, f r = Ret b).
  { intros r Hr. apply rows_In in Hr. destruct Hr as [k [Hk ->]].
    apply Hret. exact Hk. }
  pose proof (rule_entry_returns df name f Hret') as H.
  destruct (rule_entry df name f) as [[count indices failed_rows|e m]|].
  - destruct H as [_ Hidx]. split.
    + intros [c' [idx [fr [Heq Hin]]]]. injection Heq as _ <- _.
      apply Hidx in Hin. destruct Hin as [r [Hr Hfr]].
      rewrite (rows_nth_error df Hi) in Hr. injection Hr as <-. exact Hfr.
    + intros Hfalse. exists count, indices, failed_rows.
      split; [reflexivity|]. apply Hidx. exists (row_at df i).
      split; [apply rows_nth_error; exact Hi|exact Hfalse].
  - destruct H.
  - split.
    + intros [c' [idx [fr [Heq _]]]]. discriminate.
    + intros Hfalse. rewrite (H (row_at df i)) in Hfalse; [discriminate|].
      apply rows_In. exists i. split; [exact Hi|reflexivity].
Qed.

Lemma default_rules_names (parse_numeric : string -> option number) :
  NoDup (dict_keys (Backend.consistency_rules parse_numeric)).
Proof. simpl. repeat constructor; simpl; intuition discriminate. Qed.

(** X17. On a frame with at least one row, a rule of
    [run_data_quality_checks] whose column is not in the frame gives no
    entry; when the frame has none of the columns [Age], [Salary] and
    [string], [check_consistency] with these rules answers ["None"] in
    [backend.py] and returns the empty dict in [dq.py]. *)
Theorem default_rules_without_columns
    (parse_numeric : string -> option number) (df : DataFrame) :
  0 < nrows df ->
  let report :=
    Backend.check_consistency df (Backend.consistency_rules parse_numeric) in
  (get_column df "Age" = None ->
   dict_get (entries report) "Valid Age" = None)
  /\ (get_column df "Salary" = None ->
      dict_get (entries report) "Salary Non-negative" = None)
  /\ (get_column df "string" = None ->
      dict_get (entries report) "String in set" = None)
  /\ (get_column df "Age" = None -> get_column df "Salary" = None ->
      get_column df "string" = None ->
      report = NoneStr
      /\ Dq.check_consistency df (Backend.consistency_rules parse_numeric) =
         Ret []).
Proof.
  intros _. cbv zeta.
  pose proof (default_rules_names parse_numeric) as Hnd.
  refine (conj _ (conj _ (conj _ _))).
  - intros Hc. rewrite (check_consistency_get df _ "Valid Age" Hnd). simpl.
    apply rule_entry_none. intros i _. rewrite valid_age_row, Hc. reflexivity.
  - intros Hc.
    rewrite (check_consistency_get df _ "Salary Non-negative" Hnd). simpl.
    apply rule_entry_none. intros i _.
    rewrite salary_non_negative_row, Hc. reflexivity.
  - intros Hc. rewrite (check_consistency_get df _ "String in set" Hnd). simpl.
    apply rule_entry_none. intros i _. rewrite string_in_set_row, Hc.
    reflexivity.
  - intros Ha Hs Hstr.
    assert (Hall : forall name f,
               In (name, f) (Backend.consistency_rules parse_numeric) ->
               forall i, i < nrows df -> f (row_at df i) = Ret true).
    { intros name f [Heq|[Heq|[Heq|[]]]] i _; injection Heq as <- <-.
      - rewrite valid_age_row, Ha. reflexivity.
      - rewrite salary_non_negative_row, Hs. reflexivity.
      - rewrite string_in_set_row, Hstr. reflexivity. }
    split; [apply check_consistency_none; exact Hall|].
    unfold Dq.check_consistency. apply dq_check_consistency_loop_nil.
    split; [reflexivity|]. intros name f Hin.
    apply rule_entry_none, (Hall name f Hin).
Qed.

Lemma default_rules_without_columns_witness :
  Backend.check_consistency names_only
    (Backend.consistency_rules (fun _ => None)) = NoneStr.
Proof.
  assert (Hrows : 0 < nrows names_only) by (simpl; lia).
  exact (proj1 (proj2 (proj2 (proj2 (@default_rules_without_columns
                                       (fun _ => None) names_only Hrows)))
                  eq_refl eq_refl eq_refl)).
Defined.

Lemma num_le_int (a b : Z) : num_le (NInt a) (NInt b) = Z.leb a b.
Proof.
  unfold num_le, num_compare. simpl. unfold dyadic_compare. simpl.
  rewrite !Z.mul_1_r. unfold Z.leb. destruct (a ?= b)%Z; reflexivity.
Qed.

Lemma num_ge_int (a b : Z) : num_ge (NInt a) (NInt b) = Z.leb b a.
Proof.
  unfold num_ge, num_compare. simpl. unfold dyadic_compare. simpl.
  rewrite !Z.mul_1_r. unfold Z.leb. rewrite (Z.compare_antisym a b).
  destruct (a ?= b)%Z; reflexivity.
Qed.

Lemma to_numeric_missing (parse_numeric : string -> option number) (v : cell) :
  isna v = true -> to_numeric_coerce parse_numeric v = NFloat PyFloat.nan.
Proof.
  destruct v as [| | |x| |]; try discriminate; [reflexivity|].
  destruct x; try discriminate. reflexivity.
Qed.

(** X18. What the rules of [run_data_quality_checks] say of a cell, in
    a column that holds no object of another type than [bool], [int],
    [float] and [str] (such an object can make the rule raise).  A row
    whose [Age] (or [Salary], or [string]) is missing is listed under
    "Valid Age" (or "Salary Non-negative", or "String in set"); a row
    whose [Age] is the integer [z] is listed exactly when [z] is outside
    0..120, one whose [Salary] is the integer [z] exactly when [z] is
    negative, and a row is listed under "String in set" exactly when its
    [string] is not one of the five strings of the rule. *)
Theorem default_rules_on_cells (parse_numeric : string -> option number)
    (df : DataFrame) (i : nat) :
  well_formed df ->
  i < nrows df ->
  let report :=
    Backend.check_consistency df (Backend.consistency_rules parse_numeric) in
  (forall c v,
      get_column df "Age" = Some c ->
      Forall (fun w => is_other w = false) (col_cells c) ->
      nth_error (col_cells c) i = Some v ->
      (isna v = true -> reported report "Valid Age" i)
      /\ (forall z, v = CInt z ->
                    (reported report "Valid Age" i <-> ~ (0 <= z <= 120)%Z)))
  /\ (forall c v,
         get_column df "Salary" = Some c ->
      Forall (fun w => is_other w = false) (col_cells c) ->
      nth_error (col_cells c) i = Some v ->
         (isna v = true -> reported report "Salary Non-negative" i)
         /\ (forall z, v = CInt z ->
                       (reported report "Salary Non-negative" i <-> (z < 0)%Z)))
  /\ (forall c v,
         get_column df "string" = Some c ->
      Forall (fun w => is_other w = false) (col_cells c) ->
      nth_error (col_cells c) i = Some v ->
         (reported report "String in set" i <->
          ~ exists s, v = CStr s /\ In s fruits)).
Proof.
  intros _ Hi. cbv zeta.
  pose proof (default_rules_names parse_numeric) as Hnd.
  assert (Hage : reported (Backend.check_consistency df
                             (Backend.consistency_rules parse_numeric))
                          "Valid Age" i <->
                 Backend.valid_age parse_numeric (row_at df i) = Ret false).
  { apply check_consistency_reported; [exact Hnd|reflexivity| |exact Hi].
    intros k _. rewrite valid_age_row. eexists. reflexivity. }
  assert (Hsal : reported (Backend.check_consistency df
                             (Backend.consistency_rules parse_numeric))
                          "Salary Non-negative" i <->
                 Backend.salary_non_negative parse_numeric (row_at df i) =
                 Ret false).
  { apply check_consistency_reported; [exact Hnd|reflexivity| |exact Hi].
    intros k _. rewrite salary_non_negative_row. eexists. reflexivity. }
  assert (Hstr : reported (Backend.check_consistency df
                             (Backend.consistency_rules parse_numeric))
                          "String in set" i <->
                 Backend.string_in_set (row_at df i) = Ret false).
  { apply check_consistency_reported; [exact Hnd|reflexivity| |exact Hi].
    intros k _. rewrite string_in_set_row. eexists. reflexivity. }
  refine (conj _ (conj _ _)); intros c v Hc _ Hv.
  - assert (Hrow : Backend.valid_age parse_numeric (row_at df i) =
                   Ret (valid_age_cell parse_numeric v))
      by (rewrite valid_age_row, Hc, (nth_error_nth _ _ CNone Hv); reflexivity).
    rewrite Hrow in Hage. unfold valid_age_cell in Hage. cbv zeta in Hage.
    split.
    + intros Hna. apply Hage.
      rewrite (to_numeric_missing parse_numeric v Hna). reflexivity.
    + intros z ->. rewrite Hage.
      change (to_numeric_coerce parse_numeric (CInt z)) with (NInt z).
      rewrite !num_le_int. split.
      * intros H. injection H as H. apply andb_false_iff in H.
        destruct H as [H|H]; apply Z.leb_gt in H; lia.
      * intros H. f_equal. apply andb_false_iff.
        destruct (Z.leb_spec 0 z) as [H0|H0]; [|left; reflexivity].
        right. apply Z.leb_gt. lia.
  - assert (Hrow : Backend.salary_non_negative parse_numeric (row_at df i) =
                   Ret (salary_cell parse_numeric v))
      by (rewrite salary_non_negative_row, Hc, (nth_error_nth _ _ CNone Hv);
          reflexivity).
    rewrite Hrow in Hsal. unfold salary_cell in Hsal. split.
    + intros Hna. apply Hsal.
      rewrite (to_numeric_missing parse_numeric v Hna). reflexivity.
    + intros z ->. rewrite Hsal.
      change (to_numeric_coerce parse_numeric (CInt z)) with (NInt z).
      rewrite num_ge_int. split.
      * intros H. injection H as H. apply Z.leb_gt in H. exact H.
      * intros H. f_equal. apply Z.leb_gt. exact H.
  - rewrite Hstr, string_in_set_row, Hc, (nth_error_nth _ _ CNone Hv). split.
    + intros H [s [-> Hin]]. injection H as H. simpl in H.
      assert (Ht : existsb (String.eqb s) fruits = true).
      { apply existsb_exists. exists s. split; [exact Hin|apply String.eqb_refl]. }
      unfold fruits in Ht. simpl in Ht. congruence.
    + intros H. f_equal. destruct v as [| | | |s|]; try reflexivity.
      unfold string_cell.
      destruct (existsb (String.eqb s) fruits) eqn:E; [|reflexivity].
      exfalso. apply H. exists s. split; [reflexivity|].
      apply existsb_exists in E. destruct E as [t [Hin Heq]].
      apply String.eqb_eq in Heq. subst t. exact Hin.
Qed.

Lemma default_rules_on_cells_witness :
  reported (Backend.check_consistency staff
              (Backend.consistency_rules (fun _ => None)))
           "Valid Age" 1.
Proof.
  assert (Hi : 1 < nrows staff) by (simpl; lia).
  assert (Hwf : well_formed staff).
  { split; [repeat constructor|].
    simpl. repeat constructor; simpl; intuition discriminate. }
  assert (Hcells : Forall (fun w => is_other w = false)
                          [CInt 30; CNone; CInt 121])
    by (repeat constructor).
  exact (proj1 (proj1 (@default_rules_on_cells (fun _ => None) staff 1 Hwf Hi)
                  (Column_ "Age" [CInt 30; CNone; CInt 121]) CNone
                  eq_refl Hcells eq_refl)
           eq_refl).
Defined.

(** ** The report and the endpoint *)

Lemma json_safe_indices (l : list nat) : json_safe (indices_to_py l) = true.
Proof.
  unfold indices_to_py. simpl. apply forallb_forall. intros v Hv.
  apply in_map_iff in Hv. destruct Hv as [i [<- _]]. reflexivity.
Qed.

Lemma json_safe_dict_to_py (V : Type) (to_py : V -> pyval) (d : dict V) :
  (forall v, json_safe (to_py v) = true) ->
  json_safe (Backend.dict_to_py to_py d) = true.
Proof.
  intros H. unfold Backend.dict_to_py. simpl. apply forallb_forall.
  intros kv Hkv. apply in_map_iff in Hkv. destruct Hkv as [x [<- _]]. apply H.
Qed.

Lemma json_safe_type_profile (p : Backend.type_profile) :
  json_safe (Backend.type_profile_to_py p) = true.
Proof.
  unfold Backend.type_profile_to_py. simpl.
  rewrite !andb_true_r. apply andb_true_iff. split.
  - apply forallb_forall. intros kv Hkv. apply in_map_iff in Hkv.
    destruct Hkv as [x [<- _]]. reflexivity.
  - apply forallb_forall. intros kv Hkv. apply in_map_iff in Hkv.
    destruct Hkv as [x [<- _]]. apply json_safe_indices.
Qed.

Lemma json_safe_duplicates (r : Backend.duplicates_report) :
  json_safe (Backend.duplicates_to_py r) = true.
Proof.
  unfold Backend.duplicates_to_py. simpl. rewrite andb_true_r.
  apply json_safe_indices.
Qed.

Lemma json_safe_summary (r : or_none (list string)) :
  json_safe (or_none_to_py (fun l => PList (map PStr l)) r) = true.
Proof.
  destruct r as [|l]; simpl; [reflexivity|].
  apply forallb_forall. intros v Hv. apply in_map_iff in Hv.
  destruct Hv as [s [<- _]]. reflexivity.
Qed.

Lemma json_safe_fits (v : pyval) : json_safe v = true -> fits_double v = true.
Proof.
  induction v using pyval_induction; intros Hs; try reflexivity;
    try discriminate.
  - simpl in *. rewrite forallb_forall in *. rewrite Forall_forall in H.
    intros x Hx. apply (H x Hx), Hs, Hx.
  - simpl in *. rewrite forallb_forall in *. rewrite Forall_forall in H.
    intros x Hx. apply (H x Hx), Hs, Hx.
Qed.

Lemma fits_cell (c : cell) : fits_double (cell_to_py c) = true.
Proof. destruct c; reflexivity. Qed.

Lemma fits_row (r : row) : fits_double (Backend.row_to_py r) = true.
Proof.
  unfold Backend.row_to_py. simpl. apply forallb_forall. intros kv Hkv.
  apply in_map_iff in Hkv. destruct Hkv as [x [<- _]]. apply fits_cell.
Qed.

Lemma fits_consistency_entry (e : Backend.consistency_entry) :
  fits_double (Backend.consistency_entry_to_py e) = true.
Proof.
  destruct e as [count indices failed_rows|error message]; [|reflexivity].
  unfold Backend.consistency_entry_to_py.
  cbn [fits_double forallb snd].
  rewrite (json_safe_fits _ (json_safe_indices indices)).
  rewrite andb_true_r. cbn [andb]. apply forallb_forall. intros v Hv.
  apply in_map_iff in Hv. destruct Hv as [r [<- _]]. apply fits_row.
Qed.

Lemma fits_dict_to_py (V : Type) (to_py : V -> pyval) (d : dict V) :
  (forall v, fits_double (to_py v) = true) ->
  fits_double (Backend.dict_to_py to_py d) = true.
Proof.
  intros H. unfold Backend.dict_to_py. simpl. apply forallb_forall.
  intros kv Hkv. apply in_map_iff in Hkv. destruct Hkv as [x [<- _]]. apply H.
Qed.

Lemma fits_missing (r : or_none (list Backend.missing_entry)) :
  fits_double
    (or_none_to_py (fun l => PList (map Backend.missing_entry_to_py l)) r) = true.
Proof.
  destruct r as [|l]; simpl; [reflexivity|].
  apply forallb_forall. intros v Hv. apply in_map_iff in Hv.
  destruct Hv as [e [<- _]]. reflexivity.
Qed.

Lemma fits_consistency (r : or_none (dict Backend.consistency_entry)) :
  fits_double
    (or_none_to_py (Backend.dict_to_py Backend.consistency_entry_to_py) r) = true.
Proof.
  destruct r as [|d]; [reflexivity|].
  apply fits_dict_to_py, fits_consistency_entry.
Qed.

(** X19. The report of [run_data_quality_checks] always has the five
    sections [missing_values], [data_type_mismatches], [duplicates],
    [invalid_inputs] and [consistency_issues], in this order; the
    section [invalid_inputs] is always the string ["None"], for the
    function passes no pattern; the sections [data_type_mismatches] and
    [duplicates] are what the detectors return, untouched by the final
    cleaning; and the whole report holds only values of strict JSON. *)
Theorem run_data_quality_checks_report (repr_float : float -> string)
    (parse_numeric : string -> option number) (keeps_missing : bool)
    (other_eq : cell -> cell -> bool) (df : DataFrame) :
  exists missing consistency,
    Backend.run_data_quality_checks repr_float parse_numeric keeps_missing
      other_eq df =
    Ret (PDict
           [ ("missing_values", missing);
             ("data_type_mismatches",
              PDict [ ("detailed",
                       Backend.dict_to_py Backend.type_profile_to_py
                         (Backend.detect_data_type_mismatches df));
                      ("summary",
                       or_none_to_py (fun l => PList (map PStr l))
                         (Backend.format_data_type_mismatches
                            (Backend.detect_data_type_mismatches df))) ]);
             ("duplicates",
              Backend.duplicates_to_py (Backend.detect_duplicates other_eq df));
             ("invalid_inputs", PStr "None");
             ("consistency_issues", consistency) ]%string)
    /\ Backend.clean_for_json
         (or_none_to_py (fun l => PList (map Backend.missing_entry_to_py l))
                        (Backend.detect_missing_values df)) = Ret missing
    /\ json_safe missing = true
    /\ json_safe consistency = true.
Proof.
  destruct (clean_for_json_returns
              (or_none_to_py (fun l => PList (map Backend.missing_entry_to_py l))
                             (Backend.detect_missing_values df)))
    as [missing Hm].
  destruct (clean_for_json_returns
              (or_none_to_py (Backend.dict_to_py Backend.consistency_entry_to_py)
                 (Backend.check_consistency df
                    (Backend.consistency_rules parse_numeric))))
    as [consistency Hc].
  exists missing, consistency.
  refine (conj _ (conj Hm (conj (clean_for_json_result_safe _ (fits_missing _) Hm)
                                (clean_for_json_result_safe _ (fits_consistency _) Hc)))).
  unfold Backend.run_data_quality_checks, Backend.quality_results.
  cbv zeta. rewrite clean_for_json_dict.
  cbn [mapM]. unfold clean_item. cbn [fst snd bind].
  rewrite Hm, Hc.
  rewrite (clean_for_json_safe_unchanged
             (Backend.duplicates_to_py (Backend.detect_duplicates other_eq df))
             (json_safe_duplicates _)).
  assert (Hd : json_safe
                 (PDict [ ("detailed"%string,
                           Backend.dict_to_py Backend.type_profile_to_py
                             (Backend.detect_data_type_mismatches df));
                          ("summary"%string,
                           or_none_to_py (fun l => PList (map PStr l))
                             (Backend.format_data_type_mismatches
                                (Backend.detect_data_type_mismatches df))) ]) =
               true).
  { cbn [json_safe forallb snd].
    rewrite (json_safe_dict_to_py _ _ json_safe_type_profile).
    rewrite json_safe_summary. reflexivity. }
  rewrite (clean_for_json_safe_unchanged _ Hd).
  reflexivity.
Qed.

(** X20. A dataset with at least one row in which no cell is missing, no
    column has cells of two types, no row repeats an earlier row and
    every rule of the function passes gets the all-clear report:
    ["None"] for the missing values, the summary of the type mismatches,
    the invalid inputs and the consistency issues, the empty dict for
    the detailed type mismatches, and [count] 0 with no index for the
    duplicates. *)
Theorem run_data_quality_checks_all_clear (repr_float : float -> string)
    (parse_numeric : string -> option number) (keeps_missing : bool)
    (other_eq : cell -> cell -> bool) (df : DataFrame) :
  0 < nrows df ->
  NoDup (columns df) ->
  (forall c, In c df -> forall v, In v (col_cells c) -> isna v = false) ->
  (forall c, In c df -> ~ mixed_types c) ->
  (forall i j, j < i -> i < nrows df -> ~ identical_rows other_eq df i j) ->
  (forall name f, In (name, f) (Backend.consistency_rules parse_numeric) ->
                  forall i, i < nrows df -> f (row_at df i) = Ret true) ->
  Backend.run_data_quality_checks repr_float parse_numeric keeps_missing
    other_eq df =
  Ret (PDict
         [ ("missing_values", PStr "None");
           ("data_type_mismatches",
            PDict [ ("detailed", PDict []); ("summary", PStr "None") ]);
           ("duplicates",
            PDict [ ("count", PInt 0); ("indices", PList []) ]);
           ("invalid_inputs", PStr "None");
           ("consistency_issues", PStr "None") ]%string).
Proof.
  intros _ Hnd Hmissing Hmixed Hrows Hrules.
  assert (H1 : Backend.detect_missing_values df = NoneStr).
  { rewrite detect_missing_values_entries.
    assert (E : filter has_missing df = []).
    { apply filter_nil_iff. intros c Hc. apply has_missing_false.
      apply Hmissing, Hc. }
    rewrite E. reflexivity. }
  assert (H2 : Backend.detect_data_type_mismatches df = []).
  { rewrite (@detect_data_type_mismatches_entries df Hnd).
    assert (Hall : forall c, In c df -> profile_entry c = []).
    { intros c Hc. unfold profile_entry.
      pose proof (profile_entry_mixed c) as Hp.
      destruct (Backend.profile_column c); [|reflexivity].
      apply mixed_typesb_spec in Hp. destruct (Hmixed c Hc Hp). }
    clear -Hall. induction df as [|c df IH]; simpl; [reflexivity|].
    rewrite (Hall c (or_introl eq_refl)). simpl.
    apply IH. intros c' Hc'. apply Hall. right. exact Hc'. }
  assert (H3 : Backend.detect_duplicates other_eq df =
               Backend.DuplicatesReport 0 []).
  { assert (Hidx : Backend.dup_indices (Backend.detect_duplicates other_eq df)
                   = []).
    { destruct (Backend.dup_indices (Backend.detect_duplicates other_eq df))
        as [|i l] eqn:E; [reflexivity|]. exfalso.
      assert (Hin : In i (Backend.dup_indices
                            (Backend.detect_duplicates other_eq df)))
        by (rewrite E; left; reflexivity).
      apply detect_duplicates_flags in Hin.
      destruct Hin as [Hi [j [Hj Hsame]]].
      exact (Hrows i j Hj Hi Hsame). }
    pose proof (detect_duplicates_count other_eq df) as Hcount.
    rewrite Hidx in Hcount. cbn [List.length] in Hcount.
    destruct (Backend.detect_duplicates other_eq df) as [n l].
    cbn [Backend.dup_count Backend.dup_indices] in Hidx, Hcount.
    subst. reflexivity. }
  assert (H4 : Backend.check_consistency df
                 (Backend.consistency_rules parse_numeric) = NoneStr)
    by (apply check_consistency_none; exact Hrules).
  unfold Backend.run_data_quality_checks, Backend.quality_results.
  cbv zeta. rewrite H1, H2, H3, H4. reflexivity.
Qed.

Lemma run_data_quality_checks_all_clear_witness :
  Backend.run_data_quality_checks (fun _ => "0.0"%string) (fun _ => None)
    false (fun _ _ => false) people =
  Ret (PDict
         [ ("missing_values", PStr "None");
           ("data_type_mismatches",
            PDict [ ("detailed", PDict []); ("summary", PStr "None") ]);
           ("duplicates",
            PDict [ ("count", PInt 0); ("indices", PList []) ]);
           ("invalid_inputs", PStr "None");
           ("consistency_issues", PStr "None") ]%string).
Proof.
  apply (@run_data_quality_checks_all_clear
           (fun _ => "0.0"%string) (fun _ => None) false (fun _ _ => false)
           people).
  - simpl. lia.
  - simpl. repeat constructor; simpl; intuition discriminate.
  - intros c [<-|[<-|[]]] v Hv; simpl in Hv;
      repeat (destruct Hv as [<-|Hv]; [reflexivity|]); destruct Hv.
  - intros c Hc [i [j [a [b [[v [Hv [_ Ha]]] [[w [Hw [_ Hb]]] Hab]]]]]].
    apply Hab. subst a b.
    destruct Hc as [<-|[<-|[]]];
      destruct i as [|[|i]]; simpl in Hv; try (destruct i; discriminate);
      injection Hv as <-;
      destruct j as [|[|j]]; simpl in Hw; try (destruct j; discriminate);
      injection Hw as <-; reflexivity.
  - intros i j Hj Hi. unfold identical_rows. rewrite <- row_same_spec.
    simpl in Hi.
    destruct i as [|[|i]]; [lia| |lia].
    destruct j as [|j]; [vm_compute; discriminate|lia].
  - intros name f [Heq|[Heq|[Heq|[]]]] i Hi; injection Heq as <- <-;
      simpl in Hi; destruct i as [|[|i]]; try lia; reflexivity.
Defined.

(** *** The endpoint *)

Lemma substring_all (s : string) : substring 0 (String.length s) s = s.
Proof. induction s as [|a s IH]; simpl; [reflexivity|rewrite IH; reflexivity]. Qed.

Lemma substring_append (p s : string) :
  substring (String.length p) (String.length s) (p ++ s) = s.
Proof. induction p as [|a p IH]; simpl; [apply substring_all|exact IH]. Qed.

Lemma length_append (p s : string) :
  String.length (p ++ s) = String.length p + String.length s.
Proof. induction p as [|a p IH]; simpl; [reflexivity|rewrite IH; reflexivity]. Qed.

Lemma substring_split (s : string) :
  forall m, m <= String.length s ->
            s = (substring 0 m s ++ substring m (String.length s - m) s)%string.
Proof.
  induction s as [|a s IH]; intros m Hm; simpl in *.
  - destruct m; [reflexivity|lia].
  - destruct m as [|m]; simpl.
    + rewrite substring_all. reflexivity.
    + rewrite <- (IH m) by lia. reflexivity.
Qed.

(** [s.endswith(suffix)] holds exactly when [s] is some string followed
    by [suffix]. *)
Lemma endswith_spec (s suffix : string) :
  endswith s suffix = true <-> exists stem, s = (stem ++ suffix)%string.
Proof.
  unfold endswith. cbv zeta. split.
  - intros H. apply andb_true_iff in H. destruct H as [Hle Heq].
    apply Nat.leb_le in Hle. apply String.eqb_eq in Heq.
    exists (substring 0 (String.length s - String.length suffix) s).
    pose proof (@substring_split s (String.length s - String.length suffix)) as Hs.
    replace (String.length s - (String.length s - String.length suffix))
      with (String.length suffix) in Hs by lia.
    rewrite Heq in Hs. apply Hs. lia.
  - intros [stem ->]. rewrite length_append. apply andb_true_iff. split.
    + apply Nat.leb_le. lia.
    + replace (String.length stem + String.length suffix - String.length suffix)
        with (String.length stem) by lia.
      rewrite substring_append. apply String.eqb_refl.
Qed.

Lemma quality_results_fits (repr_float : float -> string)
    (parse_numeric : string -> option number) (keeps_missing : bool)
    (other_eq : cell -> cell -> bool) (df : DataFrame) :
  fits_double
    (Backend.quality_results repr_float parse_numeric keeps_missing other_eq df)
  = true.
Proof.
  unfold Backend.quality_results. cbv zeta.
  cbn [fits_double forallb snd].
  rewrite fits_missing, fits_consistency.
  rewrite (json_safe_fits _ (json_safe_duplicates _)).
  rewrite (json_safe_fits _ (json_safe_dict_to_py _ _ json_safe_type_profile)).
  rewrite (json_safe_fits _ (json_safe_summary _)).
  reflexivity.
Qed.

Lemma run_data_quality_checks_dict (repr_float : float -> string)
    (parse_numeric : string -> option number) (keeps_missing : bool)
    (other_eq : cell -> cell -> bool) (df : DataFrame) :
  exists report,
    Backend.run_data_quality_checks repr_float parse_numeric keeps_missing
      other_eq df =
      Ret (PDict report)
    /\ dict_keys report =
       ["missing_values"; "data_type_mismatches"; "duplicates";
        "invalid_inputs"; "consistency_issues"]%string
    /\ json_safe (PDict report) = true.
Proof.
  unfold Backend.run_data_quality_checks.
  destruct (clean_for_json_returns
              (Backend.quality_results repr_float parse_numeric keeps_missing
                 other_eq df)) as [r Hr].
  pose proof (clean_for_json_result_safe _
                (quality_results_fits repr_float parse_numeric keeps_missing
                   other_eq df) Hr) as Hsafe.
  unfold Backend.quality_results in Hr. cbv zeta in Hr.
  rewrite clean_for_json_dict in Hr.
  destruct (mapM clean_item _) as [report|] eqn:E; [|discriminate].
  simpl in Hr. injection Hr as <-.
  exists report. unfold Backend.quality_results. cbv zeta.
  rewrite clean_for_json_dict, E. refine (conj eq_refl (conj _ Hsafe)).
  apply mapM_clean_item_keys in E. exact E.
Qed.

(** X21. What [/analyze] answers.  An upload whose name does not end in
    [.xlsx] gets the status 400, whatever it holds.  Otherwise the
    status is 500 with the detail ["Error processing file: "] and the
    [str] of the exception when the file cannot be read and, for the two
    [print] calls of the function, when the sheet has no column
    [Salary] or no column [boolean]; and a sheet with both columns and
    at least one row gets the report of [run_data_quality_checks]
    followed by [file_info], a body of strict JSON. *)
Theorem analyze_csv_responses (repr_float : float -> string)
    (parse_numeric : string -> option number) (keeps_missing : bool)
    (other_eq : cell -> cell -> bool) (filename : string)
    (read_excel : exc DataFrame) :
  let answer :=
    Backend.analyze_csv repr_float parse_numeric keeps_missing other_eq
      filename read_excel in
  ((~ exists stem, filename = (stem ++ ".xlsx")%string) ->
   answer = Backend.HTTPException 400 "File must be a Excel")
  /\ ((exists stem, filename = (stem ++ ".xlsx")%string) ->
      (forall e, read_excel = Raise e ->
                 answer = Backend.HTTPException 500
                            ("Error processing file: " ++ e))
      /\ (forall df, read_excel = Ret df ->
            (get_column df "Salary" = None ->
             answer = Backend.HTTPException 500
                        "Error processing file: 'Salary'")
            /\ (get_column df "Salary" <> None ->
                get_column df "boolean" = None ->
                answer = Backend.HTTPException 500
                           "Error processing file: 'boolean'")
            /\ (get_column df "Salary" <> None ->
                get_column df "boolean" <> None ->
                0 < nrows df ->
                exists report,
                  Backend.run_data_quality_checks repr_float parse_numeric
                    keeps_missing other_eq df =
                    Ret (PDict report)
                  /\ answer =
                     Backend.JSONResponse
                       (PDict (report ++
                               [("file_info"%string,
                                 Backend.file_info filename df)]))
                  /\ json_safe
                       (PDict (report ++
                               [("file_info"%string,
                                 Backend.file_info filename df)])) = true))).
Proof.
  cbv zeta. unfold Backend.analyze_csv. split.
  - intros Hext. destruct (endswith filename ".xlsx") eqn:E; [|reflexivity].
    apply endswith_spec in E. contradiction.
  - intros Hext. apply endswith_spec in Hext. rewrite Hext. simpl negb. cbv iota.
    split; [intros e ->; reflexivity|].
    intros df ->. cbn [bind]. unfold frame_getitem.
    refine (conj _ (conj _ _)).
    + intros ->. reflexivity.
    + intros Hs ->. destruct (get_column df "Salary"); [reflexivity|].
      contradiction.
    + intros Hs Hb _.
      destruct (get_column df "Salary"); [|contradiction].
      destruct (get_column df "boolean"); [|contradiction].
      cbn [bind].
      destruct (run_data_quality_checks_dict repr_float parse_numeric
                  keeps_missing other_eq df)
        as [report [Hrun [Hkeys Hsafe]]].
      exists report. rewrite Hrun. cbn [bind py_setitem].
      assert (Hset : dict_set report "file_info" (Backend.file_info filename df) =
                     report ++ [("file_info"%string,
                                 Backend.file_info filename df)]).
      { apply dict_set_fresh. rewrite Hkeys. simpl. intuition discriminate. }
      rewrite Hset.
      assert (Hall : json_safe
                       (PDict (report ++
                               [("file_info"%string,
                                 Backend.file_info filename df)])) = true).
      { simpl in Hsafe |- *. rewrite forallb_app, Hsafe. simpl.
        rewrite !andb_true_r. apply forallb_forall. intros v Hv.
        apply in_map_iff in Hv. destruct Hv as [s [<- _]]. reflexivity. }
      rewrite (clean_for_json_safe_unchanged _ Hall).
      refine (conj eq_refl (conj eq_refl Hall)).
Qed.
